(** * M-Class enrolment: the admission engine

  A shallow embedding of the capacity-limited "apply to class" path of the
  M-Class backend: the storage layer as the services use it (the tables
  [users], [mclasses] and [applications] with their primary keys, the unique
  index on (userId, classId) and the cascading foreign keys), the services
  [ApplicationService] and [MClassService], and the controllers
  [ApplicationController] and [MClassController] that sit on top of them.

  Conventions.
  - A [Date] is a JavaScript time value: milliseconds since the epoch, in [Z].
  - A JavaScript [number] that holds a count or a capacity is a [Z].
  - Identifiers are strings (UUIDs); the generated key of an application row
    is a sequence number kept in the store, since no code under study ever
    inspects it.
  - A thrown JavaScript [Error] is a [JsError]: its message and, for a
    [PrismaClientKnownRequestError], its error code.
  - A handler is given twice.  In the modules named after the source files
    it is a function on the store: the store is passed in and the response
    comes back with the new store, which is the handler served to its end
    while no other call is in flight.  In [Async] the same handler is the
    sequence of its awaited queries, so that the queries of several calls
    can be served in any order; the source takes no lock and sets no
    isolation level, so nothing keeps them apart.  The two agree on a call
    that is alone.
  - What the storage engine may do to a transaction from outside (abort it)
    enters [createApplication] as the explicit argument [fault]. *)

From Stdlib Require Import ZArith List String Ascii Bool Lia.
From Stdlib Require Import Sorting.Sorted Sorting.Permutation.
Import ListNotations.

Local Open Scope string_scope.
Local Open Scope Z_scope.

(* ================================================================== *)
(** ** JavaScript helpers *)

Module Js.

(** [String.prototype.includes]: [sub] occurs somewhere in [s]. *)
Fixpoint includes (s sub : string) : bool :=
  if String.prefix sub s then true
  else match s with
       | EmptyString => false
       | String _ rest => includes rest sub
       end.

(** A thrown error object.  [prismaCode] is [Some c] exactly for instances
    of [Prisma.PrismaClientKnownRequestError]. *)
Record JsError := mkError { prismaCode : option string; message : string }.

(** [new Error(msg)] *)
Definition Error (msg : string) : JsError := mkError None msg.

(** A computation that either throws or returns. *)
Definition Result (A : Type) : Type := (JsError + A)%type.

Definition throw {A} (e : JsError) : Result A := inl e.
Definition ret {A} (a : A) : Result A := inr a.
(** What a call returned, if it did. *)
Definition returned {A} (m : Result A) : option A :=
  match m with
  | inl _ => None
  | inr a => Some a
  end.
Definition bind {A B} (m : Result A) (k : A -> Result B) : Result B :=
  match m with
  | inl e => inl e
  | inr a => k a
  end.

(** [Math.ceil(a / b)] for a count [a >= 0] and a page size [b > 0]. *)
Definition ceil_div (a b : Z) : Z := (a + b - 1) / b.

(** [parseInt(q) || d], on the result of [parseInt]: [None] is [NaN], and
    [NaN] and [0] are the falsy numbers. *)
Definition orDefault (parsed : option Z) (d : Z) : Z :=
  match parsed with
  | None => d
  | Some n => if n =? 0 then d else n
  end.

End Js.

Notation "x <- m ;; k" := (Js.bind m (fun x => k))
(at level 61, m at next level, right associativity).

(* ================================================================== *)
(** ** utils/validation.ts *)

Module ValidationUtil.

Inductive CharClass := Hex | Dash | Version | Variant.

Definition isDigit (a : ascii) : bool :=
  let n := nat_of_ascii a in (48 <=? n)%nat && (n <=? 57)%nat.

(** [[0-9a-f]] under the [i] flag *)
Definition isHex (a : ascii) : bool :=
  let n := nat_of_ascii a in
  isDigit a || ((97 <=? n)%nat && (n <=? 102)%nat)
            || ((65 <=? n)%nat && (n <=? 70)%nat).

Definition inClass (c : CharClass) (a : ascii) : bool :=
  let n := nat_of_ascii a in
  match c with
  | Hex => isHex a
  | Dash => (n =? 45)%nat
  | Version => (49 <=? n)%nat && (n <=? 53)%nat
  | Variant => (n =? 56)%nat || (n =? 57)%nat
               || (n =? 97)%nat || (n =? 98)%nat
               || (n =? 65)%nat || (n =? 66)%nat
  end.

(** [/^[0-9a-f]{8}-[0-9a-f]{4}-[1-5][0-9a-f]{3}-[89ab][0-9a-f]{3}-[0-9a-f]{12}$/i] *)
Definition uuidRegex : list CharClass :=
  repeat Hex 8 ++ [Dash] ++ repeat Hex 4 ++ [Dash]
  ++ [Version] ++ repeat Hex 3 ++ [Dash]
  ++ [Variant] ++ repeat Hex 3 ++ [Dash] ++ repeat Hex 12.

Fixpoint test (re : list CharClass) (s : string) : bool :=
  match re, s with
  | [], EmptyString => true
  | c :: re', String a s' => inClass c a && test re' s'
  | _, _ => false
  end.

Record ValidationResult := { isValid : bool; errors : list string }.

Definition validateUUID (uuid : string) : ValidationResult :=
  match uuid with
  | EmptyString => {| isValid := false; errors := ["UUID is required"] |}
  | _ =>
      let errors := if test uuidRegex uuid then [] else ["Invalid UUID format"] in
      {| isValid := match errors with [] => true | _ => false end;
         errors := errors |}
  end.

(** *** [sanitizeString] and [validatePassword]

    A string stands for the JavaScript string with the same code units, all
    below 256. *)

Definition code (a : ascii) : nat := nat_of_ascii a.

Fixpoint existsChar (p : ascii -> bool) (s : string) : bool :=
  match s with
  | EmptyString => false
  | String a rest => p a || existsChar p rest
  end.

Definition isLt (a : ascii) : bool := (code a =? 60)%nat.
Definition isGt (a : ascii) : bool := (code a =? 62)%nat.
Definition isNul (a : ascii) : bool := (code a =? 0)%nat.

(** [input.replace(/<[^>]*>/g, '')]: a [<] opens a match when a [>] follows
    somewhere, and the match runs to the first such [>]; once no [>] is left
    nothing matches any more. *)
Fixpoint removeTags (inTag : bool) (s : string) : string :=
  match s with
  | EmptyString => EmptyString
  | String a rest =>
      if inTag then
        if isGt a then removeTags false rest else removeTags true rest
      else if isLt a then
        if existsChar isGt rest then removeTags true rest else s
      else String a (removeTags false rest)
  end.

(** White space and line terminators, as [trim] sees them. *)
Definition isSpace (a : ascii) : bool :=
  let n := code a in
  ((9 <=? n)%nat && (n <=? 13)%nat) || (n =? 32)%nat || (n =? 160)%nat.

Fixpoint trimStart (s : string) : string :=
  match s with
  | EmptyString => EmptyString
  | String a rest => if isSpace a then trimStart rest else s
  end.

Fixpoint trimEnd (s : string) : string :=
  match s with
  | EmptyString => EmptyString
  | String a rest =>
      match trimEnd rest with
      | EmptyString => if isSpace a then EmptyString else String a EmptyString
      | kept => String a kept
      end
  end.

Definition trim (s : string) : string := trimEnd (trimStart s).

(** [s.replace(/\0/g, '')] *)
Fixpoint removeNul (s : string) : string :=
  match s with
  | EmptyString => EmptyString
  | String a rest => if isNul a then removeNul rest else String a (removeNul rest)
  end.

Definition sanitizeString (input : string) : string :=
  let sanitized := removeTags false input in
  let sanitized := trim sanitized in
  removeNul sanitized.

Definition isLower (a : ascii) : bool := (97 <=? code a)%nat && (code a <=? 122)%nat.
Definition isUpper (a : ascii) : bool := (65 <=? code a)%nat && (code a <=? 90)%nat.

(** [[@$!%*?&]] *)
Definition isSpecial (a : ascii) : bool :=
  let n := code a in
  (n =? 64)%nat || (n =? 36)%nat || (n =? 33)%nat || (n =? 37)%nat
  || (n =? 42)%nat || (n =? 63)%nat || (n =? 38)%nat.

(** What [.] does not match. *)
Definition isLineTerminator (a : ascii) : bool :=
  (code a =? 10)%nat || (code a =? 13)%nat.

(** [/(.)\1{2,}/]: some character, not a line terminator, three times in a
    row. *)
Fixpoint hasTripleRepeat (s : string) : bool :=
  match s with
  | String a ((String b (String c _)) as rest) =>
      (negb (isLineTerminator a) && Ascii.eqb a b && Ascii.eqb b c) || hasTripleRepeat rest
  | _ => false
  end.

Definition toLowerAscii (a : ascii) : ascii :=
  if isUpper a then ascii_of_nat (code a + 32) else a.

Fixpoint lowerCase (s : string) : string :=
  match s with
  | EmptyString => EmptyString
  | String a rest => String (toLowerAscii a) (lowerCase rest)
  end.

(** The four [commonPatterns]: [/123456/] as it is, the other three under
    the [i] flag. *)
Definition hasCommonPattern (password : string) : bool :=
  Js.includes password "123456"
  || Js.includes (lowerCase password) "password"
  || Js.includes (lowerCase password) "qwerty"
  || Js.includes (lowerCase password) "admin".

Definition pushIf (cond : bool) (msg : string) (errors : list string) : list string :=
  if cond then errors ++ [msg] else errors.

Definition validatePassword (password : string) : ValidationResult :=
  match password with
  | EmptyString => {| isValid := false; errors := ["Password is required"] |}
  | _ =>
      let errors := [] in
      let errors := pushIf (String.length password <? 8)%nat
                      "Password must be at least 8 characters long" errors in
      let errors := pushIf (128 <? String.length password)%nat
                      "Password must not exceed 128 characters" errors in
      let errors := pushIf (negb (existsChar isLower password))
                      "Password must contain at least one lowercase letter" errors in
      let errors := pushIf (negb (existsChar isUpper password))
                      "Password must contain at least one uppercase letter" errors in
      let errors := pushIf (negb (existsChar isDigit password))
                      "Password must contain at least one number" errors in
      let errors := pushIf (negb (existsChar isSpecial password))
                      "Password must contain at least one special character (@$!%*?&)" errors in
      let errors := pushIf (hasTripleRepeat password)
                      "Password must not contain more than 2 repeated characters in a row" errors in
      let errors := pushIf (hasCommonPattern password)
                      "Password contains common patterns and is not secure" errors in
      {| isValid := match errors with [] => true | _ => false end;
         errors := errors |}
  end.

End ValidationUtil.

(* ================================================================== *)
(** ** The HTTP responses of the controllers *)

Module Http.

(** [res.status(st).json(...)]: either a success envelope with its data or
    an error envelope [{ code, message, details }]. *)
Inductive Response (A : Type) : Type :=
| Success (status : Z) (data : A) (message : string)
| Failure (status : Z) (code message : string) (details : list string).
Arguments Success {A} status data message.
Arguments Failure {A} status code message details.

(** [res.status(400).json(ValidationUtil.createValidationError(errors))] *)
Definition createValidationError {A} (errors : list string) : Response A :=
  Failure 400 "VALIDATION_ERROR" "Validation failed" errors.

Definition isSuccess {A} (r : Response A) : bool :=
  match r with Success _ _ _ => true | Failure _ _ _ _ => false end.

(** The [pagination] object of the list responses. *)
Record Pagination := {
  page : Z;
  limit : Z;
  total : Z;
  totalPages : Z;
  hasNext : bool;
  hasPrev : bool
}.

End Http.

(* ================================================================== *)
(** ** The rows of the three tables (backup_data.sql) *)

Definition ID := string.
Definition Date := Z.

Module User.
Record t := mk { id : ID; email : string; isAdmin : bool }.
End User.

(** [mclasses]: the bookkeeping columns [createdAt] and [updatedAt] play no
    part in admission and are left out. *)
Module MClass.
Record t := mk {
  id : ID;
  title : string;
  description : string;
  maxParticipants : Z;
  startAt : Date;
  endAt : Date;
  hostId : ID
}.
End MClass.

Module Application.
Record t := mk { id : nat; userId : ID; classId : ID; createdAt : Date }.
End Application.

(* ================================================================== *)
(** ** The storage layer, as the Prisma client presents it *)

Module Prisma.
Import Js.

Record DB := mkDB {
  users : list User.t;
  mclasses : list MClass.t;
  applications : list Application.t;
  nextId : nat
}.

(** The known request errors the services look for. *)
Definition P2002 : JsError := mkError (Some "P2002") "Unique constraint failed on the fields: (`userId`,`classId`)".
Definition P2003 : JsError := mkError (Some "P2003") "Foreign key constraint failed on the field".
Definition P2025 : JsError := mkError (Some "P2025") "An operation failed because it depends on one or more records that were required but not found.".

(** [maxParticipants integer] (backup_data.sql): the column holds a signed
    32-bit integer.  [skip] of [findMany] is a signed 64-bit integer to the
    client.  A call that carries a number outside the range throws before
    the table is looked at; no handler looks for the text of that error. *)
Definition int4 (n : Z) : bool := (-2147483648 <=? n) && (n <=? 2147483647).
Definition int8 (n : Z) : bool :=
  (-9223372036854775808 <=? n) && (n <=? 9223372036854775807).
Definition valueOutOfRange : JsError :=
  mkError None "Unable to fit integer value into the requested type".

(** The error of an aborted transaction (write conflict or deadlock). *)
Definition P2034 : JsError := mkError (Some "P2034") "Transaction failed due to a write conflict or a deadlock. Please retry your transaction".

Definition hasCode (code : string) (error : JsError) : bool :=
  match prismaCode error with
  | Some c => String.eqb c code
  | None => false
  end.

(** The compound key [unique_user_class_application]. *)
Definition isFor (userId classId : ID) (a : Application.t) : bool :=
  String.eqb (Application.userId a) userId && String.eqb (Application.classId a) classId.

Definition ofClass (classId : ID) (a : Application.t) : bool :=
  String.eqb (Application.classId a) classId.

Definition ofUser (userId : ID) (a : Application.t) : bool :=
  String.eqb (Application.userId a) userId.

Definition hasId (id : ID) (c : MClass.t) : bool := String.eqb (MClass.id c) id.

Definition user_exists (id : ID) (db : DB) : bool :=
  existsb (fun u => String.eqb (User.id u) id) (users db).

(** [prisma.mClass.findUnique({ where: { id } })] *)
Definition mClass_findUnique (id : ID) (db : DB) : option MClass.t :=
  find (hasId id) (mclasses db).

(** [prisma.application.count({ where })], also the relation count
    [_count: { select: { applications: true } }] of a class. *)
Definition application_count (where_ : Application.t -> bool) (db : DB) : Z :=
  Z.of_nat (List.length (filter where_ (applications db))).

(** [prisma.application.findUnique({ where: { unique_user_class_application } })] *)
Definition application_findUnique (userId classId : ID) (db : DB) : option Application.t :=
  find (isFor userId classId) (applications db).

(** [prisma.application.create({ data: { userId, classId } })].  The table
    enforces its unique index (P2002) and its two foreign keys (P2003); the
    key comes from the sequence and [createdAt] defaults to the clock. *)
Definition application_create (now : Date) (userId classId : ID) (db : DB)
  : Result (Application.t * DB) :=
  if existsb (isFor userId classId) (applications db) then throw P2002
  else if negb (user_exists userId db) then throw P2003
  else if negb (existsb (hasId classId) (mclasses db)) then throw P2003
  else
    let a := Application.mk (nextId db) userId classId now in
    ret (a, mkDB (users db) (mclasses db) (applications db ++ [a]) (S (nextId db))).

Fixpoint remove_first {A} (p : A -> bool) (l : list A) : list A :=
  match l with
  | [] => []
  | x :: rest => if p x then rest else x :: remove_first p rest
  end.

(** [prisma.application.delete({ where: { unique_user_class_application } })]:
    removes the one row with that key, P2025 when there is none. *)
Definition application_delete (userId classId : ID) (db : DB) : Result (Application.t * DB) :=
  match application_findUnique userId classId db with
  | None => throw P2025
  | Some a =>
      ret (a, mkDB (users db) (mclasses db)
                   (remove_first (isFor userId classId) (applications db)) (nextId db))
  end.

(** [prisma.mClass.delete({ where: { id } })]: the foreign key
    [applications_classId_fkey] is ON DELETE CASCADE, so the applications of
    the class go with it. *)
Definition mClass_delete (id : ID) (db : DB) : Result (MClass.t * DB) :=
  match mClass_findUnique id db with
  | None => throw P2025
  | Some c =>
      ret (c, mkDB (users db)
                   (remove_first (hasId id) (mclasses db))
                   (filter (fun a => negb (ofClass id a)) (applications db))
                   (nextId db))
  end.

(** [prisma.mClass.create({ data })] with the generated key [id]. *)
Definition mClass_create (c : MClass.t) (db : DB) : Result (MClass.t * DB) :=
  if negb (int4 (MClass.maxParticipants c)) then throw valueOutOfRange
  else if existsb (hasId (MClass.id c)) (mclasses db) then throw P2002
  else if negb (user_exists (MClass.hostId c) db) then throw P2003
  else ret (c, mkDB (users db) (mclasses db ++ [c]) (applications db) (nextId db)).

(** [orderBy]: insertion into a list kept in order.  The source orders by
    [createdAt] alone, which leaves the order of rows with equal keys to the
    store; here they stay in table order.  What is proved of a listing with
    equal keys holds for every order of them, or is stated for distinct keys. *)
Fixpoint insert_by {A} (le : A -> A -> bool) (x : A) (l : list A) : list A :=
  match l with
  | [] => [x]
  | y :: rest => if le x y then x :: l else y :: insert_by le x rest
  end.

Definition sort_by {A} (le : A -> A -> bool) (l : list A) : list A :=
  fold_right (insert_by le) [] l.

Definition asc (a b : Application.t) : bool :=
  Application.createdAt a <=? Application.createdAt b.
Definition desc (a b : Application.t) : bool :=
  Application.createdAt b <=? Application.createdAt a.

(** [prisma.application.findMany({ where, orderBy, skip, take })] for the
    arguments the controllers pass: [skip >= 0] and [1 <= take <= 50].  A
    [skip] that is no 64-bit integer makes the call throw. *)
Definition application_findMany (where_ : Application.t -> bool)
  (orderBy : Application.t -> Application.t -> bool) (skip take : Z) (db : DB)
  : Result (list Application.t) :=
  if negb (int8 skip) then throw valueOutOfRange
  else
    ret (firstn (Z.to_nat take)
           (skipn (Z.to_nat skip) (sort_by orderBy (filter where_ (applications db))))).

(** [prisma.$transaction(callback)] of a call that is alone: the callback
    runs on the store from its first query to its last.  [fault] is what the
    storage engine does to the transaction from outside: [Some e] makes it
    throw [e] with nothing written. *)
Definition transaction {A} (fault : option JsError)
  (callback : DB -> Result (A * DB)) (db : DB) : Result (A * DB) :=
  match fault with
  | Some e => throw e
  | None => callback db
  end.

(** [prisma.user.findUnique({ where: { id } })] *)
Definition user_findUnique (id : ID) (db : DB) : option User.t :=
  find (fun u => String.eqb (User.id u) id) (users db).

Definition hostedBy (userId : ID) (c : MClass.t) : bool :=
  String.eqb (MClass.hostId c) userId.

(** [prisma.user.delete({ where: { id } })].  Both foreign keys on the user
    are ON DELETE CASCADE: the applications of the user go, the classes the
    user hosts go, and with those classes their applications. *)
Definition user_delete (id : ID) (db : DB) : Result (User.t * DB) :=
  match user_findUnique id db with
  | None => throw P2025
  | Some u =>
      let gone := filter (hostedBy id) (mclasses db) in
      ret (u, mkDB (remove_first (fun u => String.eqb (User.id u) id) (users db))
                   (filter (fun c => negb (hostedBy id c)) (mclasses db))
                   (filter (fun a => negb (ofUser id a)
                                     && negb (existsb (hasId (Application.classId a)) gone))
                           (applications db))
                   (nextId db))
  end.

(** [prisma.application.deleteMany({ where })]: the number of rows removed. *)
Definition application_deleteMany (where_ : Application.t -> bool) (db : DB) : Z * DB :=
  (application_count where_ db,
   mkDB (users db) (mclasses db)
        (filter (fun a => negb (where_ a)) (applications db)) (nextId db)).

(** The [data] of an update: a field left [undefined] is [None] and keeps
    its value. *)
Record MClassUpdate := {
  set_title : option string;
  set_description : option string;
  set_maxParticipants : option Z;
  set_startAt : option Date;
  set_endAt : option Date
}.

Definition orKeep {A} (new : option A) (old : A) : A :=
  match new with
  | Some v => v
  | None => old
  end.

Definition applyUpdate (data : MClassUpdate) (c : MClass.t) : MClass.t :=
  MClass.mk (MClass.id c)
    (orKeep (set_title data) (MClass.title c))
    (orKeep (set_description data) (MClass.description c))
    (orKeep (set_maxParticipants data) (MClass.maxParticipants c))
    (orKeep (set_startAt data) (MClass.startAt c))
    (orKeep (set_endAt data) (MClass.endAt c))
    (MClass.hostId c).

Fixpoint update_first {A} (p : A -> bool) (f : A -> A) (l : list A) : list A :=
  match l with
  | [] => []
  | x :: rest => if p x then f x :: rest else x :: update_first p f rest
  end.

(** The new capacity, if there is one, is a number the column holds. *)
Definition capacityFits (data : MClassUpdate) : bool :=
  match set_maxParticipants data with
  | Some n => int4 n
  | None => true
  end.

(** New texts and dates that every layer between the caller and the columns
    represents: a text without NUL, which a [text] column refuses, and a date
    within the years 1970 to 9999.  What an update with other texts or dates
    does is not settled by the source, and nothing is proved of it. *)
Definition plainText (s : option string) : bool :=
  match s with
  | Some s => negb (ValidationUtil.existsChar ValidationUtil.isNul s)
  | None => true
  end.
Definition plainDate (d : option Date) : bool :=
  match d with
  | Some d => (0 <=? d) && (d <=? 253402300799999)
  | None => true
  end.
Definition plain (data : MClassUpdate) : bool :=
  plainText (set_title data) && plainText (set_description data)
  && plainDate (set_startAt data) && plainDate (set_endAt data).

(** [prisma.mClass.update({ where: { id }, data })].  The new values are
    checked against their columns before the row is looked for. *)
Definition mClass_update (id : ID) (data : MClassUpdate) (db : DB) : Result (MClass.t * DB) :=
  if negb (capacityFits data) then throw valueOutOfRange
  else
  match mClass_findUnique id db with
  | None => throw P2025
  | Some c =>
      ret (applyUpdate data c,
           mkDB (users db) (update_first (hasId id) (applyUpdate data) (mclasses db))
                (applications db) (nextId db))
  end.

(** [prisma.user.update({ where: { id }, data: { isAdmin } })].  For a
    missing row the client throws a known request error; its text differs
    between versions of the client, so the error is an argument. *)
Definition setAdmin (isAdmin : option bool) (u : User.t) : User.t :=
  User.mk (User.id u) (User.email u) (orKeep isAdmin (User.isAdmin u)).

Definition user_update (recordNotFound : JsError) (id : ID) (isAdmin : option bool) (db : DB)
  : Result (User.t * DB) :=
  match user_findUnique id db with
  | None => throw recordNotFound
  | Some u =>
      ret (setAdmin isAdmin u,
           mkDB (update_first (fun u => String.eqb (User.id u) id) (setAdmin isAdmin) (users db))
                (mclasses db) (applications db) (nextId db))
  end.

Definition byStartAt (a b : MClass.t) : bool := MClass.startAt a <=? MClass.startAt b.

(** [prisma.mClass.findMany({ where, orderBy: { startAt: 'asc' }, skip, take })]
    for [skip >= 0] and [take >= 1].  As for the applications, a [skip] that
    is no 64-bit integer makes the call throw. *)
Definition mClass_findMany (where_ : MClass.t -> bool) (skip take : Z) (db : DB)
  : Result (list MClass.t) :=
  if negb (int8 skip) then throw valueOutOfRange
  else
    ret (firstn (Z.to_nat take)
           (skipn (Z.to_nat skip) (sort_by byStartAt (filter where_ (mclasses db))))).

(** [prisma.mClass.count({ where })] *)
Definition mClass_count (where_ : MClass.t -> bool) (db : DB) : Z :=
  Z.of_nat (List.length (filter where_ (mclasses db))).

End Prisma.

(* ================================================================== *)
(** ** services/application.ts *)

Module ApplicationService.
Import Js Prisma.

Record CreateApplicationData := { userId : ID; classId : ID }.

Record ApplicationPage := {
  page_applications : list Application.t;
  total : Z;
  totalPages : Z
}.

Record ApplicationStats := {
  currentApplications : Z;
  maxParticipants : Z;
  availableSpots : Z;
  isFullyBooked : bool
}.

(** The callback handed to [$transaction]: read the class with its
    application count, refuse a full class, refuse a second application of the
    same user, insert. *)
Definition createApplication_tx (now : Date) (data : CreateApplicationData) (prisma : DB)
  : Result (Application.t * DB) :=
  match mClass_findUnique (classId data) prisma with
  | None => throw (Error "Class not found")
  | Some classWithCount =>
      let currentApplications := application_count (ofClass (classId data)) prisma in
      if MClass.maxParticipants classWithCount <=? currentApplications
      then throw (Error "Class is fully booked")
      else
        match application_findUnique (userId data) (classId data) prisma with
        | Some _ => throw (Error "User has already applied to this class")
        | None => application_create now (userId data) (classId data) prisma
        end
  end.

(** The [catch] block of [createApplication]. *)
Definition createApplication_catch (error : JsError) : JsError :=
  if hasCode "P2002" error then Error "User has already applied to this class"
  else if hasCode "P2003" error then Error "Invalid user ID or class ID"
  else error.

Definition createApplication (fault : option JsError) (now : Date)
  (data : CreateApplicationData) (db : DB) : Result (Application.t * DB) :=
  match transaction fault (createApplication_tx now data) db with
  | inr r => ret r
  | inl error => throw (createApplication_catch error)
  end.

(** Newest first.  The class and host joined to each row by [include] do
    not take part in the selection or the order and are left out, here and in
    the listing of a class.  [Promise.all] waits for the page and for the
    count; the call throws when the page does. *)
Definition getUserApplications (userId : ID) (page limit : Z) (db : DB)
  : Result ApplicationPage :=
  let skip := (page - 1) * limit in
  applications <- application_findMany (ofUser userId) desc skip limit db ;;
  let total := application_count (ofUser userId) db in
  ret {| page_applications := applications; total := total;
         totalPages := ceil_div total limit |}.

(** First come, first served. *)
Definition getClassApplications (classId : ID) (page limit : Z) (db : DB)
  : Result ApplicationPage :=
  let skip := (page - 1) * limit in
  applications <- application_findMany (ofClass classId) asc skip limit db ;;
  let total := application_count (ofClass classId) db in
  ret {| page_applications := applications; total := total;
         totalPages := ceil_div total limit |}.

Definition hasUserApplied (userId classId : ID) (db : DB) : bool :=
  match application_findUnique userId classId db with
  | Some _ => true
  | None => false
  end.

Definition cancelApplication (userId classId : ID) (db : DB) : Result (unit * DB) :=
  match application_delete userId classId db with
  | inr (_, db') => ret (tt, db')
  | inl error =>
      if hasCode "P2025" error then throw (Error "Application not found")
      else throw error
  end.

Definition getApplicationStats (classId : ID) (db : DB) : option ApplicationStats :=
  match mClass_findUnique classId db with
  | None => None
  | Some result =>
      let currentApplications := application_count (ofClass classId) db in
      let availableSpots := MClass.maxParticipants result - currentApplications in
      Some {| currentApplications := currentApplications;
              maxParticipants := MClass.maxParticipants result;
              availableSpots := Z.max 0 availableSpots;
              isFullyBooked := availableSpots <=? 0 |}
  end.

Definition deleteApplicationsByClassId (classId : ID) (db : DB) : Z * DB :=
  application_deleteMany (ofClass classId) db.

End ApplicationService.

(* ================================================================== *)
(** ** services/mclass.ts *)

Module MClassService.
Import Js Prisma.

(** An [MClass] row together with its [_count.applications]. *)
Record MClassWithStats := { mclass : MClass.t; currentParticipants : Z }.

Record ClassStats := {
  stats_currentParticipants : Z;
  maxParticipants : Z;
  availableSpots : Z;
  isFullyBooked : bool
}.

Definition createClass (data : MClass.t) (db : DB) : Result (MClass.t * DB) :=
  match mClass_create data db with
  | inr r => ret r
  | inl error =>
      if hasCode "P2002" error then throw (Error "A class with this title already exists")
      else throw error
  end.

Definition getClassById (id : ID) (db : DB) : option MClassWithStats :=
  match mClass_findUnique id db with
  | None => None
  | Some c =>
      Some {| mclass := c; currentParticipants := application_count (ofClass id) db |}
  end.

Definition deleteClass (id : ID) (db : DB) : Result (unit * DB) :=
  match mClass_delete id db with
  | inr (_, db') => ret (tt, db')
  | inl error =>
      if hasCode "P2025" error then throw (Error "Class not found")
      else throw error
  end.

Definition getClassStats (id : ID) (db : DB) : option ClassStats :=
  match mClass_findUnique id db with
  | None => None
  | Some c =>
      let currentParticipants := application_count (ofClass id) db in
      let availableSpots := MClass.maxParticipants c - currentParticipants in
      Some {| stats_currentParticipants := currentParticipants;
              maxParticipants := MClass.maxParticipants c;
              availableSpots := Z.max 0 availableSpots;
              isFullyBooked := availableSpots <=? 0 |}
  end.

Record ClassPage := {
  classes : list MClassWithStats;
  total : Z;
  totalPages : Z
}.

(** Classes that have not ended (all of them with [includeExpired]), by
    start time, one page at a time, each with its application count. *)
Definition getClasses (page limit : Z) (includeExpired : bool) (now : Date) (db : DB)
  : Result ClassPage :=
  let skip := (page - 1) * limit in
  let whereCondition :=
    if includeExpired then (fun _ : MClass.t => true)
    else (fun c => now <=? MClass.endAt c) in
  classes <- mClass_findMany whereCondition skip limit db ;;
  let total := mClass_count whereCondition db in
  let classesWithStats :=
    map (fun c => {| mclass := c;
                     currentParticipants := application_count (ofClass (MClass.id c)) db |})
        classes in
  ret {| classes := classesWithStats; total := total; totalPages := ceil_div total limit |}.

Definition updateClass (id : ID) (data : MClassUpdate) (db : DB) : Result (MClass.t * DB) :=
  match mClass_update id data db with
  | inr r => ret r
  | inl error =>
      if hasCode "P2025" error then throw (Error "Class not found")
      else throw error
  end.

(** [mclass?.hostId === userId] *)
Definition isUserHost (classId userId : ID) (db : DB) : bool :=
  match mClass_findUnique classId db with
  | Some c => String.eqb (MClass.hostId c) userId
  | None => false
  end.

End MClassService.

(* ================================================================== *)
(** ** services/user.ts: the part of [UserService] that touches the ledger *)

Module UserService.
Import Js Prisma.

(** [deleteUser] has no [catch]: the error of the store is the error of the
    call. *)
Definition deleteUser (userId : ID) (db : DB) : Result (unit * DB) :=
  match user_delete userId db with
  | inr (_, db') => ret (tt, db')
  | inl error => throw error
  end.

(** [updateUser] as the admin handlers call it, with [{ isAdmin }] alone:
    [updateData.email] and [updateData.password] are undefined there, so the
    two branches on them are skipped and [updateFields] holds [isAdmin]
    only.  It has no [catch] either. *)
Record UpdateData := { isAdmin : option bool }.

Definition updateUser (recordNotFound : JsError) (userId : ID) (updateData : UpdateData)
  (db : DB) : Result (User.t * DB) :=
  user_update recordNotFound userId (isAdmin updateData) db.

End UserService.

(* ================================================================== *)
(** ** utils/jwt.ts *)

Module JwtUtil.

Record JwtPayload := { userId : ID; email : string; isAdmin : bool }.

(** [String.prototype.split] on a one-character separator. *)
Fixpoint split (sep : ascii) (s : string) : list string :=
  match s with
  | EmptyString => [EmptyString]
  | String a rest =>
      if Ascii.eqb a sep then EmptyString :: split sep rest
      else match split sep rest with
           | [] => [String a EmptyString]
           | part :: parts => String a part :: parts
           end
  end.

(** [authHeader] is [None] when the header is absent. *)
Definition extractTokenFromHeader (authHeader : option string) : option string :=
  match authHeader with
  | None => None
  | Some EmptyString => None
  | Some header =>
      match split " " header with
      | [scheme; token] =>
          if negb (String.eqb scheme "Bearer") then None
          else if String.eqb token "" then None else Some token
      | _ => None
      end
  end.

End JwtUtil.

(* ================================================================== *)
(** ** controllers/application.ts *)

Module ApplicationController.
Import Js Prisma Http.

(** The [catch] block of [applyToClass]: the thrown message picks the
    response. *)
Definition applyToClass_catch {A} (error : JsError) : Response A :=
  if includes (message error) "already applied" then
    Failure 409 "CONFLICT" "You have already applied to this class" []
  else if includes (message error) "Class is fully booked" then
    Failure 409 "CAPACITY_EXCEEDED" "Class is fully booked. No more applications can be accepted." []
  else if includes (message error) "Class not found" then
    Failure 404 "NOT_FOUND" "Class not found" []
  else if includes (message error) "Invalid user ID or class ID" then
    Failure 400 "VALIDATION_ERROR" "Invalid class or user information" []
  else
    Failure 500 "INTERNAL_SERVER_ERROR" "Failed to submit application" [].

(** [POST /api/mclasses/:classId/apply] for the authenticated [userId].  The
    notification mail is sent in the background after the response is decided
    and cannot change it, so it has no place here. *)
Definition applyToClass (fault : option JsError) (now : Date) (classId userId : ID) (db : DB)
  : Response (Application.t * MClassService.MClassWithStats) * DB :=
  if String.eqb classId "" then (createValidationError ["Class ID is required"], db)
  else
    let uuidValidation := ValidationUtil.validateUUID classId in
    if negb (ValidationUtil.isValid uuidValidation)
    then (createValidationError (ValidationUtil.errors uuidValidation), db)
    else
      match MClassService.getClassById classId db with
      | None => (Failure 404 "NOT_FOUND" "Class not found" [], db)
      | Some mclass =>
          if MClass.startAt (MClassService.mclass mclass) <=? now then
            (Failure 400 "VALIDATION_ERROR" "Cannot apply to a class that has already started" [], db)
          else
            match ApplicationService.createApplication fault now
                    {| ApplicationService.userId := userId;
                       ApplicationService.classId := classId |} db with
            | inr (application, db') =>
                (Success 201 (application, mclass) "Application submitted successfully", db')
            | inl error => (applyToClass_catch error, db)
            end
      end.

(** [DELETE /api/mclasses/:classId/apply] *)
Definition cancelApplication (now : Date) (classId userId : ID) (db : DB)
  : Response MClassService.MClassWithStats * DB :=
  if String.eqb classId "" then (createValidationError ["Class ID is required"], db)
  else
    let uuidValidation := ValidationUtil.validateUUID classId in
    if negb (ValidationUtil.isValid uuidValidation)
    then (createValidationError (ValidationUtil.errors uuidValidation), db)
    else
      match MClassService.getClassById classId db with
      | None => (Failure 404 "NOT_FOUND" "Class not found" [], db)
      | Some mclass =>
          if MClass.startAt (MClassService.mclass mclass) <=? now then
            (Failure 400 "VALIDATION_ERROR"
               "Cannot cancel application for a class that has already started" [], db)
          else
            match ApplicationService.cancelApplication userId classId db with
            | inr (_, db') => (Success 200 mclass "Application cancelled successfully", db')
            | inl error =>
                if includes (message error) "not found" then
                  (Failure 404 "NOT_FOUND" "Application not found" [], db)
                else
                  (Failure 500 "INTERNAL_SERVER_ERROR" "Failed to cancel application" [], db)
            end
      end.

(** [GET /api/users/applications]: [qpage] and [qlimit] are what [parseInt]
    makes of the two query parameters, [None] for [NaN].  A page too large
    for the store to skip to makes the service throw, and the [catch] of the
    handler answers 500. *)
Definition getUserApplications (user : JwtUtil.JwtPayload) (qpage qlimit : option Z) (db : DB)
  : Response (list Application.t * Pagination) :=
  let page := orDefault qpage 1 in
  let limit := Z.min (orDefault qlimit 10) 50 in
  if (page <? 1) || (limit <? 1)
  then createValidationError ["Page and limit must be positive integers"]
  else
    match ApplicationService.getUserApplications (JwtUtil.userId user) page limit db with
    | inr result =>
        Success 200
          (ApplicationService.page_applications result,
           {| Http.page := page;
              Http.limit := limit;
              Http.total := ApplicationService.total result;
              Http.totalPages := ApplicationService.totalPages result;
              Http.hasNext := page <? ApplicationService.totalPages result;
              Http.hasPrev := 1 <? page |})
          "User applications retrieved successfully"
    | inl _ => Failure 500 "INTERNAL_SERVER_ERROR" "Failed to retrieve applications" []
    end.

(** [GET /api/mclasses/:classId/applications]: for an admin or the host of
    the class only. *)
Definition getClassApplications (user : JwtUtil.JwtPayload) (classId : ID)
  (qpage qlimit : option Z) (db : DB)
  : Response (MClassService.MClassWithStats * list Application.t * Pagination) :=
  if String.eqb classId "" then createValidationError ["Class ID is required"]
  else
    let uuidValidation := ValidationUtil.validateUUID classId in
    if negb (ValidationUtil.isValid uuidValidation)
    then createValidationError (ValidationUtil.errors uuidValidation)
    else
      match MClassService.getClassById classId db with
      | None => Failure 404 "NOT_FOUND" "Class not found" []
      | Some mclass =>
          let isHost := MClassService.isUserHost classId (JwtUtil.userId user) db in
          if negb (JwtUtil.isAdmin user) && negb isHost then
            Failure 403 "FORBIDDEN" "Only admin or class host can view applications" []
          else
            let page := orDefault qpage 1 in
            let limit := Z.min (orDefault qlimit 10) 50 in
            if (page <? 1) || (limit <? 1)
            then createValidationError ["Page and limit must be positive integers"]
            else
              match ApplicationService.getClassApplications classId page limit db with
              | inr result =>
                  Success 200
                    (mclass, ApplicationService.page_applications result,
                     {| Http.page := page;
                        Http.limit := limit;
                        Http.total := ApplicationService.total result;
                        Http.totalPages := ApplicationService.totalPages result;
                        Http.hasNext := page <? ApplicationService.totalPages result;
                        Http.hasPrev := 1 <? page |})
                    "Class applications retrieved successfully"
              | inl _ =>
                  Failure 500 "INTERNAL_SERVER_ERROR" "Failed to retrieve class applications" []
              end
      end.

End ApplicationController.

(* ================================================================== *)
(** ** controllers/mclass.ts *)

Module MClassController.
Import Js Prisma Http.

(** The body of [POST /api/mclasses] once it has its five fields: [title]
    and [description] after [sanitizeString], [maxParticipants] as [Some n]
    when it is an integer number, and each date as the time value of
    [new Date(...)], [None] for an invalid date.  Lengths are those of ASCII
    text. *)
Record CreateClassBody := {
  title : string;
  description : string;
  maxParticipants : option Z;
  startAt : option Date;
  endAt : option Date
}.

Definition strlen (s : string) : Z := Z.of_nat (String.length s).

(** [createClass] for the admin [userId]; [newId] is the key the store
    generates for the row. *)
Definition createClass (now : Date) (newId userId : ID) (body : CreateClassBody) (db : DB)
  : Response MClass.t * DB :=
  if String.eqb (title body) "" || (strlen (title body) <? 3) || (100 <? strlen (title body))
  then (createValidationError ["Title must be between 3 and 100 characters"], db)
  else if String.eqb (description body) "" || (500 <? strlen (description body))
  then (createValidationError ["Description must not exceed 500 characters"], db)
  else
    match maxParticipants body with
    | None => (createValidationError ["Maximum participants must be a positive integer"], db)
    | Some maxP =>
      if maxP <? 1
      then (createValidationError ["Maximum participants must be a positive integer"], db)
      else
        match startAt body with
        | None => (createValidationError ["Start date must be a valid ISO date"], db)
        | Some startDate =>
          match endAt body with
          | None => (createValidationError ["End date must be a valid ISO date"], db)
          | Some endDate =>
            if startDate <=? now
            then (createValidationError ["Start date must be in the future"], db)
            else if endDate <=? startDate
            then (createValidationError ["End date must be after start date"], db)
            else
              let classData :=
                MClass.mk newId (title body) (description body) maxP startDate endDate userId in
              match MClassService.createClass classData db with
              | inr (newClass, db') => (Success 201 newClass "M-Class created successfully", db')
              | inl error =>
                  if includes (message error) "already exists" then
                    (Failure 409 "CONFLICT" "A class with this title already exists" [], db)
                  else
                    (Failure 500 "INTERNAL_SERVER_ERROR" "Failed to create M-Class" [], db)
              end
          end
        end
    end.

(** The per-class figures [getClasses] and [getClassById] put in their
    response. *)
Record ClassSummary := { availableSpots : Z; isFullyBooked : bool }.

Definition summary (m : MClassService.MClassWithStats) : ClassSummary :=
  let maxP := MClass.maxParticipants (MClassService.mclass m) in
  let cur := MClassService.currentParticipants m in
  {| availableSpots := Z.max 0 (maxP - cur);
     isFullyBooked := maxP <=? cur |}.

(** [DELETE /api/mclasses/:classId] (admin only).  The response names the
    deleted class. *)
Definition deleteClass (classId : ID) (db : DB) : Response MClass.t * DB :=
  if String.eqb classId "" then (createValidationError ["Class ID is required"], db)
  else
    let uuidValidation := ValidationUtil.validateUUID classId in
    if negb (ValidationUtil.isValid uuidValidation)
    then (createValidationError (ValidationUtil.errors uuidValidation), db)
    else
      match MClassService.getClassById classId db with
      | None => (Failure 404 "NOT_FOUND" "Class not found" [], db)
      | Some existingClass =>
          match MClassService.deleteClass classId db with
          | inr (_, db') =>
              (Success 200 (MClassService.mclass existingClass) "M-Class deleted successfully", db')
          | inl error =>
              if includes (message error) "not found" then
                (Failure 404 "NOT_FOUND" "Class not found" [], db)
              else
                (Failure 500 "INTERNAL_SERVER_ERROR" "Failed to delete M-Class" [], db)
          end
      end.

(** [GET /api/mclasses]; [includeExpired] is [req.query.includeExpired === 'true']. *)
Definition getClasses (qpage qlimit : option Z) (includeExpired : bool) (now : Date) (db : DB)
  : Response (list (MClassService.MClassWithStats * ClassSummary) * Pagination) :=
  let page := orDefault qpage 1 in
  let limit := Z.min (orDefault qlimit 10) 50 in
  if (page <? 1) || (limit <? 1)
  then createValidationError ["Page and limit must be positive integers"]
  else
    match MClassService.getClasses page limit includeExpired now db with
    | inr result =>
        Success 200
          (map (fun m => (m, summary m)) (MClassService.classes result),
           {| Http.page := page;
              Http.limit := limit;
              Http.total := MClassService.total result;
              Http.totalPages := MClassService.totalPages result;
              Http.hasNext := page <? MClassService.totalPages result;
              Http.hasPrev := 1 <? page |})
          "Classes retrieved successfully"
    | inl _ => Failure 500 "INTERNAL_SERVER_ERROR" "Failed to retrieve classes" []
    end.

(** [GET /api/mclasses/:classId] *)
Definition getClassById (classId : ID) (db : DB)
  : Response (MClassService.MClassWithStats * ClassSummary) :=
  if String.eqb classId "" then createValidationError ["Class ID is required"]
  else
    let uuidValidation := ValidationUtil.validateUUID classId in
    if negb (ValidationUtil.isValid uuidValidation)
    then createValidationError (ValidationUtil.errors uuidValidation)
    else
      match MClassService.getClassById classId db with
      | None => Failure 404 "NOT_FOUND" "Class not found" []
      | Some mclass => Success 200 (mclass, summary mclass) "Class details retrieved successfully"
      end.

End MClassController.

(* ================================================================== *)
(** ** middleware/validation.ts: the schema [mclassValidation.create]

    The two custom validators of the schema, on the parsed dates.  The
    schema is exported by the middleware module; the route
    [mclassRouter.post('/', strictLimiter, ...adminOnly, mclassController.createClass)]
    does not mount it. *)

Module mclassValidation.

Definition minDuration : Z := 30 * 60 * 1000.
Definition maxDuration : Z := 8 * 60 * 60 * 1000.

(** [body('startAt').custom(...)]: [None] when the validator returns true,
    the thrown message otherwise. *)
Definition startAt_custom (now start endAt : Date) : option string :=
  if start <=? now then Some "Start date must be in the future"
  else if endAt <=? start then Some "Start date must be before end date"
  else None.

(** [body('endAt').custom(...)] *)
Definition endAt_custom (now startAt end_ : Date) : option string :=
  if end_ <=? now then Some "End date must be in the future"
  else if end_ - startAt <? minDuration then Some "Class duration must be at least 30 minutes"
  else if maxDuration <? end_ - startAt then Some "Class duration must not exceed 8 hours"
  else None.

(** The schema lets the dates through when both validators return true. *)
Definition create_accepts_dates (now startAt endAt : Date) : bool :=
  match startAt_custom now startAt endAt, endAt_custom now startAt endAt with
  | None, None => true
  | _, _ => false
  end.

End mclassValidation.

(* ================================================================== *)
(** ** middleware/auth.ts *)

Module AuthMiddleware.
Import Js Prisma Http.

(** How [jwt.verify] of the jsonwebtoken library can fail. *)
Inductive JwtFailure := TokenExpiredError | JsonWebTokenError | OtherFailure.

Section WithLibrary.

(** The library call [jwt.verify(token, secret, { issuer, audience })] and
    whether [JWT_SECRET] is set. *)
Variable jwt_verify : string -> JwtFailure + JwtUtil.JwtPayload.
Variable secretConfigured : bool.

(** [JwtUtil.verifyToken] *)
Definition verifyToken (token : string) : Result JwtUtil.JwtPayload :=
  if negb secretConfigured then throw (Error "JWT_SECRET is not configured")
  else
    match jwt_verify token with
    | inr decoded => ret decoded
    | inl TokenExpiredError => throw (Error "Token has expired")
    | inl JsonWebTokenError => throw (Error "Invalid token")
    | inl OtherFailure => throw (Error "Token verification failed")
    end.

(** [authenticate]: an answer that ends the request, or the user attached
    to it for the next handler. *)
Definition authenticate {A} (authorization : option string) (db : DB)
  : Response A + JwtUtil.JwtPayload :=
  match JwtUtil.extractTokenFromHeader authorization with
  | None => inl (Failure 401 "UNAUTHORIZED" "Access token is required" [])
  | Some token =>
      match verifyToken token with
      | inl error => inl (Failure 401 "UNAUTHORIZED" (message error) [])
      | inr payload =>
          match user_findUnique (JwtUtil.userId payload) db with
          | None => inl (Failure 401 "UNAUTHORIZED" "User not found" [])
          | Some user =>
              inr {| JwtUtil.userId := User.id user;
                     JwtUtil.email := User.email user;
                     JwtUtil.isAdmin := User.isAdmin user |}
          end
      end
  end.

(** [requireAdmin]: [None] lets the request through. *)
Definition requireAdmin {A} (user : option JwtUtil.JwtPayload) : option (Response A) :=
  match user with
  | None => Some (Failure 401 "UNAUTHORIZED" "Authentication required" [])
  | Some u =>
      if negb (JwtUtil.isAdmin u) then Some (Failure 403 "FORBIDDEN" "Admin privileges required" [])
      else None
  end.

End WithLibrary.

End AuthMiddleware.

(* ================================================================== *)
(** ** routes/mclass.ts

    Each route as the chain of its middleware and its handler.  The rate
    limiters stand before the chain and are taken to let the request
    through. *)

Module mclassRouter.
Import Js Prisma Http.

Section WithLibrary.
Variable jwt_verify : string -> AuthMiddleware.JwtFailure + JwtUtil.JwtPayload.
Variable secretConfigured : bool.

(** [mclassRouter.use(authenticate)] in front of a handler. *)
Definition authenticated {A} (authorization : option string) (db : DB)
  (handler : JwtUtil.JwtPayload -> Response A * DB) : Response A * DB :=
  match AuthMiddleware.authenticate jwt_verify secretConfigured authorization db with
  | inl response => (response, db)
  | inr user => handler user
  end.

(** [...adminOnly], that is [authenticate] once more and [requireAdmin]. *)
Definition adminOnly {A} (authorization : option string) (db : DB)
  (handler : JwtUtil.JwtPayload -> Response A * DB) : Response A * DB :=
  authenticated authorization db (fun _ =>
    authenticated authorization db (fun user =>
      match AuthMiddleware.requireAdmin (Some user) with
      | Some response => (response, db)
      | None => handler user
      end)).

(** [mclassRouter.post('/', strictLimiter, ...adminOnly, mclassController.createClass)] *)
Definition post_mclass (now : Date) (newId : ID) (authorization : option string)
  (body : MClassController.CreateClassBody) (db : DB) : Response MClass.t * DB :=
  adminOnly authorization db (fun user =>
    MClassController.createClass now newId (JwtUtil.userId user) body db).

(** [mclassRouter.delete('/:classId', strictLimiter, ...adminOnly, mclassController.deleteClass)] *)
Definition delete_mclass (authorization : option string) (classId : ID) (db : DB)
  : Response MClass.t * DB :=
  adminOnly authorization db (fun _ => MClassController.deleteClass classId db).


(** [mclassRouter.delete('/:classId/apply', generalLimiter, applicationController.cancelApplication)] *)
Definition delete_apply (now : Date) (authorization : option string) (classId : ID) (db : DB)
  : Response MClassService.MClassWithStats * DB :=
  authenticated authorization db (fun user =>
    ApplicationController.cancelApplication now classId (JwtUtil.userId user) db).

(** [mclassRouter.get('/:classId/applications', generalLimiter, applicationController.getClassApplications)] *)
Definition get_applications (authorization : option string) (classId : ID)
  (qpage qlimit : option Z) (db : DB)
  : Response (MClassService.MClassWithStats * list Application.t * Pagination) * DB :=
  authenticated authorization db (fun user =>
    (ApplicationController.getClassApplications user classId qpage qlimit db, db)).

End WithLibrary.

End mclassRouter.

(* ================================================================== *)
(** ** controllers/admin.ts: promotion and demotion *)

Module AdminController.
Import Js Prisma Http.

Section WithClient.
Variable recordNotFound : JsError.

Definition promoteToAdmin (userId : ID) (db : DB) : Response User.t * DB :=
  if String.eqb userId "" then (createValidationError ["User ID is required"], db)
  else
    let uuidValidation := ValidationUtil.validateUUID userId in
    if negb (ValidationUtil.isValid uuidValidation)
    then (createValidationError (ValidationUtil.errors uuidValidation), db)
    else
      match UserService.updateUser recordNotFound userId
              {| UserService.isAdmin := Some true |} db with
      | inr (updatedUser, db') =>
          (Success 200 updatedUser "User promoted to admin successfully", db')
      | inl error =>
          if includes (message error) "Record to update not found"
          then (Failure 404 "NOT_FOUND" "User not found" [], db)
          else (Failure 500 "INTERNAL_SERVER_ERROR" "Failed to promote user to admin" [], db)
      end.

(** [user] is [req.user]; [userId === req.user?.userId] is false without
    one, the id being a non-empty string at that point. *)
Definition demoteAdmin (user : option JwtUtil.JwtPayload) (userId : ID) (db : DB)
  : Response User.t * DB :=
  if String.eqb userId "" then (createValidationError ["User ID is required"], db)
  else
    let uuidValidation := ValidationUtil.validateUUID userId in
    if negb (ValidationUtil.isValid uuidValidation)
    then (createValidationError (ValidationUtil.errors uuidValidation), db)
    else if match user with
            | Some u => String.eqb userId (JwtUtil.userId u)
            | None => false
            end
    then (Failure 400 "VALIDATION_ERROR" "Cannot demote yourself" [], db)
    else
      match UserService.updateUser recordNotFound userId
              {| UserService.isAdmin := Some false |} db with
      | inr (updatedUser, db') =>
          (Success 200 updatedUser "Admin privileges removed successfully", db')
      | inl error =>
          if includes (message error) "Record to update not found"
          then (Failure 404 "NOT_FOUND" "User not found" [], db)
          else (Failure 500 "INTERNAL_SERVER_ERROR" "Failed to remove admin privileges" [], db)
      end.

End WithClient.

End AdminController.

(* ================================================================== *)
(** ** The admin routes (listed after routes/mclass.ts)

    [adminRouter] has no [use(authenticate)] of its own: each route carries
    [...adminOnly]. *)

Module adminRouter.
Import Js Prisma Http.

Section WithLibrary.
Variable jwt_verify : string -> AuthMiddleware.JwtFailure + JwtUtil.JwtPayload.
Variable secretConfigured : bool.
Variable recordNotFound : JsError.

Definition adminOnly {A} (authorization : option string) (db : DB)
  (handler : JwtUtil.JwtPayload -> Response A * DB) : Response A * DB :=
  match AuthMiddleware.authenticate jwt_verify secretConfigured authorization db with
  | inl response => (response, db)
  | inr user =>
      match AuthMiddleware.requireAdmin (Some user) with
      | Some response => (response, db)
      | None => handler user
      end
  end.

(** [adminRouter.put('/users/:userId/promote', authLimiter, ...adminOnly, adminController.promoteToAdmin)] *)
Definition put_promote (authorization : option string) (userId : ID) (db : DB)
  : Response User.t * DB :=
  adminOnly authorization db (fun _ =>
    AdminController.promoteToAdmin recordNotFound userId db).

(** [adminRouter.put('/users/:userId/demote', authLimiter, ...adminOnly, adminController.demoteAdmin)] *)
Definition put_demote (authorization : option string) (userId : ID) (db : DB)
  : Response User.t * DB :=
  adminOnly authorization db (fun user =>
    AdminController.demoteAdmin recordNotFound (Some user) userId db).

(** A request to one of the two routes, and a sequence of them served one
    after the other, each to its end before the next is taken up. *)
Inductive Request :=
| Promote (authorization : option string) (userId : ID)
| Demote (authorization : option string) (userId : ID).

Definition serve (request : Request) (db : DB) : Response User.t * DB :=
  match request with
  | Promote authorization userId => put_promote authorization userId db
  | Demote authorization userId => put_demote authorization userId db
  end.

Fixpoint serveAll (requests : list Request) (db : DB) : DB :=
  match requests with
  | [] => db
  | request :: rest => serveAll rest (snd (serve request db))
  end.

End WithLibrary.

End adminRouter.

(* ================================================================== *)
(** ** The error messages module (listed after controllers/mclass.ts) *)

Module ErrorMessages.
Import Js.

Definition EMAIL_ALREADY_EXISTS := "An account with this email address already exists".
Definition RESOURCE_NOT_FOUND := "The requested resource could not be found".
Definition AUTHENTICATION_REQUIRED := "Please sign in to access this resource".
Definition ACCESS_DENIED := "You do not have permission to access this resource".
Definition VALIDATION_FAILED := "Please check the provided information and correct any errors".
Definition TOO_MANY_REQUESTS := "Too many requests. Please wait before trying again".
Definition CAPACITY_EXCEEDED := "This class is fully booked. No more applications can be accepted".
Definition ALREADY_APPLIED := "You have already applied to this class".
Definition INTERNAL_ERROR := "An unexpected error occurred. Please try again later".

(** [getUserFriendlyMessage], on the message of the error. *)
Definition getUserFriendlyMessage (message : string) : string :=
  if includes message "duplicate key" || includes message "unique constraint"
  then EMAIL_ALREADY_EXISTS
  else if includes message "not found" || includes message "does not exist"
  then RESOURCE_NOT_FOUND
  else if includes message "unauthorized" || includes message "authentication"
  then AUTHENTICATION_REQUIRED
  else if includes message "forbidden" || includes message "permission"
  then ACCESS_DENIED
  else if includes message "validation" || includes message "invalid"
  then VALIDATION_FAILED
  else if includes message "rate limit" || includes message "too many"
  then TOO_MANY_REQUESTS
  else if includes message "capacity" || includes message "full"
  then CAPACITY_EXCEEDED
  else if includes message "already applied" || includes message "duplicate application"
  then ALREADY_APPLIED
  else INTERNAL_ERROR.

End ErrorMessages.

(* ================================================================== *)
(** ** The vocabulary of the specification, on the embedded code *)

Module Admission.
Import Js Prisma Http.

(** The admission errors, as the responses that carry them. *)
Definition ClassNotFound {A} : Response A :=
  Failure 404 "NOT_FOUND" "Class not found" [].
Definition ClassAlreadyStarted {A} : Response A :=
  Failure 400 "VALIDATION_ERROR" "Cannot apply to a class that has already started" [].
Definition AlreadyApplied {A} : Response A :=
  Failure 409 "CONFLICT" "You have already applied to this class" [].
Definition CapacityExceeded {A} : Response A :=
  Failure 409 "CAPACITY_EXCEEDED" "Class is fully booked. No more applications can be accepted." [].
Definition InternalServerError {A} : Response A :=
  Failure 500 "INTERNAL_SERVER_ERROR" "Failed to submit application" [].

(** The cancellation errors. *)
Definition CancelClassAlreadyStarted {A} : Response A :=
  Failure 400 "VALIDATION_ERROR" "Cannot cancel application for a class that has already started" [].
Definition ApplicationNotFound {A} : Response A :=
  Failure 404 "NOT_FOUND" "Application not found" [].

(** The code of an error response. *)
Definition errorCode {A} (r : Response A) : option string :=
  match r with
  | Success _ _ _ => None
  | Failure _ code _ _ => Some code
  end.

(** An error that neither [catch] block of the Apply path recognises: it has
    no code the service remaps and no message the controller looks for.  A
    lock timeout or a serialization conflict is of this kind. *)
Definition unrecognised (e : JsError) : bool :=
  negb (hasCode "P2002" e) && negb (hasCode "P2003" e)
  && negb (includes (message e) "already applied")
  && negb (includes (message e) "Class is fully booked")
  && negb (includes (message e) "Class not found")
  && negb (includes (message e) "Invalid user ID or class ID").

(** Occupancy is derived, never stored. *)
Definition occupancy (classId : ID) (db : DB) : Z :=
  application_count (ofClass classId) db.

Definition hasApplied (userId classId : ID) (db : DB) : Prop :=
  exists a, In a (applications db) /\ isFor userId classId a = true.

(** The core invariant: no class holds more applications than seats. *)
Definition capacity_ok (db : DB) : Prop :=
  forall c, In c (mclasses db) -> occupancy (MClass.id c) db <= MClass.maxParticipants c.

(** The primary key of [mclasses]. *)
Definition class_keys_unique (db : DB) : Prop :=
  NoDup (map MClass.id (mclasses db)).

(** The unique index [applications_userId_classId_key]. *)
Definition pair (a : Application.t) : ID * ID :=
  (Application.userId a, Application.classId a).
Definition pairs_unique (db : DB) : Prop :=
  NoDup (map pair (applications db)).

(** [db'] is [db] with one new row: [userId], registered and without a
    record for the class, was admitted to [classId] below its capacity. *)
Definition admitted (now : Date) (classId userId : ID) (db db' : DB) : Prop :=
  exists c,
    mClass_findUnique classId db = Some c /\
    occupancy classId db < MClass.maxParticipants c /\
    application_findUnique userId classId db = None /\
    user_exists userId db = true /\
    db' = mkDB (users db) (mclasses db)
               (applications db ++ [Application.mk (nextId db) userId classId now])
               (S (nextId db)).

(** The operations that change the application ledger. *)
Inductive Op :=
| Apply (fault : option JsError) (now : Date) (classId userId : ID)
| Cancel (now : Date) (classId userId : ID)
| DeleteClass (classId : ID).

Definition exec (op : Op) (db : DB) : DB :=
  match op with
  | Apply fault now classId userId =>
      snd (ApplicationController.applyToClass fault now classId userId db)
  | Cancel now classId userId =>
      snd (ApplicationController.cancelApplication now classId userId db)
  | DeleteClass classId => snd (MClassController.deleteClass classId db)
  end.

(** The stores reached when every call is served to its end before the next
    one is taken up.  Calls that are in flight together are the subject of
    [Async] below. *)
Inductive reachable (db0 : DB) : DB -> Prop :=
| reach_start : reachable db0 db0
| reach_step : forall db op, reachable db0 db -> reachable db0 (exec op db).

(** A burst of Apply calls on one class, served one after the other: each
    call is a user with the clock reading of their request. *)
Fixpoint applyAll (classId : ID) (calls : list (ID * Date)) (db : DB)
  : list (Response (Application.t * MClassService.MClassWithStats)) * DB :=
  match calls with
  | [] => ([], db)
  | (userId, now) :: rest =>
      let (r, db1) := ApplicationController.applyToClass None now classId userId db in
      let (rs, db2) := applyAll classId rest db1 in
      (r :: rs, db2)
  end.

Definition count {A} (p : A -> bool) (l : list A) : Z :=
  Z.of_nat (List.length (filter p l)).

(** [r] is the error response [e]: same status, code, message and details. *)
Definition failsWith {A B} (e : Response B) (r : Response A) : bool :=
  match e, r with
  | Failure st code msg details, Failure st' code' msg' details' =>
      (st =? st') && String.eqb code code' && String.eqb msg msg'
      && (if list_eq_dec string_dec details details' then true else false)
  | _, _ => false
  end.

(** The primary key of [users]. *)
Definition user_keys_unique (db : DB) : Prop :=
  NoDup (map User.id (users db)).

(** The foreign keys: every application names a stored user and a stored
    class, every class a stored host. *)
Definition references_ok (db : DB) : Prop :=
  (forall a, In a (applications db) ->
             user_exists (Application.userId a) db = true /\
             existsb (hasId (Application.classId a)) (mclasses db) = true) /\
  (forall c, In c (mclasses db) -> user_exists (MClass.hostId c) db = true).

(** A store as the schema wants it. *)
Definition consistent (db : DB) : Prop :=
  class_keys_unique db /\ capacity_ok db /\ pairs_unique db /\ references_ok db.

(** The ledger operations together with class creation and user deletion. *)
Inductive Command :=
| Ledger (op : Op)
| CreateClass (now : Date) (newId userId : ID) (body : MClassController.CreateClassBody)
| DeleteUser (userId : ID).

Definition run (cmd : Command) (db : DB) : DB :=
  match cmd with
  | Ledger op => exec op db
  | CreateClass now newId userId body =>
      snd (MClassController.createClass now newId userId body db)
  | DeleteUser userId =>
      match UserService.deleteUser userId db with
      | inr (_, db') => db'
      | inl _ => db
      end
  end.

Fixpoint runAll (cmds : list Command) (db : DB) : DB :=
  match cmds with
  | [] => db
  | cmd :: rest => runAll rest (run cmd db)
  end.

(** Some stored user is an administrator. *)
Definition hasAdmin (db : DB) : bool := existsb User.isAdmin (users db).

(** [s] holds a complete tag: a [<] with a [>] somewhere after it, which is
    what [/<[^>]*>/] matches. *)
Fixpoint hasTag (s : string) : bool :=
  match s with
  | EmptyString => false
  | String a rest =>
      (ValidationUtil.isLt a && ValidationUtil.existsChar ValidationUtil.isGt rest)
      || hasTag rest
  end.

End Admission.

(* ================================================================== *)
(** ** Calls in flight together

    The handlers above take a call as one step on the store, which is a call
    served while no other is in flight.  Node.js runs an [async] function up
    to its next [await] and then turns to whatever else is ready, so the
    queries of several calls reach the store interleaved.  [$transaction] is
    opened without an isolation level and no query takes a lock; the store
    then gives each query of the transaction the rows committed by then,
    those of other calls included.  Here a call is the list of its awaited
    queries, each one step on the store.  The insert is the last query of
    its transaction, so it and the commit are one step. *)

Module Async.
Import Js Prisma Http Admission.

(** A call that has returned, or that waits for the query it sent: the
    query runs on the store as it is then and says how the call goes on. *)
#[warnings="-register-all"] Inductive Task (A : Type) : Type :=
| Return (a : A)
| Await (query : DB -> Task A * DB).
Arguments Return {A} a.
Arguments Await {A} query.

(** [await] of a call inside a call. *)
Fixpoint bind {A B} (t : Task A) (k : A -> Task B) : Task B :=
  match t with
  | Return a => k a
  | Await query => Await (fun db => let (t', db') := query db in (bind t' k, db'))
  end.

(** The next query of a call; a call that has returned stays as it is. *)
Definition step {A} (t : Task A) (db : DB) : Task A * DB :=
  match t with
  | Return a => (Return a, db)
  | Await query => query db
  end.

(** [n] queries of a call that is alone. *)
Fixpoint run {A} (n : nat) (t : Task A) (db : DB) : Task A * DB :=
  match n with
  | O => (t, db)
  | S n' => let (t', db') := step t db in run n' t' db'
  end.

Definition answer {A} (t : Task A) : option A :=
  match t with
  | Return a => Some a
  | Await _ => None
  end.

(** The calls in flight; a schedule names, query after query, the call
    whose query the store serves next. *)
Fixpoint stepAt {A} (i : nat) (pool : list (Task A)) (db : DB) : list (Task A) * DB :=
  match pool, i with
  | [], _ => ([], db)
  | t :: rest, O => let (t', db') := step t db in (t' :: rest, db')
  | t :: rest, S i' => let (rest', db') := stepAt i' rest db in (t :: rest', db')
  end.

Fixpoint interleave {A} (schedule : list nat) (pool : list (Task A)) (db : DB)
  : list (Task A) * DB :=
  match schedule with
  | [] => (pool, db)
  | i :: rest => let (pool', db') := stepAt i pool db in interleave rest pool' db'
  end.

(** A schedule that serves the calls in turn, [rounds] queries each. *)
Definition inTurn (rounds calls : nat) : list nat :=
  List.concat (repeat (seq 0 calls) rounds).

(** One query of every call in flight, in the order of the pool. *)
Fixpoint round {A} (pool : list (Task A)) (db : DB) : list (Task A) * DB :=
  match pool with
  | [] => ([], db)
  | t :: rest =>
      let (t', db1) := step t db in
      let (rest', db2) := round rest db1 in
      (t' :: rest', db2)
  end.

(** [ApplicationService.createApplication].  What the [catch] block makes
    of a thrown error: *)
Definition createApplication_throws {A} (error : JsError) : Task (Result A) :=
  Return (throw (ApplicationService.createApplication_catch error)).

(** the third query of the transaction callback, [application.create], *)
Definition createApplication_insert (now : Date) (userId classId : ID)
  : Task (Result Application.t) :=
  Await (fun prisma =>
    match application_create now userId classId prisma with
    | inr (newApplication, prisma') => (Return (ret newApplication), prisma')
    | inl error => (createApplication_throws error, prisma)
    end).

(** the second, [application.findUnique] on the pair, *)
Definition createApplication_findExisting (now : Date) (userId classId : ID)
  : Task (Result Application.t) :=
  Await (fun prisma =>
    match application_findUnique userId classId prisma with
    | Some _ =>
        (createApplication_throws (Error "User has already applied to this class"), prisma)
    | None => (createApplication_insert now userId classId, prisma)
    end).

(** and the call itself, which starts with the first query,
    [mClass.findUnique] with the count of the applications of the class. *)
Definition createApplication (fault : option JsError) (now : Date)
  (data : ApplicationService.CreateApplicationData) : Task (Result Application.t) :=
  let userId := ApplicationService.userId data in
  let classId := ApplicationService.classId data in
  match fault with
  | Some e => Await (fun prisma => (createApplication_throws e, prisma))
  | None =>
      Await (fun prisma =>
        match mClass_findUnique classId prisma with
        | None => (createApplication_throws (Error "Class not found"), prisma)
        | Some classWithCount =>
            let currentApplications := application_count (ofClass classId) prisma in
            if MClass.maxParticipants classWithCount <=? currentApplications
            then (createApplication_throws (Error "Class is fully booked"), prisma)
            else (createApplication_findExisting now userId classId, prisma)
        end)
  end.

(** [ApplicationController.applyToClass]: what it answers once
    [createApplication] has returned or thrown, *)
Definition applyToClass_respond (mclass : MClassService.MClassWithStats)
  (outcome : Result Application.t)
  : Task (Response (Application.t * MClassService.MClassWithStats)) :=
  match outcome with
  | inr application =>
      Return (Success 201 (application, mclass) "Application submitted successfully")
  | inl error => Return (ApplicationController.applyToClass_catch error)
  end.

(** and the handler: the class lookup, then [createApplication]. *)
Definition applyToClass (fault : option JsError) (now : Date) (classId userId : ID)
  : Task (Response (Application.t * MClassService.MClassWithStats)) :=
  if String.eqb classId "" then Return (createValidationError ["Class ID is required"])
  else
    let uuidValidation := ValidationUtil.validateUUID classId in
    if negb (ValidationUtil.isValid uuidValidation)
    then Return (createValidationError (ValidationUtil.errors uuidValidation))
    else
      Await (fun db =>
        match MClassService.getClassById classId db with
        | None => (Return (Failure 404 "NOT_FOUND" "Class not found" []), db)
        | Some mclass =>
            if MClass.startAt (MClassService.mclass mclass) <=? now then
              (Return (Failure 400 "VALIDATION_ERROR"
                         "Cannot apply to a class that has already started" []), db)
            else
              (bind (createApplication fault now
                       {| ApplicationService.userId := userId;
                          ApplicationService.classId := classId |})
                 (applyToClass_respond mclass), db)
        end).

(** [ApplicationController.cancelApplication]: the class lookup, then the
    delete of [ApplicationService.cancelApplication]. *)
Definition cancelApplication (now : Date) (classId userId : ID)
  : Task (Response MClassService.MClassWithStats) :=
  if String.eqb classId "" then Return (createValidationError ["Class ID is required"])
  else
    let uuidValidation := ValidationUtil.validateUUID classId in
    if negb (ValidationUtil.isValid uuidValidation)
    then Return (createValidationError (ValidationUtil.errors uuidValidation))
    else
      Await (fun db =>
        match MClassService.getClassById classId db with
        | None => (Return (Failure 404 "NOT_FOUND" "Class not found" []), db)
        | Some mclass =>
            if MClass.startAt (MClassService.mclass mclass) <=? now then
              (Return (Failure 400 "VALIDATION_ERROR"
                         "Cannot cancel application for a class that has already started" []),
               db)
            else
              (Await (fun db =>
                 match ApplicationService.cancelApplication userId classId db with
                 | inr (_, db') =>
                     (Return (Success 200 mclass "Application cancelled successfully"), db')
                 | inl error =>
                     if includes (message error) "not found" then
                       (Return (Failure 404 "NOT_FOUND" "Application not found" []), db)
                     else
                       (Return (Failure 500 "INTERNAL_SERVER_ERROR"
                                  "Failed to cancel application" []), db)
                 end), db)
        end).

(** [MClassController.deleteClass]: the class lookup, then the delete. *)
Definition deleteClass (classId : ID) : Task (Response MClass.t) :=
  if String.eqb classId "" then Return (createValidationError ["Class ID is required"])
  else
    let uuidValidation := ValidationUtil.validateUUID classId in
    if negb (ValidationUtil.isValid uuidValidation)
    then Return (createValidationError (ValidationUtil.errors uuidValidation))
    else
      Await (fun db =>
        match MClassService.getClassById classId db with
        | None => (Return (Failure 404 "NOT_FOUND" "Class not found" []), db)
        | Some existingClass =>
            (Await (fun db =>
               match MClassService.deleteClass classId db with
               | inr (_, db') =>
                   (Return (Success 200 (MClassService.mclass existingClass)
                              "M-Class deleted successfully"), db')
               | inl error =>
                   if includes (message error) "not found" then
                     (Return (Failure 404 "NOT_FOUND" "Class not found" []), db)
                   else
                     (Return (Failure 500 "INTERNAL_SERVER_ERROR"
                                "Failed to delete M-Class" []), db)
               end), db)
        end).

(** A response without its data, so that calls of different handlers can
    be in flight together. *)
Definition reply {A} (r : Response A) : Response unit :=
  match r with
  | Success status _ msg => Success status tt msg
  | Failure status code msg details => Failure status code msg details
  end.

(** The call of a ledger operation. *)
Definition call (op : Op) : Task (Response unit) :=
  match op with
  | Apply fault now classId userId =>
      bind (applyToClass fault now classId userId) (fun r => Return (reply r))
  | Cancel now classId userId =>
      bind (cancelApplication now classId userId) (fun r => Return (reply r))
  | DeleteClass classId => bind (deleteClass classId) (fun r => Return (reply r))
  end.

Section WithLibrary.
Variable jwt_verify : string -> AuthMiddleware.JwtFailure + JwtUtil.JwtPayload.
Variable secretConfigured : bool.
Variable recordNotFound : JsError.

(** [...adminOnly] before a handler: [authenticate] with its one query,
    the look-up of the user the token names, then [requireAdmin] on the row
    that query returned. *)
Definition adminOnly {A} (authorization : option string)
  (handler : JwtUtil.JwtPayload -> Task (Response A)) : Task (Response A) :=
  match JwtUtil.extractTokenFromHeader authorization with
  | None => Return (Failure 401 "UNAUTHORIZED" "Access token is required" [])
  | Some token =>
      match AuthMiddleware.verifyToken jwt_verify secretConfigured token with
      | inl error => Return (Failure 401 "UNAUTHORIZED" (message error) [])
      | inr payload =>
          Await (fun db =>
            match user_findUnique (JwtUtil.userId payload) db with
            | None => (Return (Failure 401 "UNAUTHORIZED" "User not found" []), db)
            | Some user =>
                let attached := {| JwtUtil.userId := User.id user;
                                   JwtUtil.email := User.email user;
                                   JwtUtil.isAdmin := User.isAdmin user |} in
                match AuthMiddleware.requireAdmin (Some attached) with
                | Some response => (Return response, db)
                | None => (handler attached, db)
                end
            end)
      end
  end.

(** [AdminController.demoteAdmin]: its checks, then the one query of
    [UserService.updateUser]. *)
Definition demoteAdmin (user : option JwtUtil.JwtPayload) (userId : ID)
  : Task (Response User.t) :=
  if String.eqb userId "" then Return (createValidationError ["User ID is required"])
  else
    let uuidValidation := ValidationUtil.validateUUID userId in
    if negb (ValidationUtil.isValid uuidValidation)
    then Return (createValidationError (ValidationUtil.errors uuidValidation))
    else if match user with
            | Some u => String.eqb userId (JwtUtil.userId u)
            | None => false
            end
    then Return (Failure 400 "VALIDATION_ERROR" "Cannot demote yourself" [])
    else
      Await (fun db =>
        match UserService.updateUser recordNotFound userId
                {| UserService.isAdmin := Some false |} db with
        | inr (updatedUser, db') =>
            (Return (Success 200 updatedUser "Admin privileges removed successfully"), db')
        | inl error =>
            if includes (message error) "Record to update not found"
            then (Return (Failure 404 "NOT_FOUND" "User not found" []), db)
            else (Return (Failure 500 "INTERNAL_SERVER_ERROR"
                            "Failed to remove admin privileges" []), db)
        end).

(** [adminRouter.put('/users/:userId/demote', authLimiter, ...adminOnly, adminController.demoteAdmin)] *)
Definition put_demote (authorization : option string) (userId : ID)
  : Task (Response User.t) :=
  adminOnly authorization (fun user => demoteAdmin (Some user) userId).

End WithLibrary.

End Async.

(** An invariant of calls in flight: a property of the store that every
    query of the call keeps, whenever it is served. *)
Inductive Keeps (P : Prisma.DB -> Prop) {A} : Async.Task A -> Prop :=
| keeps_return a : Keeps P (Async.Return a)
| keeps_await query :
    (forall db, P db -> P (snd (query db))) ->
    (forall db, P db -> Keeps P (fst (query db))) ->
    Keeps P (Async.Await query).

(* ================================================================== *)
(** ** Sample rows *)

Module Sample.
Import Prisma.

Definition admin : User.t := User.mk "bec06b71-7c18-497e-b17e-c70aa6da731d" "admin@test.com" true.
Definition user1 : User.t := User.mk "53953860-799f-405f-888d-851ef105eddd" "user@test.com" false.
Definition user2 : User.t := User.mk "11bcf27c-f69a-49ed-bd84-310cf37788c5" "user@example.com" false.
Definition user3 : User.t := User.mk "fb6392ae-51b9-4c80-8562-07669f206625" "user1@example.com" false.

Definition classId : ID := "b93771a0-6b05-4de6-bf2d-eef1b81d6543".

(** The class of the backup, with [n] seats. *)
Definition testClass (n : Z) : MClass.t :=
  MClass.mk classId "Test M-Class" "A test class for testing purposes" n
    1755396970821 1755400570821 (User.id admin).

(** Some instant before the class starts. *)
Definition t0 : Date := 1755310570822.

Definition db0 (n : Z) : DB := mkDB [admin; user1; user2; user3] [testClass n] [] 0.

Definition app (k : nat) (u : User.t) (at_ : Date) : Application.t :=
  Application.mk k (User.id u) classId at_.


(** The sample users with a second admin, [user1] after a promotion. *)
Definition dbTwoAdmins : DB :=
  mkDB [admin; setAdmin (Some true) user1; user2; user3] [testClass 5] [] 0.

(** A two-seat class, taken by [user1] and [user2]. *)
Definition dbFull2 : DB :=
  mkDB [admin; user1; user2; user3] [testClass 2]
    [app 0 user1 t0; app 1 user2 (t0 + 1)] 2.

(** Two classes; [user1] applied to the first, then [user2] did, then
    [user1] applied to the second. *)
Definition otherClassId : ID := "390619e9-15db-4ee6-9260-9a902a355bfd".
Definition otherClass : MClass.t :=
  MClass.mk otherClassId "Other M-Class" "A second class" 3
    1755396970821 1755400570821 (User.id admin).
Definition dbTwoClasses : DB :=
  mkDB [admin; user1; user2; user3] [testClass 2; otherClass]
    [app 0 user1 t0; app 1 user2 (t0 + 1);
     Application.mk 2 (User.id user1) otherClassId (t0 + 2)] 3.

(** Two creation requests sent at [t0] for a class that starts a day later:
    one lasts a minute, the other nine hours. *)
Definition newClassId : ID := "d02cf0c4-4002-41f5-b3bf-e8aaa03aa272".
Definition oneMinuteClass : MClassController.CreateClassBody :=
  {| MClassController.title := "Lightning talk";
     MClassController.description := "A class that lasts one minute";
     MClassController.maxParticipants := Some 5;
     MClassController.startAt := Some (t0 + 86400000);
     MClassController.endAt := Some (t0 + 86400000 + 60000) |}.
Definition nineHourClass : MClassController.CreateClassBody :=
  {| MClassController.title := "Marathon";
     MClassController.description := "A class that lasts nine hours";
     MClassController.maxParticipants := Some 5;
     MClassController.startAt := Some (t0 + 86400000);
     MClassController.endAt := Some (t0 + 86400000 + 9 * 3600000) |}.

(** A stand-in for the token library: the token of a sample user is their
    id, and the payload claims no admin right, whoever the user is. *)
Definition jwt_verify (token : string) : AuthMiddleware.JwtFailure + JwtUtil.JwtPayload :=
  if existsb (String.eqb token) (map User.id [admin; user1; user2; user3])
  then inr {| JwtUtil.userId := token; JwtUtil.email := ""; JwtUtil.isAdmin := false |}
  else inl AuthMiddleware.JsonWebTokenError.

Definition bearer (u : User.t) : option string := Some ("Bearer " ++ User.id u)%string.

(** The error of [user.update] for a missing row, worded as by a client
    that names the cause. *)
Definition recordNotFound : Js.JsError :=
  Js.mkError (Some "P2025")
    "An operation failed because it depends on one or more records that were required but not found. Record to update not found.".

End Sample.

(* ================================================================== *)
(** * Properties *)

Import Js Prisma Http Admission.

(** ** Lists, filters and the derived occupancy *)

Section ListFacts.
Context {A : Type}.
Implicit Types (p q : A -> bool) (l : list A).

Lemma count_app p l x :
  count p (l ++ [x]) = count p l + (if p x then 1 else 0).
Proof.
  unfold count. rewrite filter_app, length_app. simpl.
  destruct (p x); simpl; lia.
Qed.

Lemma count_cons p x l :
  count p (x :: l) = (if p x then 1 else 0) + count p l.
Proof.
  unfold count. cbn [filter]. destruct (p x); cbn [List.length]; lia.
Qed.

Lemma length_cons_Z (x : A) l :
  Z.of_nat (List.length (x :: l)) = 1 + Z.of_nat (List.length l).
Proof. cbn [List.length]. lia. Qed.

Lemma count_nonneg p l : 0 <= count p l.
Proof. unfold count. lia. Qed.

Lemma remove_first_In p l x : In x (remove_first p l) -> In x l.
Proof.
  induction l as [|y l IH]; simpl; auto.
  destruct (p y); simpl; intuition.
Qed.

Lemma remove_first_none p l :
  existsb p l = false -> remove_first p l = l.
Proof.
  induction l as [|y l IH]; simpl; auto.
  destruct (p y); simpl; try discriminate. intros H. now rewrite IH.
Qed.

Lemma count_remove_first_le q p l : count q (remove_first p l) <= count q l.
Proof.
  unfold count. induction l as [|y l IH]; simpl; try lia.
  destruct (p y); simpl; destruct (q y); simpl in *; lia.
Qed.

(** Removing the first row that satisfies [p] lowers the count of [p] by
    exactly one when such a row exists. *)
Lemma count_remove_first_same p l :
  existsb p l = true -> count p (remove_first p l) = count p l - 1.
Proof.
  unfold count.
  induction l as [|y l IH]; cbn [remove_first filter existsb]; try discriminate.
  destruct (p y) eqn:E; cbn [orb filter List.length].
  - intros _. rewrite Nat2Z.inj_succ. lia.
  - rewrite E. intros H. apply IH in H. lia.
Qed.

(** Rows outside [p] are not touched by it. *)
Lemma count_remove_first_other q p l :
  (forall x, p x = true -> q x = false) ->
  count q (remove_first p l) = count q l.
Proof.
  intros Hpq. unfold count. induction l as [|y l IH]; simpl; auto.
  destruct (p y) eqn:E; simpl.
  - now rewrite (Hpq _ E).
  - destruct (q y); simpl; lia.
Qed.

Lemma count_filter_le q p l : count q (filter p l) <= count q l.
Proof.
  unfold count. induction l as [|y l IH]; simpl; try lia.
  destruct (p y); simpl; destruct (q y); simpl in *; lia.
Qed.

Lemma find_existsb p l : existsb p l = match find p l with Some _ => true | None => false end.
Proof.
  induction l as [|y l IH]; simpl; auto. destruct (p y); auto.
Qed.

Lemma NoDup_map_remove_first {B} (f : A -> B) p l :
  NoDup (map f l) -> NoDup (map f (remove_first p l)).
Proof.
  induction l as [|y l IH]; simpl; auto.
  intros H. inversion H as [|? ? Hn Hd]; subst.
  destruct (p y); simpl; auto.
  constructor; auto.
  intros Hin. apply Hn. apply in_map_iff in Hin as (x & Hx & Hin).
  apply in_map_iff. exists x. split; auto. eapply remove_first_In; eauto.
Qed.

Lemma NoDup_map_filter {B} (f : A -> B) p l :
  NoDup (map f l) -> NoDup (map f (filter p l)).
Proof.
  induction l as [|y l IH]; simpl; auto.
  intros H. inversion H as [|? ? Hn Hd]; subst.
  destruct (p y); simpl; auto.
  constructor; auto.
  intros Hin. apply Hn. apply in_map_iff in Hin as (x & Hx & Hin).
  apply in_map_iff. exists x. split; auto. apply filter_In in Hin. tauto.
Qed.

End ListFacts.

(** ** What each handler can do to the store *)

Lemma valid_uuid_nonempty classId :
  ValidationUtil.isValid (ValidationUtil.validateUUID classId) = true ->
  String.eqb classId "" = false.
Proof. destruct classId; simpl; [discriminate | reflexivity]. Qed.

Lemma findUnique_id id db c :
  mClass_findUnique id db = Some c -> In c (mclasses db) /\ MClass.id c = id.
Proof.
  unfold mClass_findUnique. intros H. apply find_some in H as [Hin Hid].
  split; auto. now apply String.eqb_eq.
Qed.

(** With a primary key, the row found for an identifier is the only row
    carrying it. *)
Lemma findUnique_the_row id db c c' :
  class_keys_unique db ->
  mClass_findUnique id db = Some c ->
  In c' (mclasses db) -> MClass.id c' = id -> c' = c.
Proof.
  unfold class_keys_unique, mClass_findUnique.
  induction (mclasses db) as [|y l IH]; simpl; try easy.
  intros Hnd. inversion Hnd as [|? ? Hn Hd]; subst.
  unfold hasId at 1. destruct (String.eqb (MClass.id y) id) eqn:E.
  - intros [= <-] [->|Hin] Hid; auto.
    exfalso. apply Hn. apply String.eqb_eq in E. rewrite E, <- Hid. now apply in_map.
  - intros Hf [->|Hin] Hid; auto.
    apply String.eqb_neq in E. contradiction.
Qed.

Lemma createApplication_tx_inv now data db a db' :
  ApplicationService.createApplication_tx now data db = inr (a, db') ->
  a = Application.mk (nextId db) (ApplicationService.userId data)
        (ApplicationService.classId data) now /\
  admitted now (ApplicationService.classId data) (ApplicationService.userId data) db db'.
Proof.
  unfold ApplicationService.createApplication_tx, admitted, occupancy.
  destruct (mClass_findUnique _ db) as [c|] eqn:Hc; [|discriminate].
  destruct (Z.leb_spec (MClass.maxParticipants c)
              (application_count (ofClass (ApplicationService.classId data)) db));
    [discriminate|].
  destruct (application_findUnique _ _ db) eqn:Hu; [discriminate|].
  unfold application_create.
  destruct (existsb (isFor _ _) _); [discriminate|].
  destruct (user_exists _ db) eqn:Hx; [|discriminate]. simpl.
  destruct (existsb (hasId _) _); [|discriminate]. simpl.
  intros [= <- <-]. split; auto. exists c. auto.
Qed.

Lemma applyToClass_inv fault now classId userId db r db' :
  ApplicationController.applyToClass fault now classId userId db = (r, db') ->
  (isSuccess r = false /\ db' = db) \/
  (isSuccess r = true /\ fault = None /\ admitted now classId userId db db').
Proof.
  unfold ApplicationController.applyToClass.
  destruct (String.eqb classId ""); [intros [= <- <-]; auto|].
  destruct (negb _); [intros [= <- <-]; auto|].
  destruct (MClassService.getClassById classId db) as [m|]; [|intros [= <- <-]; auto].
  destruct (_ <=? now); [intros [= <- <-]; auto|].
  unfold ApplicationService.createApplication, transaction.
  destruct fault as [e|].
  - simpl. intros [= <- <-]. left. split; auto.
    unfold ApplicationController.applyToClass_catch.
    repeat match goal with |- context [if ?b then _ else _] => destruct b end; reflexivity.
  - destruct (ApplicationService.createApplication_tx _ _ db) as [e|[a d]] eqn:Htx.
    + simpl. intros [= <- <-]. left. split; auto.
      unfold ApplicationController.applyToClass_catch.
      repeat match goal with |- context [if ?b then _ else _] => destruct b end; reflexivity.
    + simpl. intros [= <- <-]. right. apply createApplication_tx_inv in Htx as [_ H].
      auto.
Qed.

Lemma cancelApplication_inv now classId userId db r db' :
  ApplicationController.cancelApplication now classId userId db = (r, db') ->
  (isSuccess r = false /\ db' = db) \/
  (isSuccess r = true /\
   existsb (isFor userId classId) (applications db) = true /\
   db' = mkDB (users db) (mclasses db)
              (remove_first (isFor userId classId) (applications db)) (nextId db)).
Proof.
  unfold ApplicationController.cancelApplication.
  destruct (String.eqb classId ""); [intros [= <- <-]; auto|].
  destruct (negb _); [intros [= <- <-]; auto|].
  destruct (MClassService.getClassById classId db) as [m|]; [|intros [= <- <-]; auto].
  destruct (_ <=? now); [intros [= <- <-]; auto|].
  unfold ApplicationService.cancelApplication, application_delete.
  rewrite find_existsb. unfold application_findUnique.
  destruct (find _ _); simpl.
  - intros [= <- <-]. auto.
  - intros [= <- <-]. auto.
Qed.

Lemma deleteClass_inv classId db r db' :
  MClassController.deleteClass classId db = (r, db') ->
  (isSuccess r = false /\ db' = db) \/
  (isSuccess r = true /\
   db' = mkDB (users db) (remove_first (hasId classId) (mclasses db))
              (filter (fun a => negb (ofClass classId a)) (applications db)) (nextId db)).
Proof.
  unfold MClassController.deleteClass.
  destruct (String.eqb classId ""); [intros [= <- <-]; auto|].
  destruct (negb _); [intros [= <- <-]; auto|].
  unfold MClassService.getClassById, MClassService.deleteClass, mClass_delete.
  destruct (mClass_findUnique classId db); simpl; intros [= <- <-]; auto.
Qed.

(** ** The capacity invariant *)

Lemma occupancy_admitted now classId userId db db' c' :
  admitted now classId userId db db' ->
  occupancy (MClass.id c') db' =
  occupancy (MClass.id c') db + (if String.eqb classId (MClass.id c') then 1 else 0).
Proof.
  intros (c & _ & _ & _ & _ & ->).
  unfold occupancy, application_count. cbn [applications].
  apply (count_app (ofClass (MClass.id c'))).
Qed.

Lemma exec_keeps_capacity op db :
  class_keys_unique db -> capacity_ok db ->
  class_keys_unique (exec op db) /\ capacity_ok (exec op db).
Proof.
  intros Hk Hc. destruct op as [fault now classId userId | now classId userId | classId];
    cbn [exec].
  - destruct (ApplicationController.applyToClass fault now classId userId db)
      as [r db'] eqn:E.
    apply applyToClass_inv in E as [[_ ->] | (_ & _ & Hadm)]; cbn [snd]; auto.
    pose proof Hadm as (c & Hfind & Hlt & _ & _ & Hdb).
    split.
    + unfold class_keys_unique. now rewrite Hdb.
    + intros c' Hin. rewrite (occupancy_admitted _ _ _ _ _ c' Hadm).
      assert (Hin' : In c' (mclasses db)) by (now rewrite Hdb in Hin).
      destruct (String.eqb classId (MClass.id c')) eqn:Eq.
      * apply String.eqb_eq in Eq.
        assert (c' = c) by (eapply findUnique_the_row; eauto).
        subst c'. rewrite <- Eq. lia.
      * specialize (Hc c' Hin'). lia.
  - destruct (ApplicationController.cancelApplication now classId userId db)
      as [r db'] eqn:E.
    apply cancelApplication_inv in E as [[_ ->] | (_ & _ & ->)]; cbn [snd]; auto.
    split; [exact Hk|].
    intros c' Hin. cbn [mclasses] in Hin. specialize (Hc c' Hin).
    unfold occupancy, application_count in *. cbn [applications].
    pose proof (count_remove_first_le (ofClass (MClass.id c')) (isFor userId classId)
                  (applications db)) as Hle.
    unfold count in Hle. lia.
  - destruct (MClassController.deleteClass classId db) as [r db'] eqn:E.
    apply deleteClass_inv in E as [[_ ->] | (_ & ->)]; cbn [snd]; auto.
    split.
    + unfold class_keys_unique. cbn [mclasses]. now apply NoDup_map_remove_first.
    + intros c' Hin. cbn [mclasses] in Hin. apply remove_first_In in Hin.
      specialize (Hc c' Hin).
      unfold occupancy, application_count in *. cbn [applications].
      pose proof (count_filter_le (ofClass (MClass.id c'))
                    (fun a => negb (ofClass classId a)) (applications db)) as Hle.
      unfold count in Hle. lia.
Qed.

(** As long as every call is served to its end before the next is taken up:
    starting from a store in which no class is over capacity, every store
    reached through Apply, Cancel and class deletion keeps, for every class,
    the number of its applications at or below [maxParticipants]; and an
    Apply that inserts a row did so on an occupancy strictly below the
    capacity of the class, raising it by exactly one. *)
Lemma capacity_never_exceeded db0 db :
  class_keys_unique db0 -> capacity_ok db0 -> reachable db0 db ->
  capacity_ok db /\
  (forall fault now classId userId r db',
      ApplicationController.applyToClass fault now classId userId db = (r, db') ->
      applications db' <> applications db ->
      exists c, mClass_findUnique classId db = Some c /\
                occupancy classId db < MClass.maxParticipants c /\
                occupancy classId db' = occupancy classId db + 1).
Proof.
  intros Hk Hc Hreach.
  assert (H : class_keys_unique db /\ capacity_ok db).
  { induction Hreach as [|db op _ [IHk IHc]]; auto using exec_keeps_capacity. }
  split; [apply H|].
  intros fault now classId userId r db' E Hneq.
  apply applyToClass_inv in E as [[_ ->] | (_ & _ & Hadm)]; [congruence|].
  pose proof Hadm as (c & Hfind & Hlt & _ & _ & Hdb).
  exists c. repeat split; auto.
  destruct (findUnique_id _ _ _ Hfind) as [_ Hid].
  rewrite <- Hid at 1. rewrite (occupancy_admitted _ _ _ _ _ c Hadm).
  rewrite Hid, String.eqb_refl. reflexivity.
Qed.

Lemma capacity_never_exceeded_witness :
  class_keys_unique (Sample.db0 1) /\ capacity_ok (Sample.db0 1) /\
  reachable (Sample.db0 1)
    (exec (Apply None (Sample.t0 + 1) Sample.classId (User.id Sample.user2))
       (exec (Apply None Sample.t0 Sample.classId (User.id Sample.user1)) (Sample.db0 1))) /\
  capacity_ok
    (exec (Apply None (Sample.t0 + 1) Sample.classId (User.id Sample.user2))
       (exec (Apply None Sample.t0 Sample.classId (User.id Sample.user1)) (Sample.db0 1))).
Proof.
  assert (Hk : class_keys_unique (Sample.db0 1)).
  { unfold class_keys_unique. simpl. constructor; [intros []| constructor]. }
  assert (Hc : capacity_ok (Sample.db0 1)).
  { intros c [<-|[]]. vm_compute. discriminate. }
  assert (Hr : reachable (Sample.db0 1)
    (exec (Apply None (Sample.t0 + 1) Sample.classId (User.id Sample.user2))
       (exec (Apply None Sample.t0 Sample.classId (User.id Sample.user1)) (Sample.db0 1)))).
  { apply reach_step, reach_step, reach_start. }
  repeat split; auto.
  exact (proj1 (capacity_never_exceeded _ _ Hk Hc Hr)).
Defined.

(** ** What Apply answers, case by case *)

Section ApplyCases.
Variables (now : Date) (classId userId : ID) (db : DB) (c : MClass.t).
Hypothesis Hvalid : ValidationUtil.isValid (ValidationUtil.validateUUID classId) = true.

Let apply := ApplicationController.applyToClass None now classId userId db.

Lemma apply_class_not_found :
  mClass_findUnique classId db = None -> apply = (ClassNotFound, db).
Proof.
  intros Hf. unfold apply, ApplicationController.applyToClass.
  rewrite (valid_uuid_nonempty _ Hvalid), Hvalid. cbn [negb].
  unfold MClassService.getClassById. now rewrite Hf.
Qed.

Hypothesis Hfind : mClass_findUnique classId db = Some c.

Lemma apply_started :
  MClass.startAt c <= now -> apply = (ClassAlreadyStarted, db).
Proof.
  intros Hs. unfold apply, ApplicationController.applyToClass.
  rewrite (valid_uuid_nonempty _ Hvalid), Hvalid. cbn [negb].
  unfold MClassService.getClassById. rewrite Hfind. cbn [MClassService.mclass].
  apply Z.leb_le in Hs. now rewrite Hs.
Qed.

Hypothesis Hopen : now < MClass.startAt c.

Lemma apply_open_unfold :
  apply =
  match ApplicationService.createApplication None now
          {| ApplicationService.userId := userId;
             ApplicationService.classId := classId |} db with
  | inr (application, db') =>
      (Success 201
         (application,
          {| MClassService.mclass := c;
             MClassService.currentParticipants := occupancy classId db |})
         "Application submitted successfully", db')
  | inl error => (ApplicationController.applyToClass_catch error, db)
  end.
Proof.
  unfold apply, ApplicationController.applyToClass.
  rewrite (valid_uuid_nonempty _ Hvalid), Hvalid. cbn [negb].
  unfold MClassService.getClassById. rewrite Hfind. cbn [MClassService.mclass].
  apply Z.leb_gt in Hopen. now rewrite Hopen.
Qed.

Lemma apply_full :
  MClass.maxParticipants c <= occupancy classId db -> apply = (CapacityExceeded, db).
Proof.
  intros Hfull. rewrite apply_open_unfold.
  unfold ApplicationService.createApplication, transaction,
    ApplicationService.createApplication_tx.
  cbn [ApplicationService.classId ApplicationService.userId].
  rewrite Hfind. apply Z.leb_le in Hfull. unfold occupancy in Hfull. now rewrite Hfull.
Qed.

Hypothesis Hroom : occupancy classId db < MClass.maxParticipants c.

Lemma apply_duplicate a :
  application_findUnique userId classId db = Some a -> apply = (AlreadyApplied, db).
Proof.
  intros Hdup. rewrite apply_open_unfold.
  unfold ApplicationService.createApplication, transaction,
    ApplicationService.createApplication_tx.
  cbn [ApplicationService.classId ApplicationService.userId].
  rewrite Hfind. apply Z.leb_gt in Hroom. unfold occupancy in Hroom.
  now rewrite Hroom, Hdup.
Qed.

Hypothesis Hnew : application_findUnique userId classId db = None.

Lemma apply_unknown_user :
  user_exists userId db = false ->
  apply = (Failure 400 "VALIDATION_ERROR" "Invalid class or user information" [], db).
Proof.
  intros Hu. rewrite apply_open_unfold.
  unfold ApplicationService.createApplication, transaction,
    ApplicationService.createApplication_tx.
  cbn [ApplicationService.classId ApplicationService.userId].
  rewrite Hfind. apply Z.leb_gt in Hroom. unfold occupancy in Hroom.
  rewrite Hroom, Hnew. unfold application_create.
  rewrite find_existsb. unfold application_findUnique in Hnew. rewrite Hnew.
  now rewrite Hu.
Qed.

Lemma apply_admits :
  user_exists userId db = true ->
  apply =
  (Success 201
     (Application.mk (nextId db) userId classId now,
      {| MClassService.mclass := c;
         MClassService.currentParticipants := occupancy classId db |})
     "Application submitted successfully",
   mkDB (users db) (mclasses db)
        (applications db ++ [Application.mk (nextId db) userId classId now])
        (S (nextId db))).
Proof.
  intros Hu. rewrite apply_open_unfold.
  unfold ApplicationService.createApplication, transaction,
    ApplicationService.createApplication_tx.
  cbn [ApplicationService.classId ApplicationService.userId].
  rewrite Hfind. apply Z.leb_gt in Hroom. unfold occupancy in Hroom.
  rewrite Hroom, Hnew. unfold application_create.
  rewrite find_existsb. unfold application_findUnique in Hnew. rewrite Hnew.
  rewrite Hu. cbn [negb].
  rewrite find_existsb. unfold mClass_findUnique in Hfind. rewrite Hfind.
  reflexivity.
Qed.

End ApplyCases.

(** ** A burst of applications on one class *)

Lemma findUnique_app_other userId classId db a :
  application_findUnique userId classId db = None ->
  Application.userId a <> userId ->
  find (isFor userId classId) (applications db ++ [a]) = None.
Proof.
  unfold application_findUnique. intros Hnone Hneq.
  destruct (find _ (_ ++ _)) as [b|] eqn:E; auto.
  apply find_some in E as [Hin Hb]. apply in_app_or in Hin as [Hin|[<-|[]]].
  - eapply find_none in Hnone; eauto. congruence.
  - unfold isFor in Hb. apply andb_prop in Hb as [Hb _].
    apply String.eqb_eq in Hb. contradiction.
Qed.

(** With [m] seats taken out of [N], a burst of [K] first-time applicants gets
    [min K (N - m)] admissions; everybody else is told the class is full. *)
Lemma applyAll_counts classId c :
  ValidationUtil.isValid (ValidationUtil.validateUUID classId) = true ->
  forall calls db rs db',
    mClass_findUnique classId db = Some c ->
    Forall (fun call => snd call < MClass.startAt c) calls ->
    NoDup (map fst calls) ->
    Forall (fun call => user_exists (fst call) db = true) calls ->
    Forall (fun call => application_findUnique (fst call) classId db = None) calls ->
    applyAll classId calls db = (rs, db') ->
    let K := Z.of_nat (List.length calls) in
    let admissions := Z.min K (Z.max 0 (MClass.maxParticipants c - occupancy classId db)) in
    count isSuccess rs = admissions /\
    count (failsWith (@CapacityExceeded unit)) rs = K - admissions /\
    occupancy classId db' = occupancy classId db + admissions.
Proof.
  intros Hvalid. induction calls as [|[u now] rest IH];
    intros db rs db' Hfind Hopen Hnd Hreg Hnew Hrun; cbv zeta.
  - cbn in Hrun. injection Hrun as <- <-. cbn. repeat split; lia.
  - cbn [applyAll] in Hrun.
    inversion Hopen as [|? ? Ho Hopen']; subst.
    inversion Hnd as [|? ? Hnotin Hnd']; subst.
    inversion Hreg as [|? ? Hu Hreg']; subst.
    inversion Hnew as [|? ? Hn Hnew']; subst.
    cbn [fst snd] in *. rewrite length_cons_Z.
    destruct (Z_le_gt_dec (MClass.maxParticipants c) (occupancy classId db)) as [Hfull|Hroom].
    + rewrite (apply_full now classId u db c Hvalid Hfind Ho Hfull) in Hrun.
      destruct (applyAll classId rest db) as [rs1 db1] eqn:Hrest.
      injection Hrun as <- <-.
      destruct (IH db rs1 db1 Hfind Hopen' Hnd' Hreg' Hnew' Hrest) as (Hs & Hf & Ho').
      rewrite !count_cons.
      change (failsWith (@CapacityExceeded unit)
                (@CapacityExceeded (Application.t * MClassService.MClassWithStats)))
        with true.
      change (isSuccess (@CapacityExceeded (Application.t * MClassService.MClassWithStats)))
        with false.
      repeat split; lia.
    + assert (Hroom' : occupancy classId db < MClass.maxParticipants c) by lia.
      rewrite (apply_admits now classId u db c Hvalid Hfind Ho Hroom' Hn Hu) in Hrun.
      set (a := Application.mk (nextId db) u classId now) in *.
      set (db1 := mkDB (users db) (mclasses db) (applications db ++ [a]) (S (nextId db))) in *.
      destruct (applyAll classId rest db1) as [rs2 db2] eqn:Hrest.
      injection Hrun as <- <-.
      assert (Hocc : occupancy classId db1 = occupancy classId db + 1).
      { unfold occupancy, application_count, db1. cbn [applications].
        pose proof (count_app (ofClass classId) (applications db) a) as Hc.
        unfold count in Hc. rewrite Hc. unfold ofClass, a. cbn [Application.classId].
        now rewrite String.eqb_refl. }
      assert (Hnew1 : Forall (fun call => application_findUnique (fst call) classId db1 = None) rest).
      { apply Forall_forall. intros call Hin.
        rewrite Forall_forall in Hnew'. specialize (Hnew' call Hin).
        unfold application_findUnique, db1. cbn [applications].
        apply findUnique_app_other; auto. unfold a. cbn [Application.userId].
        intros ->. apply Hnotin. now apply in_map. }
      destruct (IH db1 rs2 db2 Hfind Hopen' Hnd' Hreg' Hnew1 Hrest) as (Hs & Hf & Ho').
      rewrite Hocc in *.
      rewrite !count_cons. cbn [isSuccess failsWith CapacityExceeded].
      repeat split; lia.
Qed.

Lemma empty_class_nobody_applied userId classId db :
  occupancy classId db = 0 -> application_findUnique userId classId db = None.
Proof.
  unfold occupancy, application_count, application_findUnique. intros H0.
  destruct (find _ _) as [a|] eqn:E; auto.
  apply find_some in E as [Hin Ha]. unfold isFor in Ha. apply andb_prop in Ha as [_ Ha].
  assert (In a (filter (ofClass classId) (applications db))) as Hf
      by (apply filter_In; auto).
  destruct (filter _ _); [contradiction | discriminate].
Qed.

(** As long as the calls are served one after the other: on an existing
    class with [N] seats that has not started and that nobody has applied to,
    [K >= N] Apply calls from [K] distinct registered users yield exactly [N]
    admissions and exactly [K - N] CapacityExceeded failures, and leave the
    occupancy of the class at [N]. *)
Lemma burst_fills_exactly_capacity classId c calls db rs db' :
  ValidationUtil.isValid (ValidationUtil.validateUUID classId) = true ->
  mClass_findUnique classId db = Some c ->
  1 <= MClass.maxParticipants c ->
  Forall (fun call => snd call < MClass.startAt c) calls ->
  NoDup (map fst calls) ->
  Forall (fun call => user_exists (fst call) db = true) calls ->
  occupancy classId db = 0 ->
  MClass.maxParticipants c <= Z.of_nat (List.length calls) ->
  applyAll classId calls db = (rs, db') ->
  count isSuccess rs = MClass.maxParticipants c /\
  count (failsWith (@CapacityExceeded unit)) rs
    = Z.of_nat (List.length calls) - MClass.maxParticipants c /\
  occupancy classId db' = MClass.maxParticipants c.
Proof.
  intros Hvalid Hfind Hpos Hopen Hnd Hreg Hempty HK Hrun.
  assert (Hnew : Forall (fun call => application_findUnique (fst call) classId db = None) calls).
  { apply Forall_forall. intros call _. now apply empty_class_nobody_applied. }
  destruct (applyAll_counts classId c Hvalid calls db rs db'
              Hfind Hopen Hnd Hreg Hnew Hrun) as (Hs & Hf & Ho).
  rewrite Hempty in *. repeat split; lia.
Qed.

Lemma burst_fills_exactly_capacity_witness :
  count isSuccess
    (fst (applyAll Sample.classId
            [(User.id Sample.user1, Sample.t0); (User.id Sample.user2, Sample.t0 + 1);
             (User.id Sample.user3, Sample.t0 + 2)] (Sample.db0 2))) = 2 /\
  count (failsWith (@CapacityExceeded unit))
    (fst (applyAll Sample.classId
            [(User.id Sample.user1, Sample.t0); (User.id Sample.user2, Sample.t0 + 1);
             (User.id Sample.user3, Sample.t0 + 2)] (Sample.db0 2))) = 3 - 2 /\
  occupancy Sample.classId
    (snd (applyAll Sample.classId
            [(User.id Sample.user1, Sample.t0); (User.id Sample.user2, Sample.t0 + 1);
             (User.id Sample.user3, Sample.t0 + 2)] (Sample.db0 2))) = 2.
Proof.
  apply (burst_fills_exactly_capacity Sample.classId (Sample.testClass 2)
           [(User.id Sample.user1, Sample.t0); (User.id Sample.user2, Sample.t0 + 1);
            (User.id Sample.user3, Sample.t0 + 2)] (Sample.db0 2)).
  - reflexivity.
  - reflexivity.
  - simpl. lia.
  - repeat constructor; simpl; unfold Sample.t0; lia.
  - repeat constructor; simpl; intuition discriminate.
  - repeat constructor.
  - reflexivity.
  - simpl. lia.
  - apply surjective_pairing.
Defined.

(** ** Calls in flight together *)

(** A call that is alone does what the handler taken as one step does. *)
Lemma applyToClass_alone fault now classId userId db :
  Async.run 4 (Async.applyToClass fault now classId userId) db
  = let (r, db') := ApplicationController.applyToClass fault now classId userId db in
    (Async.Return r, db').
Proof.
  unfold Async.applyToClass, ApplicationController.applyToClass.
  destruct (String.eqb classId ""); [reflexivity|].
  destruct (negb (ValidationUtil.isValid (ValidationUtil.validateUUID classId)));
    [reflexivity|].
  cbn [Async.run Async.step].
  destruct (MClassService.getClassById classId db) as [mclass|] eqn:Eclass; [|reflexivity].
  destruct (MClass.startAt (MClassService.mclass mclass) <=? now); [reflexivity|].
  unfold Async.createApplication, Async.createApplication_findExisting,
    Async.createApplication_insert, Async.createApplication_throws,
    Async.applyToClass_respond,
    ApplicationService.createApplication, transaction,
    ApplicationService.createApplication_tx.
  cbn [ApplicationService.userId ApplicationService.classId].
  destruct fault as [e|]; [reflexivity|].
  cbn [Async.bind Async.step].
  destruct (mClass_findUnique classId db) as [c|]; [|reflexivity].
  destruct (MClass.maxParticipants c <=? application_count (ofClass classId) db);
    [reflexivity|].
  cbn [Async.bind Async.step].
  destruct (application_findUnique userId classId db); [reflexivity|].
  cbn [Async.bind Async.step].
  destruct (application_create now userId classId db) as [error|[a db']]; reflexivity.
Qed.

Lemma cancelApplication_alone now classId userId db :
  Async.run 2 (Async.cancelApplication now classId userId) db
  = let (r, db') := ApplicationController.cancelApplication now classId userId db in
    (Async.Return r, db').
Proof.
  unfold Async.cancelApplication, ApplicationController.cancelApplication.
  destruct (String.eqb classId ""); [reflexivity|].
  destruct (negb (ValidationUtil.isValid (ValidationUtil.validateUUID classId)));
    [reflexivity|].
  cbn [Async.run Async.step].
  destruct (MClassService.getClassById classId db) as [mclass|]; [|reflexivity].
  destruct (MClass.startAt (MClassService.mclass mclass) <=? now); [reflexivity|].
  cbn [Async.step].
  destruct (ApplicationService.cancelApplication userId classId db) as [error|[[] db']];
    [|reflexivity].
  destruct (includes (message error) "not found"); reflexivity.
Qed.

Lemma deleteClass_alone classId db :
  Async.run 2 (Async.deleteClass classId) db
  = let (r, db') := MClassController.deleteClass classId db in (Async.Return r, db').
Proof.
  unfold Async.deleteClass, MClassController.deleteClass.
  destruct (String.eqb classId ""); [reflexivity|].
  destruct (negb (ValidationUtil.isValid (ValidationUtil.validateUUID classId)));
    [reflexivity|].
  cbn [Async.run Async.step].
  destruct (MClassService.getClassById classId db) as [existingClass|]; [|reflexivity].
  cbn [Async.step].
  destruct (MClassService.deleteClass classId db) as [error|[[] db']]; [|reflexivity].
  destruct (includes (message error) "not found"); reflexivity.
Qed.

(** Schedules that serve the calls in turn are rounds. *)
Lemma interleave_app {A} s1 s2 (pool : list (Async.Task A)) db :
  Async.interleave (s1 ++ s2) pool db
  = let (pool', db') := Async.interleave s1 pool db in Async.interleave s2 pool' db'.
Proof.
  revert pool db. induction s1 as [|i s1 IH]; intros pool db;
    cbn [app Async.interleave]; [reflexivity|].
  destruct (Async.stepAt i pool db) as [p d]. apply IH.
Qed.

Lemma interleave_shift {A} s (t : Async.Task A) pool db :
  Async.interleave (map S s) (t :: pool) db
  = let (pool', db') := Async.interleave s pool db in (t :: pool', db').
Proof.
  revert pool db. induction s as [|i s IH]; intros pool db;
    cbn [map Async.interleave Async.stepAt]; [reflexivity|].
  destruct (Async.stepAt i pool db) as [p d]. apply IH.
Qed.

Lemma interleave_round {A} (pool : list (Async.Task A)) db :
  Async.interleave (seq 0 (List.length pool)) pool db = Async.round pool db.
Proof.
  revert db. induction pool as [|t rest IH]; intros db; [reflexivity|].
  cbn [List.length seq]. rewrite <- seq_shift.
  cbn [Async.interleave Async.stepAt Async.round].
  destruct (Async.step t db) as [t' db1]. rewrite interleave_shift, IH. reflexivity.
Qed.

Lemma round_length {A} (pool : list (Async.Task A)) db :
  List.length (fst (Async.round pool db)) = List.length pool.
Proof.
  revert db. induction pool as [|t rest IH]; intros db; cbn [Async.round]; [reflexivity|].
  destruct (Async.step t db) as [t' db1]. specialize (IH db1).
  destruct (Async.round rest db1) as [rest' db2]. cbn [fst List.length] in *. now rewrite IH.
Qed.

Lemma interleave_inTurn {A} rounds (pool : list (Async.Task A)) db :
  Async.interleave (Async.inTurn (S rounds) (List.length pool)) pool db
  = let (pool', db') := Async.round pool db in
    Async.interleave (Async.inTurn rounds (List.length pool')) pool' db'.
Proof.
  unfold Async.inTurn. cbn [repeat List.concat]. rewrite interleave_app, interleave_round.
  pose proof (round_length pool db) as Hlen.
  destruct (Async.round pool db) as [pool' db']. cbn [fst] in Hlen. now rewrite Hlen.
Qed.

(** A round of queries that only read. *)
Lemma round_map {A B} (f g : B -> Async.Task A) l db :
  (forall x, In x l -> Async.step (f x) db = (g x, db)) ->
  Async.round (map f l) db = (map g l, db).
Proof.
  induction l as [|x l IH]; intros H; cbn [map Async.round]; [reflexivity|].
  rewrite (H x (or_introl eq_refl)), IH; [reflexivity|].
  intros y Hy. apply H. now right.
Qed.

(** The round of inserts: every call whose user is registered and has no
    row for the class gets its row, whatever the others have inserted.
    [mclass] is what the class lookup of the handler returned. *)
Lemma round_of_inserts classId mclass (calls : list (ID * Date)) db :
  existsb (hasId classId) (mclasses db) = true ->
  NoDup (map fst calls) ->
  Forall (fun call => user_exists (fst call) db = true) calls ->
  Forall (fun call => existsb (isFor (fst call) classId) (applications db) = false) calls ->
  let (pool', db') :=
    Async.round (map (fun call => Async.bind
                                    (Async.createApplication_insert (snd call) (fst call) classId)
                                    (Async.applyToClass_respond mclass)) calls) db in
  Forall (fun t => option_map isSuccess (Async.answer t) = Some true) pool' /\
  occupancy classId db' = occupancy classId db + Z.of_nat (List.length calls) /\
  users db' = users db /\ mclasses db' = mclasses db.
Proof.
  revert db. induction calls as [|[userId now] calls IH]; intros db Hclass Hnd Hreg Hnew.
  - cbn. repeat split; auto. lia.
  - cbn [map Async.round fst snd].
    apply NoDup_cons_iff in Hnd as [Hfresh Hnd].
    apply Forall_cons_iff in Hreg as [Hu Hreg]. apply Forall_cons_iff in Hnew as [Hn Hnew].
    cbn [fst] in Hu, Hn.
    unfold Async.createApplication_insert at 1. cbn [Async.bind Async.step].
    unfold application_create. rewrite Hn, Hu, Hclass. cbn [negb Js.ret].
    set (a := Application.mk (nextId db) userId classId now).
    set (db1 := mkDB (users db) (mclasses db) (applications db ++ [a]) (S (nextId db))).
    specialize (IH db1).
    destruct (Async.round _ db1) as [rest' db2].
    destruct IH as (Hall & Hocc & Husers & Hclasses).
    + exact Hclass.
    + exact Hnd.
    + exact Hreg.
    + apply Forall_forall. intros [u' now'] Hin. cbn [fst].
      rewrite Forall_forall in Hnew. specialize (Hnew _ Hin). cbn [fst] in Hnew.
      unfold db1. cbn [applications]. rewrite existsb_app, Hnew. cbn [existsb orb].
      unfold isFor, a. cbn [Application.userId Application.classId].
      rewrite orb_false_r. apply andb_false_iff. left. apply String.eqb_neq.
      intros ->. apply Hfresh. apply in_map_iff. exists (u', now'). auto.
    + split; [|split; [|split]].
      * constructor; [reflexivity | exact Hall].
      * rewrite Hocc. unfold occupancy, application_count, db1. cbn [applications].
        rewrite filter_app, length_app. unfold a.
        cbn [filter]. unfold ofClass at 2. cbn [Application.classId].
        rewrite String.eqb_refl. cbn [List.length]. lia.
      * rewrite Husers. reflexivity.
      * rewrite Hclasses. reflexivity.
Qed.

(** Served in turn, the calls of a burst all make their three reads on the
    store as it was: every one of them finds the class open and below its
    capacity and finds no row of its user.  What is left of each call is its
    insert. *)
Lemma reads_in_flight classId c (calls : list (ID * Date)) db :
  ValidationUtil.isValid (ValidationUtil.validateUUID classId) = true ->
  mClass_findUnique classId db = Some c ->
  Forall (fun call => snd call < MClass.startAt c) calls ->
  Forall (fun call => application_findUnique (fst call) classId db = None) calls ->
  occupancy classId db < MClass.maxParticipants c ->
  Async.interleave (Async.inTurn 4 (List.length calls))
    (map (fun call => Async.applyToClass None (snd call) classId (fst call)) calls) db
  = Async.round
      (map (fun call =>
              Async.bind (Async.createApplication_insert (snd call) (fst call) classId)
                (Async.applyToClass_respond
                   {| MClassService.mclass := c;
                      MClassService.currentParticipants := occupancy classId db |}))
           calls) db.
Proof.
  intros Hvalid Hfind Hopen Hnew Hroom.
  set (respond := Async.applyToClass_respond _).
  assert (Hlen : forall A (f : ID * Date -> A), List.length calls = List.length (map f calls))
    by (intros; now rewrite length_map).
  (* the class lookup of every handler *)
  rewrite (Hlen _ (fun call => Async.applyToClass None (snd call) classId (fst call))).
  rewrite interleave_inTurn.
  rewrite (round_map _ (fun call => Async.bind
             (Async.createApplication None (snd call)
                {| ApplicationService.userId := fst call;
                   ApplicationService.classId := classId |}) respond)).
  2:{ intros [userId now] Hin. rewrite Forall_forall in Hopen. specialize (Hopen _ Hin).
      cbn [fst snd] in *. unfold Async.applyToClass.
      rewrite (valid_uuid_nonempty _ Hvalid), Hvalid. cbn [negb Async.step].
      unfold MClassService.getClassById. rewrite Hfind. cbn [MClassService.mclass].
      apply Z.leb_gt in Hopen. rewrite Hopen. reflexivity. }
  (* the first query of every transaction *)
  rewrite interleave_inTurn.
  rewrite (round_map _ (fun call => Async.bind
             (Async.createApplication_findExisting (snd call) (fst call) classId) respond)).
  2:{ intros [userId now] Hin. cbn [fst snd].
      unfold Async.createApplication.
      cbn [ApplicationService.userId ApplicationService.classId Async.bind Async.step].
      rewrite Hfind. fold (occupancy classId db).
      apply Z.leb_gt in Hroom. rewrite Hroom. reflexivity. }
  (* the second *)
  rewrite interleave_inTurn.
  rewrite (round_map _ (fun call => Async.bind
             (Async.createApplication_insert (snd call) (fst call) classId) respond)).
  2:{ intros [userId now] Hin. rewrite Forall_forall in Hnew. specialize (Hnew _ Hin).
      cbn [fst snd] in *. unfold Async.createApplication_findExisting.
      cbn [Async.bind Async.step]. rewrite Hnew. reflexivity. }
  (* what is left is the round of inserts *)
  rewrite interleave_inTurn.
  destruct (Async.round _ db) as [pool' db']. reflexivity.
Qed.

(** Calls in flight together are all admitted as soon as one seat is free:
    on an open class below its capacity, [K] first-time calls of distinct
    registered users, their queries served in turn, end with [K] admissions,
    whatever the capacity is. *)
Lemma burst_in_flight classId c (calls : list (ID * Date)) db :
  ValidationUtil.isValid (ValidationUtil.validateUUID classId) = true ->
  mClass_findUnique classId db = Some c ->
  Forall (fun call => snd call < MClass.startAt c) calls ->
  NoDup (map fst calls) ->
  Forall (fun call => user_exists (fst call) db = true) calls ->
  Forall (fun call => application_findUnique (fst call) classId db = None) calls ->
  occupancy classId db < MClass.maxParticipants c ->
  let pool := map (fun call => Async.applyToClass None (snd call) classId (fst call)) calls in
  let (pool', db') := Async.interleave (Async.inTurn 4 (List.length calls)) pool db in
  Forall (fun t => option_map isSuccess (Async.answer t) = Some true) pool' /\
  occupancy classId db' = occupancy classId db + Z.of_nat (List.length calls).
Proof.
  intros Hvalid Hfind Hopen Hnd Hreg Hnew Hroom pool. unfold pool.
  rewrite (reads_in_flight classId c calls db Hvalid Hfind Hopen Hnew Hroom).
  pose proof (round_of_inserts classId
                {| MClassService.mclass := c;
                   MClassService.currentParticipants := occupancy classId db |}
                calls db) as Hins.
  destruct (Async.round _ db) as [pool' db'].
  destruct Hins as (Hall & Hocc & _ & _).
  - unfold mClass_findUnique in Hfind. rewrite find_existsb, Hfind. reflexivity.
  - exact Hnd.
  - exact Hreg.
  - eapply Forall_impl; [|exact Hnew]. intros call Hcall.
    unfold application_findUnique in Hcall. rewrite find_existsb, Hcall. reflexivity.
  - split; [exact Hall | exact Hocc].
Qed.

(** C1.  The capacity invariant does not hold for calls in flight
    together.  Two registered users apply to a class of one seat that nobody
    has applied to.  Served one after the other, the first is admitted and
    the second is answered CapacityExceeded.  With their queries served in
    turn, both calls read a count of 0 before either has inserted its row,
    both are answered 201, and the class of one seat ends with two
    applications: the store is no longer within capacity. *)
Theorem capacity_exceeded_by_calls_in_flight :
  let first := Async.applyToClass None Sample.t0 Sample.classId (User.id Sample.user1) in
  let second := Async.applyToClass None (Sample.t0 + 1) Sample.classId (User.id Sample.user2) in
  capacity_ok (Sample.db0 1) /\
  mClass_findUnique Sample.classId (Sample.db0 1) = Some (Sample.testClass 1) /\
  MClass.maxParticipants (Sample.testClass 1) = 1 /\
  (let (pool, db) :=
     Async.interleave [0; 0; 0; 0; 1; 1; 1; 1]%nat [first; second] (Sample.db0 1) in
   map (fun t => option_map errorCode (Async.answer t)) pool
   = [Some None; Some (Some "CAPACITY_EXCEEDED")] /\
   occupancy Sample.classId db = 1 /\ capacity_ok db) /\
  (let (pool, db) :=
     Async.interleave [0; 1; 0; 1; 0; 1; 0; 1]%nat [first; second] (Sample.db0 1) in
   map (fun t => option_map (fun r => (isSuccess r, errorCode r)) (Async.answer t)) pool
   = [Some (true, None); Some (true, None)] /\
   mClass_findUnique Sample.classId db = Some (Sample.testClass 1) /\
   occupancy Sample.classId db = 2 /\
   ~ capacity_ok db).
Proof.
  assert (Hc : capacity_ok (Sample.db0 1)) by (intros c [<-|[]]; vm_compute; discriminate).
  cbv zeta. split; [exact Hc|]. split; [reflexivity|]. split; [reflexivity|]. split.
  - vm_compute Async.interleave. cbn [map option_map Async.answer errorCode].
    split; [reflexivity|]. split; [reflexivity|].
    intros c [<-|[]]. vm_compute. discriminate.
  - vm_compute Async.interleave.
    cbn [map option_map Async.answer errorCode isSuccess].
    split; [reflexivity|]. split; [reflexivity|]. split; [reflexivity|].
    intros H. specialize (H (Sample.testClass 1) (or_introl eq_refl)).
    vm_compute in H. apply H. reflexivity.
Qed.

(** C2.  A burst in flight admits more than the class holds.  Three
    registered users apply to a class of one seat that nobody has applied to.
    Served one after the other, one call is admitted and two are answered
    CapacityExceeded, which is what is claimed for [K = 3] and [N = 1].  With
    their queries served in turn, all three are answered 201, none is
    answered CapacityExceeded, and the occupancy ends at 3. *)
Theorem burst_in_flight_overfills :
  let calls := [(User.id Sample.user1, Sample.t0); (User.id Sample.user2, Sample.t0 + 1);
                (User.id Sample.user3, Sample.t0 + 2)] in
  let pool := map (fun call => Async.applyToClass None (snd call) Sample.classId (fst call))
                calls in
  occupancy Sample.classId (Sample.db0 1) = 0 /\
  MClass.maxParticipants (Sample.testClass 1) = 1 /\
  (let (rs, db) := applyAll Sample.classId calls (Sample.db0 1) in
   count isSuccess rs = 1 /\ count (failsWith (@CapacityExceeded unit)) rs = 2 /\
   occupancy Sample.classId db = 1) /\
  (let (pool', db) := Async.interleave (Async.inTurn 4 3) pool (Sample.db0 1) in
   map (fun t => option_map (fun r => (isSuccess r, errorCode r)) (Async.answer t)) pool'
   = [Some (true, None); Some (true, None); Some (true, None)] /\
   occupancy Sample.classId db = 3).
Proof.
  cbv zeta. split; [reflexivity|]. split; [reflexivity|]. split.
  - vm_compute. repeat split.
  - vm_compute Async.interleave.
    cbn [map option_map Async.answer errorCode isSuccess].
    split; reflexivity.
Qed.

(** ** One application per user and class *)


Lemma exec_keeps_pairs op db : pairs_unique db -> pairs_unique (exec op db).
Proof.
  intros Hp. destruct op as [fault now classId userId | now classId userId | classId];
    cbn [exec].
  - destruct (ApplicationController.applyToClass fault now classId userId db)
      as [r db'] eqn:E.
    apply applyToClass_inv in E as [[_ ->] | (_ & _ & (c & _ & _ & Hnone & _ & ->))];
      cbn [snd]; auto.
    unfold pairs_unique in *. cbn [applications].
    rewrite map_app. cbn [map pair Application.userId Application.classId].
    apply NoDup_app; [exact Hp | repeat constructor; intros [] | ].
    intros [u' c'] Hin [Heq|[]]. injection Heq as <- <-.
    apply in_map_iff in Hin as (b & Hb & Hin). unfold pair in Hb. injection Hb as Hu Hc.
    unfold application_findUnique in Hnone. eapply find_none in Hnone; eauto.
    unfold isFor in Hnone. rewrite Hu, Hc, !String.eqb_refl in Hnone. discriminate.
  - destruct (ApplicationController.cancelApplication now classId userId db)
      as [r db'] eqn:E.
    apply cancelApplication_inv in E as [[_ ->] | (_ & _ & ->)]; cbn [snd]; auto.
    unfold pairs_unique in *. cbn [applications]. now apply NoDup_map_remove_first.
  - destruct (MClassController.deleteClass classId db) as [r db'] eqn:E.
    apply deleteClass_inv in E as [[_ ->] | (_ & ->)]; cbn [snd]; auto.
    unfold pairs_unique in *. cbn [applications]. now apply NoDup_map_filter.
Qed.

(** The unique index is a backstop of its own: whatever was checked before,
    an insert for a pair that has a row throws P2002, and an insert that goes
    through keeps the pairs distinct. *)
Lemma unique_index_backstop now userId classId db :
  pairs_unique db ->
  match application_create now userId classId db with
  | inl e => hasApplied userId classId db -> e = P2002
  | inr (_, db') => ~ hasApplied userId classId db /\ pairs_unique db'
  end.
Proof.
  intros Hp. unfold application_create.
  destruct (existsb (isFor userId classId) (applications db)) eqn:E;
    [intros _; reflexivity|].
  assert (Hnot : ~ hasApplied userId classId db).
  { intros (a & Hin & Ha).
    assert (existsb (isFor userId classId) (applications db) = true)
      by (apply existsb_exists; eauto).
    congruence. }
  destruct (negb (user_exists userId db)); [intros H; contradiction|].
  destruct (negb (existsb (hasId classId) (mclasses db))); [intros H; contradiction|].
  cbn. split; auto.
  unfold pairs_unique in *. cbn [applications].
  rewrite map_app. cbn [map pair Application.userId Application.classId].
  apply NoDup_app; [exact Hp | repeat constructor; intros [] | ].
  intros [u' c'] Hin [Heq|[]]. injection Heq as <- <-.
  apply in_map_iff in Hin as (b & Hb & Hin). unfold pair in Hb. injection Hb as Hu Hc.
  apply Hnot. exists b. split; auto. unfold isFor. now rewrite Hu, Hc, !String.eqb_refl.
Qed.




(** ** The order of the admission checks *)

(** A user who already holds a seat in a full class is told that the class
    is full, not that they have applied already. *)
Lemma applied_and_full_counterexample :
  application_findUnique (User.id Sample.user2) Sample.classId Sample.dbFull2
    = Some (Sample.app 1 Sample.user2 (Sample.t0 + 1)) /\
  occupancy Sample.classId Sample.dbFull2 = 2 /\
  mClass_findUnique Sample.classId Sample.dbFull2 = Some (Sample.testClass 2) /\
  ApplicationController.applyToClass None (Sample.t0 + 9) Sample.classId
    (User.id Sample.user2) Sample.dbFull2 = (CapacityExceeded, Sample.dbFull2).
Proof. repeat split; vm_compute; reflexivity. Qed.

(** C4 (amended).  Apply decides in this order: the class id is a
    well-formed UUID, else 400 VALIDATION_ERROR before anything is looked up;
    the class exists, else ClassNotFound; the class has not started, else
    ClassAlreadyStarted; the occupancy is below the capacity, else
    CapacityExceeded; the caller holds no record for the class, else
    AlreadyApplied; only then is the caller admitted.  The first three
    answers are given before the transaction is opened, whatever would happen
    to it; the capacity and duplicate checks and the insert are one
    transaction. *)
Theorem apply_check_order now classId userId db :
  ApplicationController.applyToClass None now classId userId db =
    (if String.eqb classId "" then (createValidationError ["Class ID is required"], db)
     else if negb (ValidationUtil.isValid (ValidationUtil.validateUUID classId))
     then (createValidationError (ValidationUtil.errors (ValidationUtil.validateUUID classId)),
           db)
     else
    match mClass_findUnique classId db with
    | None => (ClassNotFound, db)
    | Some c =>
        if MClass.startAt c <=? now then (ClassAlreadyStarted, db)
        else if MClass.maxParticipants c <=? occupancy classId db then (CapacityExceeded, db)
        else
          match application_findUnique userId classId db with
          | Some _ => (AlreadyApplied, db)
          | None =>
              if user_exists userId db then
                (Success 201
                   (Application.mk (nextId db) userId classId now,
                    {| MClassService.mclass := c;
                       MClassService.currentParticipants := occupancy classId db |})
                   "Application submitted successfully",
                 mkDB (users db) (mclasses db)
                   (applications db ++ [Application.mk (nextId db) userId classId now])
                   (S (nextId db)))
              else
                (Failure 400 "VALIDATION_ERROR" "Invalid class or user information" [], db)
          end
    end)
  /\
  (forall e,
      ApplicationController.applyToClass (Some e) now classId userId db =
        (if String.eqb classId "" then (createValidationError ["Class ID is required"], db)
         else if negb (ValidationUtil.isValid (ValidationUtil.validateUUID classId))
         then (createValidationError
                 (ValidationUtil.errors (ValidationUtil.validateUUID classId)), db)
         else
           match mClass_findUnique classId db with
           | None => (ClassNotFound, db)
           | Some c =>
               if MClass.startAt c <=? now then (ClassAlreadyStarted, db)
               else (ApplicationController.applyToClass_catch
                       (ApplicationService.createApplication_catch e), db)
           end)).
Proof.
  split.
  - destruct (String.eqb classId "") eqn:Eempty;
      [unfold ApplicationController.applyToClass; now rewrite Eempty|].
    destruct (ValidationUtil.isValid (ValidationUtil.validateUUID classId)) eqn:Hvalid;
      cbn [negb];
      [|unfold ApplicationController.applyToClass; now rewrite Eempty, Hvalid].
    destruct (mClass_findUnique classId db) as [c|] eqn:Hfind;
      [|now apply apply_class_not_found].
    destruct (Z.leb_spec (MClass.startAt c) now) as [Hs|Hopen];
      [now apply apply_started with (c := c)|].
    destruct (Z.leb_spec (MClass.maxParticipants c) (occupancy classId db)) as [Hfull|Hroom];
      [now apply apply_full with (c := c)|].
    destruct (application_findUnique userId classId db) as [a|] eqn:Hdup;
      [now apply apply_duplicate with (c := c) (a := a)|].
    destruct (user_exists userId db) eqn:Hu.
    + now apply apply_admits.
    + now apply apply_unknown_user with (c := c).
  - intros e. unfold ApplicationController.applyToClass.
    destruct (String.eqb classId ""); [reflexivity|].
    destruct (negb (ValidationUtil.isValid (ValidationUtil.validateUUID classId)));
      [reflexivity|].
    unfold MClassService.getClassById.
    destruct (mClass_findUnique classId db) as [c|]; [|reflexivity].
    cbn [MClassService.mclass].
    destruct (MClass.startAt c <=? now); reflexivity.
Qed.

Lemma apply_check_order_witness :
  ApplicationController.applyToClass None (Sample.t0 + 9) Sample.classId
    (User.id Sample.user3) Sample.dbFull2 = (CapacityExceeded, Sample.dbFull2) /\
  ApplicationController.applyToClass None (Sample.t0 + 9) "no-such-class"
    (User.id Sample.user3) Sample.dbFull2
  = (createValidationError ["Invalid UUID format"], Sample.dbFull2).
Proof.
  split.
  - exact (proj1 (apply_check_order (Sample.t0 + 9) Sample.classId (User.id Sample.user3)
                    Sample.dbFull2)).
  - exact (proj1 (apply_check_order (Sample.t0 + 9) "no-such-class" (User.id Sample.user3)
                    Sample.dbFull2)).
Defined.

(** ** Transient storage errors *)

(** One aborted transaction is enough to fail an Apply that would have been
    admitted: nothing is tried again, and the caller sees the generic 500. *)
Lemma no_retry_counterexample :
  ApplicationController.applyToClass (Some P2034) Sample.t0 Sample.classId
    (User.id Sample.user1) (Sample.db0 2) = (InternalServerError, Sample.db0 2) /\
  isSuccess (fst (ApplicationController.applyToClass None Sample.t0 Sample.classId
                    (User.id Sample.user1) (Sample.db0 2))) = true.
Proof. split; vm_compute; reflexivity. Qed.

(** C5 (amended).  Apply opens its transaction once and never retries: when
    the transaction fails with an error that the handlers do not recognise (a
    lock timeout, a serialization conflict), Apply on an existing class that
    has not started answers INTERNAL_SERVER_ERROR and leaves the store as it
    was.  The error codes Apply can answer with are VALIDATION_ERROR,
    NOT_FOUND, CONFLICT, CAPACITY_EXCEEDED and INTERNAL_SERVER_ERROR; none of
    them stands for a transient conflict. *)
Theorem transient_error_surfaces_as_500 e now classId userId db c :
  unrecognised e = true ->
  ValidationUtil.isValid (ValidationUtil.validateUUID classId) = true ->
  mClass_findUnique classId db = Some c ->
  now < MClass.startAt c ->
  ApplicationController.applyToClass (Some e) now classId userId db
    = (InternalServerError, db) /\
  (forall fault' now' classId' userId' db',
      match errorCode (fst (ApplicationController.applyToClass fault' now' classId' userId' db')) with
      | None => True
      | Some code =>
          In code ["VALIDATION_ERROR"; "NOT_FOUND"; "CONFLICT"; "CAPACITY_EXCEEDED";
                   "INTERNAL_SERVER_ERROR"]
      end).
Proof.
  intros He Hvalid Hfind Hopen. split.
  - unfold unrecognised in He.
    repeat (apply andb_prop in He as [He ?]).
    repeat match goal with H : negb _ = true |- _ => apply negb_true_iff in H end.
    unfold ApplicationController.applyToClass.
    rewrite (valid_uuid_nonempty _ Hvalid), Hvalid. cbn [negb].
    unfold MClassService.getClassById. rewrite Hfind. cbn [MClassService.mclass].
    apply Z.leb_gt in Hopen. rewrite Hopen.
    unfold ApplicationService.createApplication, transaction, throw,
      ApplicationService.createApplication_catch.
    match goal with H : hasCode "P2002" e = false |- _ => rewrite H end.
    match goal with H : hasCode "P2003" e = false |- _ => rewrite H end.
    unfold ApplicationController.applyToClass_catch.
    repeat match goal with H : includes _ _ = false |- _ => rewrite H; clear H end.
    reflexivity.
  - intros fault' now' classId' userId' db'.
    unfold ApplicationController.applyToClass.
    destruct (String.eqb classId' ""); [cbn; auto|].
    destruct (negb _); [cbn; auto|].
    destruct (MClassService.getClassById classId' db'); [|cbn; auto].
    destruct (_ <=? now'); [cbn; auto|].
    destruct (ApplicationService.createApplication _ _ _ _) as [err|[a d]]; [|exact I].
    unfold ApplicationController.applyToClass_catch.
    repeat match goal with |- context [if ?b then _ else _] => destruct b end;
      cbn; auto 10.
Qed.

Lemma transient_error_surfaces_as_500_witness :
  ApplicationController.applyToClass (Some P2034) Sample.t0 Sample.classId
    (User.id Sample.user2) (Sample.db0 2) = (InternalServerError, Sample.db0 2).
Proof.
  refine (proj1 (transient_error_surfaces_as_500 P2034 Sample.t0 Sample.classId
                   (User.id Sample.user2) (Sample.db0 2) (Sample.testClass 2) _ _ _ _)).
  - vm_compute. reflexivity.
  - vm_compute. reflexivity.
  - reflexivity.
  - vm_compute. reflexivity.
Defined.

(** ** Class creation and the duration of a class *)

(** C6.  The creation handler admits a class of one minute and a class of
    nine hours, both starting in the future and ending after they start: each
    request is answered 201 and its row is stored.  The schema
    [mclassValidation.create], which holds the 30-minute and 8-hour rules,
    rejects both pairs of dates, but the creation route does not run it. *)
Theorem createClass_ignores_duration :
  MClassController.createClass Sample.t0 Sample.newClassId (User.id Sample.admin)
    Sample.oneMinuteClass (Sample.db0 2)
  = (Success 201
       (MClass.mk Sample.newClassId "Lightning talk" "A class that lasts one minute" 5
          (Sample.t0 + 86400000) (Sample.t0 + 86400000 + 60000) (User.id Sample.admin))
       "M-Class created successfully",
     mkDB (users (Sample.db0 2))
       (mclasses (Sample.db0 2) ++
        [MClass.mk Sample.newClassId "Lightning talk" "A class that lasts one minute" 5
           (Sample.t0 + 86400000) (Sample.t0 + 86400000 + 60000) (User.id Sample.admin)])
       [] 0) /\
  mclassValidation.endAt_custom Sample.t0 (Sample.t0 + 86400000) (Sample.t0 + 86400000 + 60000)
  = Some "Class duration must be at least 30 minutes" /\
  isSuccess (fst (MClassController.createClass Sample.t0 Sample.newClassId
                    (User.id Sample.admin) Sample.nineHourClass (Sample.db0 2))) = true /\
  mclassValidation.endAt_custom Sample.t0 (Sample.t0 + 86400000)
    (Sample.t0 + 86400000 + 9 * 3600000)
  = Some "Class duration must not exceed 8 hours".
Proof. repeat split; vm_compute; reflexivity. Qed.

(** What the handler does check of the two dates: a request with valid
    title, description and a capacity the column holds is stored exactly when
    [now < startAt] and [startAt < endAt]; the length of the class plays no
    part. *)
Lemma createClass_date_rule now newId userId body maxP startDate endDate db :
  String.eqb (MClassController.title body) "" = false ->
  3 <= MClassController.strlen (MClassController.title body) <= 100 ->
  String.eqb (MClassController.description body) "" = false ->
  MClassController.strlen (MClassController.description body) <= 500 ->
  MClassController.maxParticipants body = Some maxP -> 1 <= maxP <= 2147483647 ->
  MClassController.startAt body = Some startDate ->
  MClassController.endAt body = Some endDate ->
  existsb (hasId newId) (mclasses db) = false ->
  user_exists userId db = true ->
  (isSuccess (fst (MClassController.createClass now newId userId body db)) = true
   <-> now < startDate /\ startDate < endDate).
Proof.
  intros Ht [Ht1 Ht2] Hd Hd1 Hm [Hm1 Hm2] Hs He Hfresh Hu.
  unfold MClassController.createClass.
  rewrite Ht, Hd, Hm, Hs, He.
  replace (MClassController.strlen (MClassController.title body) <? 3) with false
    by (symmetry; apply Z.ltb_ge; lia).
  replace (100 <? MClassController.strlen (MClassController.title body)) with false
    by (symmetry; apply Z.ltb_ge; lia).
  replace (500 <? MClassController.strlen (MClassController.description body)) with false
    by (symmetry; apply Z.ltb_ge; lia).
  replace (maxP <? 1) with false by (symmetry; apply Z.ltb_ge; lia).
  cbn [orb].
  destruct (Z.leb_spec startDate now); [cbn; split; [discriminate | lia]|].
  destruct (Z.leb_spec endDate startDate); [cbn; split; [discriminate | lia]|].
  unfold MClassService.createClass, mClass_create.
  cbn [MClass.id MClass.hostId MClass.maxParticipants].
  replace (int4 maxP) with true
    by (symmetry; unfold int4; apply andb_true_intro; split; apply Z.leb_le; lia).
  rewrite Hfresh, Hu. cbn. split; auto.
Qed.

(** ** Cancellation *)

Lemma count_remove_first_sub {A} (q p : A -> bool) l :
  (forall x, p x = true -> q x = true) ->
  existsb p l = true -> count q (remove_first p l) = count q l - 1.
Proof.
  intros Hpq.
  induction l as [|y l IH]; cbn [remove_first existsb]; try discriminate.
  rewrite count_cons. destruct (p y) eqn:E; cbn [orb].
  - intros _. rewrite (Hpq _ E). lia.
  - intros H. rewrite count_cons, (IH H). lia.
Qed.

Lemma remove_first_split {A} (p : A -> bool) l a :
  find p l = Some a ->
  exists l1 l2, l = (l1 ++ a :: l2)%list /\ remove_first p l = (l1 ++ l2)%list /\
                p a = true /\ Forall (fun x => p x = false) l1.
Proof.
  induction l as [|y l IH]; cbn [find remove_first]; try discriminate.
  destruct (p y) eqn:E.
  - intros [= <-]. exists [], l. repeat split; auto.
  - intros H. destruct (IH H) as (l1 & l2 & -> & Hr & Ha & Hall).
    exists (y :: l1), l2. rewrite Hr. repeat split; auto.
Qed.

Section CancelCases.
Variables (now : Date) (classId userId : ID) (db : DB).
Hypothesis Hvalid : ValidationUtil.isValid (ValidationUtil.validateUUID classId) = true.

Let cancel := ApplicationController.cancelApplication now classId userId db.

Lemma cancel_class_not_found :
  mClass_findUnique classId db = None -> cancel = (ClassNotFound, db).
Proof.
  intros Hf. unfold cancel, ApplicationController.cancelApplication.
  rewrite (valid_uuid_nonempty _ Hvalid), Hvalid. cbn [negb].
  unfold MClassService.getClassById. now rewrite Hf.
Qed.

Variable c : MClass.t.
Hypothesis Hfind : mClass_findUnique classId db = Some c.

Lemma cancel_started :
  MClass.startAt c <= now -> cancel = (CancelClassAlreadyStarted, db).
Proof.
  intros Hs. unfold cancel, ApplicationController.cancelApplication.
  rewrite (valid_uuid_nonempty _ Hvalid), Hvalid. cbn [negb].
  unfold MClassService.getClassById. rewrite Hfind. cbn [MClassService.mclass].
  apply Z.leb_le in Hs. now rewrite Hs.
Qed.

Hypothesis Hopen : now < MClass.startAt c.

Lemma cancel_no_record :
  application_findUnique userId classId db = None -> cancel = (ApplicationNotFound, db).
Proof.
  intros Hn. unfold cancel, ApplicationController.cancelApplication.
  rewrite (valid_uuid_nonempty _ Hvalid), Hvalid. cbn [negb].
  unfold MClassService.getClassById. rewrite Hfind. cbn [MClassService.mclass].
  apply Z.leb_gt in Hopen. rewrite Hopen.
  unfold ApplicationService.cancelApplication, application_delete. now rewrite Hn.
Qed.

Lemma cancel_deletes a :
  application_findUnique userId classId db = Some a ->
  cancel =
  (Success 200
     {| MClassService.mclass := c;
        MClassService.currentParticipants := occupancy classId db |}
     "Application cancelled successfully",
   mkDB (users db) (mclasses db)
        (remove_first (isFor userId classId) (applications db)) (nextId db)).
Proof.
  intros Ha. unfold cancel, ApplicationController.cancelApplication.
  rewrite (valid_uuid_nonempty _ Hvalid), Hvalid. cbn [negb].
  unfold MClassService.getClassById. rewrite Hfind. cbn [MClassService.mclass].
  apply Z.leb_gt in Hopen. rewrite Hopen.
  unfold ApplicationService.cancelApplication, application_delete. now rewrite Ha.
Qed.

End CancelCases.

(** C7.  On a full class that has not started, after a Cancel by a user who
    holds a seat, an Apply by a registered user who never applied to the
    class is admitted, and the occupancy is back at the capacity. *)
Theorem cancel_frees_a_seat now1 now2 classId c seated newcomer a db :
  ValidationUtil.isValid (ValidationUtil.validateUUID classId) = true ->
  mClass_findUnique classId db = Some c ->
  now1 < MClass.startAt c -> now2 < MClass.startAt c ->
  occupancy classId db = MClass.maxParticipants c ->
  application_findUnique seated classId db = Some a ->
  application_findUnique newcomer classId db = None ->
  user_exists newcomer db = true ->
  let (r1, db1) := ApplicationController.cancelApplication now1 classId seated db in
  let (r2, db2) := ApplicationController.applyToClass None now2 classId newcomer db1 in
  isSuccess r1 = true /\
  occupancy classId db1 = MClass.maxParticipants c - 1 /\
  isSuccess r2 = true /\
  hasApplied newcomer classId db2 /\
  occupancy classId db2 = MClass.maxParticipants c.
Proof.
  intros Hvalid Hfind Ho1 Ho2 Hfull Hseat Hnew Hu.
  rewrite (cancel_deletes now1 classId seated db Hvalid c Hfind Ho1 a Hseat).
  set (db1 := mkDB _ _ _ _).
  assert (Hocc1 : occupancy classId db1 = MClass.maxParticipants c - 1).
  { unfold occupancy, application_count, db1 in *. cbn [applications].
    pose proof (count_remove_first_sub (ofClass classId) (isFor seated classId)
                  (applications db)) as Hc.
    unfold count in Hc. rewrite Hc; [lia| |].
    - intros x Hx. unfold isFor in Hx. apply andb_prop in Hx. apply Hx.
    - rewrite find_existsb. unfold application_findUnique in Hseat. now rewrite Hseat. }
  assert (Hnew1 : application_findUnique newcomer classId db1 = None).
  { unfold application_findUnique, db1 in *. cbn [applications].
    destruct (find _ (remove_first _ _)) as [b|] eqn:E; auto.
    apply find_some in E as [Hin Hb]. apply remove_first_In in Hin.
    eapply find_none in Hnew; eauto. congruence. }
  assert (Hfind1 : mClass_findUnique classId db1 = Some c) by exact Hfind.
  assert (Hu1 : user_exists newcomer db1 = true) by exact Hu.
  assert (Hroom : occupancy classId db1 < MClass.maxParticipants c) by lia.
  rewrite (apply_admits now2 classId newcomer db1 c Hvalid Hfind1 Ho2 Hroom Hnew1 Hu1).
  repeat split; auto.
  - exists (Application.mk (nextId db1) newcomer classId now2).
    cbn [applications]. split.
    + apply in_or_app. right. now left.
    + unfold isFor. cbn. now rewrite !String.eqb_refl.
  - unfold occupancy, application_count in *. cbn [applications].
    pose proof (count_app (ofClass classId) (applications db1)
                  (Application.mk (nextId db1) newcomer classId now2)) as Hc.
    unfold count in Hc. rewrite Hc. unfold ofClass at 2. cbn [Application.classId].
    rewrite String.eqb_refl. lia.
Qed.

Lemma cancel_frees_a_seat_witness :
  let (r1, db1) := ApplicationController.cancelApplication (Sample.t0 + 5) Sample.classId
                     (User.id Sample.user1) Sample.dbFull2 in
  let (r2, db2) := ApplicationController.applyToClass None (Sample.t0 + 6) Sample.classId
                     (User.id Sample.user3) db1 in
  isSuccess r1 = true /\
  occupancy Sample.classId db1 = 2 - 1 /\
  isSuccess r2 = true /\
  hasApplied (User.id Sample.user3) Sample.classId db2 /\
  occupancy Sample.classId db2 = 2.
Proof.
  apply (cancel_frees_a_seat (Sample.t0 + 5) (Sample.t0 + 6) Sample.classId
           (Sample.testClass 2) (User.id Sample.user1) (User.id Sample.user3)
           (Sample.app 0 Sample.user1 Sample.t0) Sample.dbFull2).
  - reflexivity.
  - reflexivity.
  - vm_compute. reflexivity.
  - vm_compute. reflexivity.
  - reflexivity.
  - reflexivity.
  - reflexivity.
  - reflexivity.
Defined.

(** C8.  Cancel answers ClassNotFound when the class does not exist and
    ClassAlreadyStarted when it has started; it answers ApplicationNotFound
    exactly when the class exists, has not started and the caller holds no
    record for it, and succeeds exactly when the class exists, has not started
    and the record exists.  A successful Cancel removes that one record and
    nothing else; a failed Cancel leaves the store as it was. *)
Theorem cancel_semantics now classId userId db :
  ValidationUtil.isValid (ValidationUtil.validateUUID classId) = true ->
  let (r, db') := ApplicationController.cancelApplication now classId userId db in
  (mClass_findUnique classId db = None -> r = ClassNotFound) /\
  (forall c, mClass_findUnique classId db = Some c -> MClass.startAt c <= now ->
             r = CancelClassAlreadyStarted) /\
  (r = ApplicationNotFound <->
   exists c, mClass_findUnique classId db = Some c /\ now < MClass.startAt c /\
             application_findUnique userId classId db = None) /\
  (isSuccess r = true <->
   exists c a, mClass_findUnique classId db = Some c /\ now < MClass.startAt c /\
               application_findUnique userId classId db = Some a) /\
  (isSuccess r = false -> db' = db) /\
  (isSuccess r = true ->
   exists a l1 l2,
     application_findUnique userId classId db = Some a /\
     applications db = (l1 ++ a :: l2)%list /\
     applications db' = (l1 ++ l2)%list /\
     users db' = users db /\ mclasses db' = mclasses db /\ nextId db' = nextId db).
Proof.
  intros Hvalid.
  destruct (mClass_findUnique classId db) as [c|] eqn:Hfind.
  - destruct (Z.leb_spec (MClass.startAt c) now) as [Hs|Hopen].
    + rewrite (cancel_started now classId userId db Hvalid c Hfind Hs).
      split; [discriminate|]. split; [reflexivity|].
      split; [split; [discriminate | intros (c' & [= <-] & Ho & _); lia]|].
      split; [split; [discriminate | intros (c' & a & [= <-] & Ho & _); lia]|].
      split; [reflexivity | discriminate].
    + destruct (application_findUnique userId classId db) as [a|] eqn:Ha.
      * rewrite (cancel_deletes now classId userId db Hvalid c Hfind Hopen a Ha).
        split; [discriminate|]. split; [intros c' [= <-] Hs; lia|].
        split; [split; [discriminate | intros (c' & _ & _ & Hn); discriminate Hn]|].
        split; [split; [eauto | reflexivity]|].
        split; [discriminate|].
        intros _. cbn [applications users mclasses nextId].
        destruct (remove_first_split _ _ _ Ha) as (l1 & l2 & Hl & Hr & _ & _).
        exists a, l1, l2. repeat split; assumption.
      * rewrite (cancel_no_record now classId userId db Hvalid c Hfind Hopen Ha).
        split; [discriminate|]. split; [intros c' [= <-] Hs; lia|].
        split; [split; [eauto | reflexivity]|].
        split; [split; [discriminate | intros (c' & a & _ & _ & Hn); discriminate Hn]|].
        split; [reflexivity | discriminate].
  - rewrite (cancel_class_not_found now classId userId db Hvalid Hfind).
    split; [reflexivity|]. split; [discriminate|].
    split; [split; [discriminate | intros (c' & Hn & _); discriminate Hn]|].
    split; [split; [discriminate | intros (c' & a & Hn & _); discriminate Hn]|].
    split; [reflexivity | discriminate].
Qed.

Lemma cancel_semantics_witness :
  ValidationUtil.isValid (ValidationUtil.validateUUID Sample.classId) = true /\
  let (r, db') := ApplicationController.cancelApplication (Sample.t0 + 5) Sample.classId
                    (User.id Sample.user2) Sample.dbFull2 in
  (mClass_findUnique Sample.classId Sample.dbFull2 = None -> r = ClassNotFound) /\
  (forall c, mClass_findUnique Sample.classId Sample.dbFull2 = Some c ->
             MClass.startAt c <= Sample.t0 + 5 -> r = CancelClassAlreadyStarted) /\
  (r = ApplicationNotFound <->
   exists c, mClass_findUnique Sample.classId Sample.dbFull2 = Some c /\
             Sample.t0 + 5 < MClass.startAt c /\
             application_findUnique (User.id Sample.user2) Sample.classId Sample.dbFull2 = None) /\
  (isSuccess r = true <->
   exists c a, mClass_findUnique Sample.classId Sample.dbFull2 = Some c /\
               Sample.t0 + 5 < MClass.startAt c /\
               application_findUnique (User.id Sample.user2) Sample.classId Sample.dbFull2
               = Some a) /\
  (isSuccess r = false -> db' = Sample.dbFull2) /\
  (isSuccess r = true ->
   exists a l1 l2,
     application_findUnique (User.id Sample.user2) Sample.classId Sample.dbFull2 = Some a /\
     applications Sample.dbFull2 = (l1 ++ a :: l2)%list /\
     applications db' = (l1 ++ l2)%list /\
     users db' = users Sample.dbFull2 /\ mclasses db' = mclasses Sample.dbFull2 /\
     nextId db' = nextId Sample.dbFull2).
Proof.
  split; [reflexivity|].
  exact (cancel_semantics (Sample.t0 + 5) Sample.classId (User.id Sample.user2)
           Sample.dbFull2 eq_refl).
Defined.

(** ** Listings *)

Section SortFacts.
Context {A : Type} (le : A -> A -> bool).
Hypothesis le_total : forall a b, le a b = true \/ le b a = true.
Hypothesis le_trans : forall a b c, le a b = true -> le b c = true -> le a c = true.

Let R (a b : A) : Prop := le a b = true.

Lemma insert_by_perm x l : Permutation (insert_by le x l) (x :: l).
Proof.
  induction l as [|y l IH]; cbn [insert_by]; auto.
  destruct (le x y); auto.
  rewrite IH. apply perm_swap.
Qed.

Lemma sort_by_perm l : Permutation (sort_by le l) l.
Proof.
  induction l as [|y l IH]; cbn; auto.
  fold (sort_by le l). rewrite insert_by_perm. now constructor.
Qed.

Lemma insert_by_sorted x l :
  StronglySorted R l -> StronglySorted R (insert_by le x l).
Proof.
  induction l as [|y l IH]; cbn [insert_by]; intros Hs.
  - repeat constructor.
  - inversion Hs as [|? ? Hs' Hall]; subst.
    destruct (le x y) eqn:E.
    + constructor; auto. constructor; auto.
      eapply Forall_impl; [|exact Hall]. intros z Hz. unfold R in *. eauto.
    + constructor; auto.
      eapply Permutation_Forall; [symmetry; apply insert_by_perm|].
      constructor; auto. unfold R. destruct (le_total x y); congruence.
Qed.

Lemma sort_by_sorted l : StronglySorted R (sort_by le l).
Proof.
  induction l as [|y l IH]; cbn; [constructor|].
  now apply insert_by_sorted.
Qed.

End SortFacts.

Lemma firstn_In {A} n (l : list A) x : In x (firstn n l) -> In x l.
Proof.
  intros H. rewrite <- (firstn_skipn n l). apply in_or_app. now left.
Qed.

Lemma skipn_In {A} n (l : list A) x : In x (skipn n l) -> In x l.
Proof.
  intros H. rewrite <- (firstn_skipn n l). apply in_or_app. now right.
Qed.

Lemma StronglySorted_skipn {A} (R : A -> A -> Prop) n l :
  StronglySorted R l -> StronglySorted R (skipn n l).
Proof.
  revert l. induction n as [|n IH]; intros l Hs; cbn; auto.
  destruct l; auto. inversion Hs; auto.
Qed.

Lemma StronglySorted_firstn {A} (R : A -> A -> Prop) n l :
  StronglySorted R l -> StronglySorted R (firstn n l).
Proof.
  revert l. induction n as [|n IH]; intros l Hs; cbn; [constructor|].
  destruct l as [|x l]; [constructor|]. inversion Hs as [|? ? Hs' Hall]; subst.
  constructor; auto.
  apply Forall_forall. intros y Hy. rewrite Forall_forall in Hall.
  apply Hall. eapply firstn_In; eauto.
Qed.

Lemma Forall_page {A} (P : A -> Prop) n m l :
  Forall P l -> Forall P (firstn n (skipn m l)).
Proof.
  intros H. apply Forall_forall. intros x Hx. rewrite Forall_forall in H.
  apply H. apply firstn_In in Hx. eapply skipn_In; eauto.
Qed.

Lemma ceil_div_bounds total limit :
  1 <= limit -> total <= ceil_div total limit * limit < total + limit.
Proof.
  intros Hl. unfold ceil_div.
  pose proof (Z.mul_div_le (total + limit - 1) limit ltac:(lia)).
  pose proof (Z.mul_succ_div_gt (total + limit - 1) limit ltac:(lia)).
  lia.
Qed.

(** The whole listing a page is cut from: the matching rows in order. *)
Lemma findMany_listing where_ orderBy db :
  (forall a b, orderBy a b = true \/ orderBy b a = true) ->
  (forall a b c, orderBy a b = true -> orderBy b c = true -> orderBy a c = true) ->
  let listing := sort_by orderBy (filter where_ (applications db)) in
  Permutation listing (filter where_ (applications db)) /\
  StronglySorted (fun a b => orderBy a b = true) listing /\
  Forall (fun a => where_ a = true) listing /\
  application_count where_ db = Z.of_nat (List.length listing).
Proof.
  intros Htot Htrans listing. unfold listing.
  pose proof (sort_by_perm orderBy (filter where_ (applications db))) as Hp.
  repeat split; auto.
  - now apply sort_by_sorted.
  - eapply Permutation_Forall; [symmetry; exact Hp|].
    apply Forall_forall. intros a Ha. apply filter_In in Ha. tauto.
  - unfold application_count. now rewrite (Permutation_length Hp).
Qed.

Lemma findMany_cases where_ orderBy skip take db :
  0 <= skip ->
  application_findMany where_ orderBy skip take db
  = if skip <=? 9223372036854775807
    then inr (firstn (Z.to_nat take)
                (skipn (Z.to_nat skip) (sort_by orderBy (filter where_ (applications db)))))
    else inl valueOutOfRange.
Proof.
  intros Hs. unfold application_findMany, int8.
  replace (-9223372036854775808 <=? skip) with true by (symmetry; apply Z.leb_le; lia).
  cbn [andb]. now destruct (skip <=? 9223372036854775807).
Qed.

(** C9.  The applications of a class are listed oldest first and the
    applications of a user newest first, one page at a time: page [page] of
    size [limit] holds rows [(page - 1) * limit] to [page * limit - 1] of the
    whole ordered listing of the class (of the user), [total] is the length of
    that listing and [totalPages] the number of pages it fills.  The one page
    that is not served is a page so far out that the store cannot skip to it,
    [(page - 1) * limit] being no 64-bit integer: there the call throws. *)
Theorem listings_ordered_and_paged classId userId page limit db :
  1 <= page -> 1 <= limit ->
  match ApplicationService.getClassApplications classId page limit db with
  | inl _ => 9223372036854775807 < (page - 1) * limit
  | inr byClass =>
  (StronglySorted (fun a b => Application.createdAt a <= Application.createdAt b)
     (ApplicationService.page_applications byClass) /\
   Forall (fun a => Application.classId a = classId)
     (ApplicationService.page_applications byClass) /\
   Z.of_nat (List.length (ApplicationService.page_applications byClass)) <= limit /\
   exists listing,
     Permutation listing (filter (ofClass classId) (applications db)) /\
     StronglySorted (fun a b => Application.createdAt a <= Application.createdAt b) listing /\
     ApplicationService.page_applications byClass
       = firstn (Z.to_nat limit) (skipn (Z.to_nat ((page - 1) * limit)) listing) /\
     ApplicationService.total byClass = Z.of_nat (List.length listing) /\
     ApplicationService.total byClass
       <= ApplicationService.totalPages byClass * limit
       < ApplicationService.total byClass + limit)
  end /\
  match ApplicationService.getUserApplications userId page limit db with
  | inl _ => 9223372036854775807 < (page - 1) * limit
  | inr byUser =>
  (StronglySorted (fun a b => Application.createdAt b <= Application.createdAt a)
     (ApplicationService.page_applications byUser) /\
   Forall (fun a => Application.userId a = userId)
     (ApplicationService.page_applications byUser) /\
   Z.of_nat (List.length (ApplicationService.page_applications byUser)) <= limit /\
   exists listing,
     Permutation listing (filter (ofUser userId) (applications db)) /\
     StronglySorted (fun a b => Application.createdAt b <= Application.createdAt a) listing /\
     ApplicationService.page_applications byUser
       = firstn (Z.to_nat limit) (skipn (Z.to_nat ((page - 1) * limit)) listing) /\
     ApplicationService.total byUser = Z.of_nat (List.length listing) /\
     ApplicationService.total byUser
       <= ApplicationService.totalPages byUser * limit
       < ApplicationService.total byUser + limit)
  end.
Proof.
  intros Hpage Hlimit.
  assert (Hasc_tot : forall a b, asc a b = true \/ asc b a = true).
  { intros a b. unfold asc. rewrite !Z.leb_le. lia. }
  assert (Hasc_tr : forall a b c, asc a b = true -> asc b c = true -> asc a c = true).
  { intros a b c. unfold asc. rewrite !Z.leb_le. lia. }
  assert (Hdesc_tot : forall a b, desc a b = true \/ desc b a = true).
  { intros a b. unfold desc. rewrite !Z.leb_le. lia. }
  assert (Hdesc_tr : forall a b c, desc a b = true -> desc b c = true -> desc a c = true).
  { intros a b c. unfold desc. rewrite !Z.leb_le. lia. }
  split.
  - destruct (findMany_listing (ofClass classId) asc db Hasc_tot Hasc_tr)
      as (Hp & Hs & Hw & Hc).
    set (listing := sort_by asc (filter (ofClass classId) (applications db))) in *.
    assert (Hs' : StronglySorted
                    (fun a b => Application.createdAt a <= Application.createdAt b) listing).
    { eapply StronglySorted_ind with (P := StronglySorted _); [constructor | | exact Hs].
      intros a l _ IH Hall. constructor; auto.
      eapply Forall_impl; [|exact Hall]. intros b Hb. now apply Z.leb_le. }
    assert (Hw' : Forall (fun a => Application.classId a = classId) listing).
    { eapply Forall_impl; [|exact Hw]. intros a Ha. now apply String.eqb_eq. }
    unfold ApplicationService.getClassApplications.
    rewrite findMany_cases by nia.
    destruct (Z.leb_spec ((page - 1) * limit) 9223372036854775807); [|exact H].
    cbn [Js.bind Js.ret ApplicationService.page_applications ApplicationService.total
         ApplicationService.totalPages]. fold listing.
    repeat split.
    + now apply StronglySorted_firstn, StronglySorted_skipn.
    + now apply Forall_page.
    + rewrite length_firstn. lia.
    + exists listing. rewrite Hc. repeat split; auto; apply ceil_div_bounds; lia.
  - destruct (findMany_listing (ofUser userId) desc db Hdesc_tot Hdesc_tr)
      as (Hp & Hs & Hw & Hc).
    set (listing := sort_by desc (filter (ofUser userId) (applications db))) in *.
    assert (Hs' : StronglySorted
                    (fun a b => Application.createdAt b <= Application.createdAt a) listing).
    { eapply StronglySorted_ind with (P := StronglySorted _); [constructor | | exact Hs].
      intros a l _ IH Hall. constructor; auto.
      eapply Forall_impl; [|exact Hall]. intros b Hb. now apply Z.leb_le. }
    assert (Hw' : Forall (fun a => Application.userId a = userId) listing).
    { eapply Forall_impl; [|exact Hw]. intros a Ha. now apply String.eqb_eq. }
    unfold ApplicationService.getUserApplications.
    rewrite findMany_cases by nia.
    destruct (Z.leb_spec ((page - 1) * limit) 9223372036854775807); [|exact H].
    cbn [Js.bind Js.ret ApplicationService.page_applications ApplicationService.total
         ApplicationService.totalPages]. fold listing.
    repeat split.
    + now apply StronglySorted_firstn, StronglySorted_skipn.
    + now apply Forall_page.
    + rewrite length_firstn. lia.
    + exists listing. rewrite Hc. repeat split; auto; apply ceil_div_bounds; lia.
Qed.

Lemma listings_ordered_and_paged_witness :
  match ApplicationService.getClassApplications Sample.classId 1 10 Sample.dbTwoClasses with
  | inr byClass =>
      StronglySorted (fun a b => Application.createdAt a <= Application.createdAt b)
        (ApplicationService.page_applications byClass)
  | inl _ => False
  end /\
  match ApplicationService.getUserApplications (User.id Sample.user1) 1 10
          Sample.dbTwoClasses with
  | inr byUser =>
      StronglySorted (fun a b => Application.createdAt b <= Application.createdAt a)
        (ApplicationService.page_applications byUser)
  | inl _ => False
  end.
Proof.
  pose proof (listings_ordered_and_paged Sample.classId (User.id Sample.user1) 1 10
                Sample.dbTwoClasses ltac:(lia) ltac:(lia)) as [(Hc & _) (Hu & _)].
  split; [exact Hc | exact Hu].
Defined.

(** The two listings of the sample store, its second page of size one, and
    a page the store cannot skip to. *)
Example listings_of_the_sample :
  option_map ApplicationService.page_applications
    (Js.returned (ApplicationService.getClassApplications Sample.classId 1 10
                    Sample.dbTwoClasses))
  = Some [Sample.app 0 Sample.user1 Sample.t0; Sample.app 1 Sample.user2 (Sample.t0 + 1)] /\
  option_map ApplicationService.page_applications
    (Js.returned (ApplicationService.getUserApplications (User.id Sample.user1) 1 10
                    Sample.dbTwoClasses))
  = Some [Application.mk 2 (User.id Sample.user1) Sample.otherClassId (Sample.t0 + 2);
          Sample.app 0 Sample.user1 Sample.t0] /\
  ApplicationService.getClassApplications Sample.classId 2 1 Sample.dbTwoClasses
  = inr {| ApplicationService.page_applications := [Sample.app 1 Sample.user2 (Sample.t0 + 1)];
           ApplicationService.total := 2;
           ApplicationService.totalPages := 2 |} /\
  ApplicationService.getClassApplications Sample.classId (2 ^ 60) 10 Sample.dbTwoClasses
  = inl valueOutOfRange.
Proof. repeat split; vm_compute; reflexivity. Qed.

(** ** Statistics *)


(** The same figures in a store that holds more applications than seats. *)
Example stats_over_capacity :
  ApplicationService.getApplicationStats Sample.classId
    (mkDB (users Sample.dbFull2) [Sample.testClass 1] (applications Sample.dbFull2) 2)
  = Some {| ApplicationService.currentApplications := 2;
            ApplicationService.maxParticipants := 1;
            ApplicationService.availableSpots := 0;
            ApplicationService.isFullyBooked := true |}.
Proof. vm_compute. reflexivity. Qed.

(** The listing of classes computes the same two figures from a class and
    its count. *)
Lemma summary_agrees_with_stats m :
  MClassController.availableSpots (MClassController.summary m)
    = Z.max 0 (MClass.maxParticipants (MClassService.mclass m)
               - MClassService.currentParticipants m) /\
  (MClassController.isFullyBooked (MClassController.summary m) = true
   <-> MClass.maxParticipants (MClassService.mclass m)
       - MClassService.currentParticipants m <= 0).
Proof.
  unfold MClassController.summary. cbn. split; auto.
  rewrite Z.leb_le. lia.
Qed.

(* ================================================================== *)
(** * Further properties of the code around the admission path *)

(** ** A consistent store stays consistent *)

Lemma remove_first_keeps {A} (p : A -> bool) l x :
  In x l -> p x = false -> In x (remove_first p l).
Proof.
  induction l as [|y l IH]; cbn [remove_first]; auto.
  intros [->|Hin] Hp.
  - rewrite Hp. now left.
  - destruct (p y); auto. right. auto.
Qed.

Lemma existsb_In {A} (p : A -> bool) l x : In x l -> p x = true -> existsb p l = true.
Proof. intros. apply existsb_exists. eauto. Qed.

Lemma createClass_inv now newId userId body db r db' :
  MClassController.createClass now newId userId body db = (r, db') ->
  (isSuccess r = false /\ db' = db) \/
  (exists maxP startDate endDate,
     MClassController.maxParticipants body = Some maxP /\
     MClassController.startAt body = Some startDate /\
     MClassController.endAt body = Some endDate /\
     1 <= maxP <= 2147483647 /\ now < startDate /\ startDate < endDate /\
     3 <= MClassController.strlen (MClassController.title body) <= 100 /\
     1 <= MClassController.strlen (MClassController.description body) <= 500 /\
     existsb (hasId newId) (mclasses db) = false /\
     user_exists userId db = true /\
     let c := MClass.mk newId (MClassController.title body)
                (MClassController.description body) maxP startDate endDate userId in
     r = Success 201 c "M-Class created successfully" /\
     db' = mkDB (users db) (mclasses db ++ [c]) (applications db) (nextId db)).
Proof.
  unfold MClassController.createClass.
  destruct (String.eqb (MClassController.title body) "") eqn:Et;
    [intros [= <- <-]; auto|].
  destruct (Z.ltb_spec (MClassController.strlen (MClassController.title body)) 3);
    [intros [= <- <-]; auto|].
  destruct (Z.ltb_spec 100 (MClassController.strlen (MClassController.title body)));
    [intros [= <- <-]; auto|].
  destruct (String.eqb (MClassController.description body) "") eqn:Ed;
    [intros [= <- <-]; auto|].
  destruct (Z.ltb_spec 500 (MClassController.strlen (MClassController.description body)));
    [intros [= <- <-]; auto|].
  cbn [orb].
  destruct (MClassController.maxParticipants body) as [maxP|]; [|intros [= <- <-]; auto].
  destruct (Z.ltb_spec maxP 1); [intros [= <- <-]; auto|].
  destruct (MClassController.startAt body) as [startDate|]; [|intros [= <- <-]; auto].
  destruct (MClassController.endAt body) as [endDate|]; [|intros [= <- <-]; auto].
  destruct (Z.leb_spec startDate now); [intros [= <- <-]; auto|].
  destruct (Z.leb_spec endDate startDate); [intros [= <- <-]; auto|].
  unfold MClassService.createClass, mClass_create.
  cbn [MClass.id MClass.hostId MClass.maxParticipants].
  destruct (int4 maxP) eqn:Ei; cbn [negb]; [|cbn; intros [= <- <-]; auto].
  unfold int4 in Ei. apply andb_prop in Ei as [_ Ei]. apply Z.leb_le in Ei.
  destruct (existsb (hasId newId) (mclasses db)) eqn:Ef; [cbn; intros [= <- <-]; auto|].
  destruct (user_exists userId db) eqn:Eu; [|cbn; intros [= <- <-]; auto].
  cbn. intros [= <- <-]. right. exists maxP, startDate, endDate.
  assert (1 <= MClassController.strlen (MClassController.description body)).
  { unfold MClassController.strlen.
    destruct (MClassController.description body); [discriminate|]. cbn [String.length]. lia. }
  repeat split; auto; lia.
Qed.

Lemma user_exists_find id db :
  user_exists id db = match user_findUnique id db with Some _ => true | None => false end.
Proof. unfold user_exists, user_findUnique. apply find_existsb. Qed.

Lemma deleteUser_inv userId db :
  match UserService.deleteUser userId db with
  | inl _ => user_exists userId db = false
  | inr (_, db') =>
      user_exists userId db = true /\
      db' = mkDB (remove_first (fun u => String.eqb (User.id u) userId) (users db))
                 (filter (fun c => negb (hostedBy userId c)) (mclasses db))
                 (filter (fun a => negb (ofUser userId a)
                                   && negb (existsb (hasId (Application.classId a))
                                              (filter (hostedBy userId) (mclasses db))))
                         (applications db))
                 (nextId db)
  end.
Proof.
  unfold UserService.deleteUser, user_delete. rewrite user_exists_find.
  destruct (user_findUnique userId db); cbn; auto.
Qed.

Lemma occupancy_no_reference classId db :
  references_ok db -> existsb (hasId classId) (mclasses db) = false ->
  occupancy classId db = 0.
Proof.
  intros [Hr _] Hnone. unfold occupancy, application_count.
  destruct (filter (ofClass classId) (applications db)) as [|a l] eqn:E; auto.
  assert (Hin : In a (filter (ofClass classId) (applications db))) by (rewrite E; now left).
  apply filter_In in Hin as [Hin Ha]. destruct (Hr a Hin) as [_ Hc].
  unfold ofClass in Ha. apply String.eqb_eq in Ha. rewrite Ha in Hc. congruence.
Qed.

Lemma exec_keeps_references op db : references_ok db -> references_ok (exec op db).
Proof.
  intros [Ha Hc]. destruct op as [fault now classId userId | now classId userId | classId];
    cbn [exec].
  - destruct (ApplicationController.applyToClass fault now classId userId db)
      as [r db'] eqn:E.
    apply applyToClass_inv in E as [[_ ->] | (_ & _ & (c & Hf & _ & _ & Hu & ->))];
      cbn [snd]; [split; auto|].
    split; [|exact Hc].
    intros a Hin. cbn [applications] in Hin. apply in_app_or in Hin as [Hin|[<-|[]]].
    + exact (Ha a Hin).
    + cbn [Application.userId Application.classId]. split; [exact Hu|].
      unfold mClass_findUnique in Hf. change (mclasses (mkDB _ ?m _ _)) with m.
      rewrite find_existsb, Hf. reflexivity.
  - destruct (ApplicationController.cancelApplication now classId userId db)
      as [r db'] eqn:E.
    apply cancelApplication_inv in E as [[_ ->] | (_ & _ & ->)]; cbn [snd]; [split; auto|].
    split; [|exact Hc].
    intros a Hin. cbn [applications] in Hin. apply remove_first_In in Hin. exact (Ha a Hin).
  - destruct (MClassController.deleteClass classId db) as [r db'] eqn:E.
    apply deleteClass_inv in E as [[_ ->] | (_ & ->)]; cbn [snd]; [split; auto|].
    split.
    + intros a Hin. cbn [applications] in Hin. apply filter_In in Hin as [Hin Hne].
      destruct (Ha a Hin) as [Hu Hcl]. split; [exact Hu|].
      change (mclasses (mkDB _ ?m _ _)) with m.
      apply existsb_exists in Hcl as (y & Hy & Hid).
      apply (existsb_In _ _ y); auto. apply remove_first_keeps; auto.
      unfold hasId in *. apply String.eqb_eq in Hid.
      unfold ofClass in Hne. rewrite <- Hid in Hne.
      apply negb_true_iff in Hne. exact Hne.
    + intros c Hin. cbn [mclasses] in Hin. apply remove_first_In in Hin. exact (Hc c Hin).
Qed.

Lemma hasId_absent newId l :
  existsb (hasId newId) l = false -> ~ In newId (map MClass.id l).
Proof.
  intros Hf Hin. apply in_map_iff in Hin as (y & Hy & Hin).
  assert (existsb (hasId newId) l = true).
  { apply (existsb_In _ _ y); auto. unfold hasId. rewrite Hy. apply String.eqb_refl. }
  congruence.
Qed.

Lemma run_keeps_consistent cmd db : consistent db -> consistent (run cmd db).
Proof.
  intros (Hk & Hcap & Hp & Hr).
  destruct cmd as [op | now newId userId body | userId]; cbn [run].
  - destruct (exec_keeps_capacity op db Hk Hcap) as [Hk' Hcap'].
    split; [exact Hk'|]. split; [exact Hcap'|].
    split; [apply exec_keeps_pairs, Hp | apply exec_keeps_references, Hr].
  - destruct (MClassController.createClass now newId userId body db) as [r db'] eqn:E.
    apply createClass_inv in E
      as [[_ ->] | (maxP & sd & ed & _ & _ & _ & Hm & _ & _ & _ & _ & Hfresh & Hu & _ & ->)];
      cbn [snd]; [exact (conj Hk (conj Hcap (conj Hp Hr)))|].
    set (c := MClass.mk newId _ _ maxP sd ed userId).
    destruct Hr as [Hra Hrc]. split; [|split; [|split; [exact Hp|split]]].
    + unfold class_keys_unique in *. cbn [mclasses]. rewrite map_app.
      apply NoDup_app; [exact Hk | repeat constructor; intros [] |].
      intros x Hin [<-|[]]. now apply (hasId_absent newId (mclasses db)).
    + intros c' Hin. cbn [mclasses] in Hin. apply in_app_or in Hin as [Hin|[<-|[]]].
      * exact (Hcap c' Hin).
      * change (occupancy (MClass.id c) (mkDB _ _ ?a _)) with (occupancy newId db).
        rewrite (occupancy_no_reference newId db (conj Hra Hrc) Hfresh). cbn. lia.
    + intros a Hin. cbn [applications] in Hin. destruct (Hra a Hin) as [Hua Hca].
      split; [exact Hua|]. cbn [mclasses]. rewrite existsb_app, Hca. reflexivity.
    + intros c' Hin. cbn [mclasses] in Hin. apply in_app_or in Hin as [Hin|[<-|[]]].
      * exact (Hrc c' Hin).
      * exact Hu.
  - pose proof (deleteUser_inv userId db) as Hinv.
    destruct (UserService.deleteUser userId db) as [e|[[] db']];
      [exact (conj Hk (conj Hcap (conj Hp Hr)))|].
    destruct Hinv as [_ ->]. destruct Hr as [Hra Hrc].
    assert (Hkeep : forall id, id <> userId -> user_exists id db = true ->
              existsb (fun u => String.eqb (User.id u) id)
                (remove_first (fun u => String.eqb (User.id u) userId) (users db)) = true).
    { intros id Hne Hex. unfold user_exists in Hex.
      apply existsb_exists in Hex as (y & Hy & Hid).
      apply (existsb_In _ _ y); auto. apply remove_first_keeps; auto.
      apply String.eqb_eq in Hid. rewrite Hid. now apply String.eqb_neq. }
    split; [|split; [|split; [|split]]].
    + unfold class_keys_unique in *. cbn [mclasses]. now apply NoDup_map_filter.
    + intros c' Hin. cbn [mclasses] in Hin. apply filter_In in Hin as [Hin _].
      specialize (Hcap c' Hin).
      unfold occupancy, application_count in *. cbn [applications].
      match goal with |- context [filter ?q (filter ?p _)] =>
        pose proof (count_filter_le q p (applications db)) as Hle end.
      unfold count in Hle. lia.
    + unfold pairs_unique in *. cbn [applications]. now apply NoDup_map_filter.
    + intros a Hin. cbn [applications] in Hin. apply filter_In in Hin as [Hin Hcond].
      apply andb_prop in Hcond as [Hnu Hng]. apply negb_true_iff in Hnu, Hng.
      destruct (Hra a Hin) as [Hua Hca]. split.
      * unfold user_exists. cbn [users]. apply Hkeep; auto.
        unfold ofUser in Hnu. now apply String.eqb_neq.
      * cbn [mclasses]. apply existsb_exists in Hca as (y & Hy & Hid).
        apply (existsb_In _ _ y); auto. apply filter_In. split; auto.
        destruct (hostedBy userId y) eqn:Eh; auto.
        assert (existsb (hasId (Application.classId a))
                  (filter (hostedBy userId) (mclasses db)) = true).
        { apply (existsb_In _ _ y); auto. apply filter_In. auto. }
        congruence.
    + intros c' Hin. cbn [mclasses] in Hin. apply filter_In in Hin as [Hin Hnh].
      unfold user_exists. cbn [users]. apply Hkeep; [|exact (Hrc c' Hin)].
      apply negb_true_iff in Hnh. unfold hostedBy in Hnh. now apply String.eqb_neq.
Qed.

(** X1.  Starting from a consistent store, whatever sequence of Apply,
    Cancel, class deletion, class creation and user deletion is served, the
    store stays consistent: class ids are unique, no class is over capacity,
    no (user, class) pair has two applications, and no application or class
    refers to a user or class that is not stored. *)
Theorem commands_keep_store_consistent cmds db :
  consistent db -> consistent (runAll cmds db).
Proof.
  revert db. induction cmds as [|cmd rest IH]; intros db H; cbn [runAll]; auto.
  apply IH, run_keeps_consistent, H.
Qed.

Lemma sample_store_consistent : consistent (Sample.db0 2).
Proof.
  split; [|split; [|split; [|split]]].
  - unfold class_keys_unique. cbn. constructor; [intros []|constructor].
  - intros c [<-|[]]. vm_compute. discriminate.
  - constructor.
  - intros a [].
  - intros c [<-|[]]. reflexivity.
Qed.

Lemma commands_keep_store_consistent_witness :
  consistent
    (runAll [CreateClass Sample.t0 Sample.newClassId (User.id Sample.admin)
               Sample.nineHourClass;
             Ledger (Apply None Sample.t0 Sample.classId (User.id Sample.user1));
             Ledger (Apply None (Sample.t0 + 1) Sample.newClassId (User.id Sample.user1));
             DeleteUser (User.id Sample.user1);
             Ledger (DeleteClass Sample.classId)]
       (Sample.db0 2)).
Proof.
  apply commands_keep_store_consistent. exact sample_store_consistent.
Defined.

(** ** Deleting a class *)

Lemma find_remove_first_same {A B} (f : A -> B) (p : A -> bool) l :
  (forall x y, p x = true -> p y = true -> f x = f y) ->
  NoDup (map f l) -> find p (remove_first p l) = None.
Proof.
  intros Hsame. induction l as [|y l IH]; cbn [remove_first find map]; auto.
  intros Hnd. inversion Hnd as [|? ? Hn Hd]; subst.
  destruct (p y) eqn:E.
  - destruct (find p l) as [z|] eqn:Ez; auto.
    apply find_some in Ez as [Hin Hz]. exfalso. apply Hn.
    rewrite (Hsame y z E Hz). now apply in_map.
  - cbn [find]. rewrite E. auto.
Qed.

Lemma find_remove_first_other {A} (p q : A -> bool) l :
  (forall x, q x = true -> p x = false) ->
  find p (remove_first q l) = find p l.
Proof.
  intros Hqp. induction l as [|y l IH]; cbn [remove_first find]; auto.
  destruct (q y) eqn:E.
  - now rewrite (Hqp _ E).
  - cbn [find]. now rewrite IH.
Qed.

Lemma filter_remove_first_other {A} (p q : A -> bool) l :
  (forall x, q x = true -> p x = false) ->
  filter p (remove_first q l) = filter p l.
Proof.
  intros Hqp. induction l as [|y l IH]; cbn [remove_first filter]; auto.
  destruct (q y) eqn:E.
  - now rewrite (Hqp _ E).
  - cbn [filter]. now rewrite IH.
Qed.

Lemma filter_filter_other {A} (p q : A -> bool) l :
  (forall x, p x = true -> q x = true) ->
  filter p (filter q l) = filter p l.
Proof.
  intros Hpq. induction l as [|y l IH]; cbn [filter]; auto.
  destruct (q y) eqn:E; cbn [filter]; rewrite IH; auto.
  destruct (p y) eqn:Ep; auto. rewrite (Hpq _ Ep) in E. discriminate.
Qed.

Lemma filter_none {A} (p q : A -> bool) l :
  (forall x, p x = true -> q x = false) -> filter p (filter q l) = [].
Proof.
  intros Hpq. induction l as [|y l IH]; cbn [filter]; auto.
  destruct (q y) eqn:E; cbn [filter]; auto.
  destruct (p y) eqn:Ep; auto. rewrite (Hpq _ Ep) in E. discriminate.
Qed.

Lemma ofClass_other c c' a : c' <> c -> ofClass c' a = true -> negb (ofClass c a) = true.
Proof.
  unfold ofClass. intros Hne H. apply String.eqb_eq in H. apply negb_true_iff.
  apply String.eqb_neq. congruence.
Qed.

Lemma hasId_other c c' y : c' <> c -> hasId c y = true -> hasId c' y = false.
Proof.
  unfold hasId. intros Hne H. apply String.eqb_eq in H. apply String.eqb_neq. congruence.
Qed.

Lemma deleteClass_deletes classId db c :
  ValidationUtil.isValid (ValidationUtil.validateUUID classId) = true ->
  mClass_findUnique classId db = Some c ->
  MClassController.deleteClass classId db =
  (Success 200 c "M-Class deleted successfully",
   mkDB (users db) (remove_first (hasId classId) (mclasses db))
        (filter (fun a => negb (ofClass classId a)) (applications db)) (nextId db)).
Proof.
  intros Hvalid Hfind. unfold MClassController.deleteClass.
  rewrite (valid_uuid_nonempty _ Hvalid), Hvalid. cbn [negb].
  unfold MClassService.getClassById, MClassService.deleteClass, mClass_delete.
  rewrite Hfind. reflexivity.
Qed.

(** X2.  Deleting an existing class takes all its applications with it and
    nothing else: afterwards the class cannot be found, its occupancy is 0,
    the applications to every other class are the same rows in the same
    order, no page of any user's history shows the class, and deleting it a
    second time answers ClassNotFound. *)
Theorem deleteClass_cascades classId c db :
  class_keys_unique db ->
  ValidationUtil.isValid (ValidationUtil.validateUUID classId) = true ->
  mClass_findUnique classId db = Some c ->
  let (r, db') := MClassController.deleteClass classId db in
  isSuccess r = true /\
  mClass_findUnique classId db' = None /\
  occupancy classId db' = 0 /\
  applications db' = filter (fun a => negb (ofClass classId a)) (applications db) /\
  (forall other, other <> classId ->
     mClass_findUnique other db' = mClass_findUnique other db /\
     filter (ofClass other) (applications db') = filter (ofClass other) (applications db)) /\
  (forall userId page limit history,
     ApplicationService.getUserApplications userId page limit db' = inr history ->
     Forall (fun a => Application.classId a <> classId)
       (ApplicationService.page_applications history)) /\
  MClassController.deleteClass classId db' = (ClassNotFound, db').
Proof.
  intros Hk Hvalid Hfind. rewrite (deleteClass_deletes classId db c Hvalid Hfind).
  set (db' := mkDB _ _ _ _).
  assert (Hgone : mClass_findUnique classId db' = None).
  { unfold mClass_findUnique, db'. cbn [mclasses].
    apply (find_remove_first_same MClass.id); auto.
    intros x y Hx Hy. unfold hasId in *. apply String.eqb_eq in Hx, Hy. congruence. }
  split; [reflexivity|]. split; [exact Hgone|]. split; [|split; [reflexivity|split; [|split]]].
  - unfold occupancy, application_count, db'. cbn [applications].
    rewrite filter_none; auto.
    intros x Hx. now rewrite Hx.
  - intros other Hne. split.
    + unfold mClass_findUnique, db'. cbn [mclasses].
      apply find_remove_first_other. intros x. now apply hasId_other.
    + unfold db'. cbn [applications]. apply filter_filter_other.
      intros x. now apply ofClass_other.
  - intros userId page limit history.
    unfold ApplicationService.getUserApplications, application_findMany.
    destruct (negb (int8 ((page - 1) * limit))); [discriminate|].
    cbn [Js.bind Js.ret]. intros [= <-].
    cbn [ApplicationService.page_applications]. apply Forall_page.
    eapply Permutation_Forall; [symmetry; apply sort_by_perm|].
    apply Forall_forall. intros a Ha. apply filter_In in Ha as [Ha _].
    unfold db' in Ha. cbn [applications] in Ha. apply filter_In in Ha as [_ Ha].
    apply negb_true_iff in Ha. unfold ofClass in Ha. now apply String.eqb_neq.
  - unfold MClassController.deleteClass.
    rewrite (valid_uuid_nonempty _ Hvalid), Hvalid. cbn [negb].
    unfold MClassService.getClassById. now rewrite Hgone.
Qed.

Lemma deleteClass_cascades_witness :
  let (r, db') := MClassController.deleteClass Sample.classId Sample.dbTwoClasses in
  isSuccess r = true /\
  mClass_findUnique Sample.classId db' = None /\
  occupancy Sample.classId db' = 0 /\
  applications db'
  = filter (fun a => negb (ofClass Sample.classId a)) (applications Sample.dbTwoClasses) /\
  (forall other, other <> Sample.classId ->
     mClass_findUnique other db' = mClass_findUnique other Sample.dbTwoClasses /\
     filter (ofClass other) (applications db')
     = filter (ofClass other) (applications Sample.dbTwoClasses)) /\
  (forall userId page limit history,
     ApplicationService.getUserApplications userId page limit db' = inr history ->
     Forall (fun a => Application.classId a <> Sample.classId)
       (ApplicationService.page_applications history)) /\
  MClassController.deleteClass Sample.classId db' = (ClassNotFound, db').
Proof.
  apply (deleteClass_cascades Sample.classId (Sample.testClass 2) Sample.dbTwoClasses).
  - unfold class_keys_unique. cbn.
    constructor; [intros [H|[]]; discriminate H|]. constructor; [intros []|constructor].
  - reflexivity.
  - reflexivity.
Defined.

(** ** Apply and Cancel against each other and against other classes *)

Lemma remove_first_app_last {A} (p : A -> bool) l a :
  existsb p l = false -> p a = true -> remove_first p (l ++ [a]) = l.
Proof.
  induction l as [|y l IH]; cbn [remove_first existsb app].
  - intros _ ->. reflexivity.
  - destruct (p y); cbn [orb]; [discriminate|]. intros H Ha. now rewrite IH.
Qed.

Lemma isFor_self now k userId classId :
  isFor userId classId (Application.mk k userId classId now) = true.
Proof. unfold isFor. cbn. now rewrite !String.eqb_refl. Qed.

(** X3.  An admitted Apply followed by the same user's Cancel, both before
    the class starts, puts the three tables back exactly as they were. *)
Theorem apply_then_cancel_restores now1 now2 classId userId c db :
  ValidationUtil.isValid (ValidationUtil.validateUUID classId) = true ->
  mClass_findUnique classId db = Some c ->
  now1 < MClass.startAt c -> now2 < MClass.startAt c ->
  occupancy classId db < MClass.maxParticipants c ->
  application_findUnique userId classId db = None ->
  user_exists userId db = true ->
  let (r1, db1) := ApplicationController.applyToClass None now1 classId userId db in
  let (r2, db2) := ApplicationController.cancelApplication now2 classId userId db1 in
  isSuccess r1 = true /\ isSuccess r2 = true /\
  users db2 = users db /\ mclasses db2 = mclasses db /\ applications db2 = applications db.
Proof.
  intros Hvalid Hfind Ho1 Ho2 Hroom Hnew Hu.
  rewrite (apply_admits now1 classId userId db c Hvalid Hfind Ho1 Hroom Hnew Hu).
  set (a := Application.mk (nextId db) userId classId now1).
  set (db1 := mkDB _ _ _ _).
  assert (Ha : application_findUnique userId classId db1 = Some a).
  { unfold application_findUnique, db1 in *. cbn [applications].
    destruct (find _ (_ ++ _)) as [b|] eqn:E.
    - apply find_some in E as [Hin Hb]. apply in_app_or in Hin as [Hin|[<-|[]]]; auto.
      eapply find_none in Hnew; eauto. congruence.
    - eapply find_none with (x := a) in E; [|apply in_or_app; right; now left].
      unfold a in E. rewrite isFor_self in E. discriminate. }
  rewrite (cancel_deletes now2 classId userId db1 Hvalid c Hfind Ho2 a Ha).
  cbn [users mclasses applications db1]. repeat split.
  apply remove_first_app_last; [|apply isFor_self].
  rewrite find_existsb. unfold application_findUnique in Hnew. now rewrite Hnew.
Qed.

Lemma apply_then_cancel_restores_witness :
  let (r1, db1) := ApplicationController.applyToClass None Sample.t0 Sample.otherClassId
                     (User.id Sample.user3) Sample.dbTwoClasses in
  let (r2, db2) := ApplicationController.cancelApplication (Sample.t0 + 1) Sample.otherClassId
                     (User.id Sample.user3) db1 in
  isSuccess r1 = true /\ isSuccess r2 = true /\
  users db2 = users Sample.dbTwoClasses /\ mclasses db2 = mclasses Sample.dbTwoClasses /\
  applications db2 = applications Sample.dbTwoClasses.
Proof.
  apply (apply_then_cancel_restores Sample.t0 (Sample.t0 + 1) Sample.otherClassId
           (User.id Sample.user3) Sample.otherClass Sample.dbTwoClasses).
  - reflexivity.
  - reflexivity.
  - vm_compute. reflexivity.
  - vm_compute. reflexivity.
  - vm_compute. reflexivity.
  - reflexivity.
  - reflexivity.
Defined.

Lemma find_app_last {A} (p : A -> bool) l a :
  p a = false -> find p (l ++ [a]) = find p l.
Proof.
  intros Ha. induction l as [|y l IH]; cbn [find app].
  - now rewrite Ha.
  - destruct (p y); auto.
Qed.

Lemma isFor_disjoint u c u' c' x :
  (u', c') <> (u, c) -> isFor u c x = true -> isFor u' c' x = false.
Proof.
  unfold isFor. intros Hne H. apply andb_prop in H as [Hu Hc].
  apply String.eqb_eq in Hu, Hc. apply andb_false_iff.
  destruct (String.eqb_spec (Application.userId x) u'); [|now left].
  destruct (String.eqb_spec (Application.classId x) c'); [|now right].
  exfalso. apply Hne. congruence.
Qed.

(** X4.  [hasUserApplied] follows the ledger: after an admitted Apply it is
    true for the caller's pair, after a successful Cancel (which needs it to
    be true) it is false for that pair, and neither changes it for any other
    user or class. *)
Theorem hasUserApplied_tracks_ledger db :
  pairs_unique db ->
  (forall fault now classId userId r db',
      ApplicationController.applyToClass fault now classId userId db = (r, db') ->
      isSuccess r = true ->
      ApplicationService.hasUserApplied userId classId db = false /\
      ApplicationService.hasUserApplied userId classId db' = true /\
      forall u c, (u, c) <> (userId, classId) ->
        ApplicationService.hasUserApplied u c db' = ApplicationService.hasUserApplied u c db) /\
  (forall now classId userId r db',
      ApplicationController.cancelApplication now classId userId db = (r, db') ->
      isSuccess r = true ->
      ApplicationService.hasUserApplied userId classId db = true /\
      ApplicationService.hasUserApplied userId classId db' = false /\
      forall u c, (u, c) <> (userId, classId) ->
        ApplicationService.hasUserApplied u c db' = ApplicationService.hasUserApplied u c db).
Proof.
  intros Hp. unfold ApplicationService.hasUserApplied, application_findUnique. split.
  - intros fault now classId userId r db' E Hs.
    apply applyToClass_inv in E as [[Hf _] | (_ & _ & (c & _ & _ & Hnone & _ & ->))];
      [congruence|].
    unfold application_findUnique in Hnone. cbn [applications]. rewrite Hnone.
    split; [reflexivity|]. split.
    + destruct (find _ (_ ++ _)) eqn:E; auto.
      eapply find_none with (x := Application.mk (nextId db) userId classId now) in E;
        [|apply in_or_app; right; now left].
      rewrite isFor_self in E. discriminate.
    + intros u c' Hne. rewrite find_app_last; auto.
      apply (isFor_disjoint userId classId); auto. apply isFor_self.
  - intros now classId userId r db' E Hs.
    apply cancelApplication_inv in E as [[Hf _] | (_ & Hex & ->)]; [congruence|].
    cbn [applications]. rewrite find_existsb in Hex.
    destruct (find (isFor userId classId) (applications db)) eqn:Ef; [|discriminate].
    split; [reflexivity|]. split.
    + rewrite (find_remove_first_same pair); auto.
      intros x y Hx Hy. unfold isFor, pair in *.
      apply andb_prop in Hx as [Hx1 Hx2]. apply andb_prop in Hy as [Hy1 Hy2].
      apply String.eqb_eq in Hx1, Hx2, Hy1, Hy2. congruence.
    + intros u c' Hne. rewrite find_remove_first_other; auto.
      intros x. now apply isFor_disjoint.
Qed.

Lemma hasUserApplied_tracks_ledger_witness :
  ApplicationService.hasUserApplied (User.id Sample.user2) Sample.classId
    (snd (ApplicationController.cancelApplication (Sample.t0 + 3) Sample.classId
            (User.id Sample.user2) Sample.dbTwoClasses)) = false /\
  ApplicationService.hasUserApplied (User.id Sample.user1) Sample.classId
    (snd (ApplicationController.cancelApplication (Sample.t0 + 3) Sample.classId
            (User.id Sample.user2) Sample.dbTwoClasses)) = true.
Proof.
  assert (Hp : pairs_unique Sample.dbTwoClasses).
  { unfold pairs_unique. cbn. repeat constructor; cbn; intuition discriminate. }
  destruct (hasUserApplied_tracks_ledger Sample.dbTwoClasses Hp) as [_ Hc].
  destruct (Hc (Sample.t0 + 3) Sample.classId (User.id Sample.user2) _ _
              (surjective_pairing _) eq_refl) as (_ & Hgone & Hrest).
  split; [exact Hgone|].
  rewrite Hrest; [reflexivity | discriminate].
Defined.

(** X5.  An Apply or a Cancel on one class leaves every other class as it
    was: the same row, the same statistics, the same pages of
    applications. *)
Theorem other_classes_untouched classId other db :
  other <> classId ->
  forall op,
    (exists fault now userId, op = Apply fault now classId userId) \/
    (exists now userId, op = Cancel now classId userId) ->
    mClass_findUnique other (exec op db) = mClass_findUnique other db /\
    ApplicationService.getApplicationStats other (exec op db)
      = ApplicationService.getApplicationStats other db /\
    forall page limit,
      ApplicationService.getClassApplications other page limit (exec op db)
      = ApplicationService.getClassApplications other page limit db.
Proof.
  intros Hne op Hop.
  assert (H : mclasses (exec op db) = mclasses db /\
              filter (ofClass other) (applications (exec op db))
              = filter (ofClass other) (applications db)).
  { destruct Hop as [(fault & now & userId & ->) | (now & userId & ->)]; cbn [exec].
    - destruct (ApplicationController.applyToClass fault now classId userId db)
        as [r db'] eqn:E.
      apply applyToClass_inv in E as [[_ ->] | (_ & _ & (c & _ & _ & _ & _ & ->))];
        cbn [snd]; auto.
      cbn [mclasses applications]. split; auto.
      rewrite filter_app. cbn [filter]. unfold ofClass at 2. cbn [Application.classId].
      replace (String.eqb classId other) with false; [apply app_nil_r|].
      symmetry. apply String.eqb_neq. congruence.
    - destruct (ApplicationController.cancelApplication now classId userId db)
        as [r db'] eqn:E.
      apply cancelApplication_inv in E as [[_ ->] | (_ & _ & ->)]; cbn [snd]; auto.
      cbn [mclasses applications]. split; auto.
      apply filter_remove_first_other. intros x Hx. unfold isFor in Hx.
      apply andb_prop in Hx as [_ Hx]. apply String.eqb_eq in Hx.
      unfold ofClass. apply String.eqb_neq. congruence. }
  destruct H as [Hm Ha].
  unfold ApplicationService.getApplicationStats, ApplicationService.getClassApplications,
    application_findMany, application_count, mClass_findUnique.
  rewrite Hm, Ha. auto.
Qed.

Lemma other_classes_untouched_witness :
  ApplicationService.getApplicationStats Sample.otherClassId
    (exec (Cancel (Sample.t0 + 3) Sample.classId (User.id Sample.user1)) Sample.dbTwoClasses)
  = ApplicationService.getApplicationStats Sample.otherClassId Sample.dbTwoClasses.
Proof.
  refine (proj1 (proj2 (other_classes_untouched Sample.classId Sample.otherClassId
                          Sample.dbTwoClasses _ _ _))).
  - discriminate.
  - right. eauto.
Defined.

(** ** Removing all applications of a class *)

(** X6.  [deleteApplicationsByClassId] returns the number of applications
    the class had, leaves the class with none, and leaves the classes, the
    users and the applications to every other class as they were. *)
Theorem deleteApplicationsByClassId_empties_one_class classId db :
  let (n, db') := ApplicationService.deleteApplicationsByClassId classId db in
  n = occupancy classId db /\
  occupancy classId db' = 0 /\
  mclasses db' = mclasses db /\ users db' = users db /\
  (forall other, other <> classId ->
     filter (ofClass other) (applications db') = filter (ofClass other) (applications db)) /\
  fst (ApplicationService.deleteApplicationsByClassId classId db') = 0.
Proof.
  unfold ApplicationService.deleteApplicationsByClassId, application_deleteMany.
  cbn [fst]. unfold occupancy, application_count. cbn [applications mclasses users].
  assert (H0 : filter (ofClass classId)
                 (filter (fun a => negb (ofClass classId a)) (applications db)) = []).
  { apply filter_none. intros x Hx. now rewrite Hx. }
  rewrite H0. repeat split.
  intros other Hne. apply filter_filter_other. intros x. now apply ofClass_other.
Qed.

(** ** Paging *)










(** ** The listing handlers *)





Lemma user_history_is_bounded_far_page :
  ApplicationController.getUserApplications
    {| JwtUtil.userId := User.id Sample.user1; JwtUtil.email := User.email Sample.user1;
       JwtUtil.isAdmin := false |} (Some (2 ^ 60)) None Sample.dbTwoClasses
  = Failure 500 "INTERNAL_SERVER_ERROR" "Failed to retrieve applications" [].
Proof. vm_compute. reflexivity. Qed.





(** ** Creating and updating a class, deleting a user *)

Lemma find_app_new {A} (p : A -> bool) l a :
  existsb p l = false -> p a = true -> find p (l ++ [a]) = Some a.
Proof.
  induction l as [|y l IH]; cbn [existsb find app].
  - intros _ ->. reflexivity.
  - destruct (p y); cbn [orb]; [discriminate|]. auto.
Qed.

(** X11.  A class that [createClass] stores can be looked up at once under
    its new id, with no applications, hosted by the caller, with at least one
    seat and no more than the column holds, and [now < startAt < endAt]; the
    id was free before, every other class reads as before and no application
    is touched. *)
Theorem created_class_is_found_empty now newId userId body db r db' :
  references_ok db ->
  MClassController.createClass now newId userId body db = (r, db') ->
  isSuccess r = true ->
  exists c,
    r = Success 201 c "M-Class created successfully" /\
    MClassService.getClassById newId db'
      = Some {| MClassService.mclass := c; MClassService.currentParticipants := 0 |} /\
    MClass.id c = newId /\ MClass.hostId c = userId /\
    1 <= MClass.maxParticipants c <= 2147483647 /\
    now < MClass.startAt c < MClass.endAt c /\
    MClassService.getClassById newId db = None /\
    (forall other, other <> newId ->
       MClassService.getClassById other db' = MClassService.getClassById other db) /\
    applications db' = applications db /\ users db' = users db.
Proof.
  intros Hr E Hs.
  apply createClass_inv in E
    as [[Hf _] | (maxP & sd & ed & _ & _ & _ & Hm & Hsd & Hed & _ & _ & Hfresh & Hu & -> & ->)];
    [congruence|].
  set (c := MClass.mk newId _ _ maxP sd ed userId).
  exists c. unfold MClassService.getClassById, mClass_findUnique.
  cbn [mclasses applications users MClass.id MClass.hostId MClass.maxParticipants
       MClass.startAt MClass.endAt c].
  split; [reflexivity|]. split; [|split; [reflexivity|split; [reflexivity|split; [exact Hm|
    split; [lia|split; [|split; [|split; reflexivity]]]]]]].
  - rewrite find_app_new; auto; [|unfold hasId; cbn; apply String.eqb_refl].
    fold c. do 2 f_equal.
    change (application_count (ofClass newId) (mkDB _ _ (applications db) _))
      with (occupancy newId db).
    now apply occupancy_no_reference.
  - rewrite find_existsb in Hfresh. destruct (find (hasId newId) (mclasses db)); auto.
    discriminate.
  - intros other Hne. rewrite find_app_last; [reflexivity|].
    unfold hasId. cbn. apply String.eqb_neq. congruence.
Qed.

Lemma created_class_is_found_empty_witness :
  exists c,
    fst (MClassController.createClass Sample.t0 Sample.newClassId (User.id Sample.admin)
           Sample.nineHourClass (Sample.db0 2))
    = Success 201 c "M-Class created successfully" /\
    MClassService.getClassById Sample.newClassId
      (snd (MClassController.createClass Sample.t0 Sample.newClassId (User.id Sample.admin)
              Sample.nineHourClass (Sample.db0 2)))
    = Some {| MClassService.mclass := c; MClassService.currentParticipants := 0 |}.
Proof.
  destruct (created_class_is_found_empty Sample.t0 Sample.newClassId (User.id Sample.admin)
              Sample.nineHourClass (Sample.db0 2) _ _
              (proj2 (proj2 (proj2 sample_store_consistent)))
              (surjective_pairing _) eq_refl) as (c & Hr & Hg & _).
  exists c. split; [exact Hr | exact Hg].
Defined.

Lemma update_first_In {A} (p : A -> bool) f l y :
  In y (update_first p f l) -> In y l \/ exists x, find p l = Some x /\ y = f x.
Proof.
  induction l as [|x l IH]; cbn [update_first find]; [intros []|].
  destruct (p x) eqn:E; intros [<-|Hin].
  - right. exists x. auto.
  - left. now right.
  - left. now left.
  - destruct (IH Hin) as [H|H]; [left; now right | now right].
Qed.

Lemma update_first_ids id data l :
  map MClass.id (update_first (hasId id) (applyUpdate data) l) = map MClass.id l.
Proof.
  induction l as [|x l IH]; cbn [update_first map]; auto.
  destruct (hasId id x); cbn [map]; [reflexivity|]. now rewrite IH.
Qed.

Lemma find_update_first id other data l :
  find (hasId other) (update_first (hasId id) (applyUpdate data) l)
  = if String.eqb other id then option_map (applyUpdate data) (find (hasId id) l)
    else find (hasId other) l.
Proof.
  induction l as [|x l IH]; cbn [update_first find].
  - now destruct (String.eqb other id).
  - destruct (hasId id x) eqn:E; cbn [find].
    + unfold hasId at 1. cbn [applyUpdate MClass.id]. fold (hasId other x).
      unfold hasId in E. apply String.eqb_eq in E.
      destruct (String.eqb_spec other id) as [->|Hne].
      * unfold hasId. rewrite E, String.eqb_refl. reflexivity.
      * unfold hasId. rewrite E. apply not_eq_sym, String.eqb_neq in Hne.
        now rewrite Hne.
    + rewrite IH. destruct (String.eqb_spec other id) as [->|Hne].
      * rewrite E. reflexivity.
      * reflexivity.
Qed.

(** X12.  For new texts and dates that raise no question of storage:
    [updateClass] throws the store's range error exactly when the new
    capacity is no 32-bit integer, whether or not the class exists, and
    'Class not found' exactly when the capacity fits and the class is missing.
    Otherwise it rewrites the fields named in [data] of that one class and
    nothing else: the id and the host stay, a lookup returns the updated row,
    every other class, all applications and all users are untouched, class
    ids stay unique, and no class ends up over capacity as long as the new
    capacity is not below the current occupancy, which nothing checks. *)
Theorem updateClass_rewrites_one_class id data db :
  plain data = true ->
  match MClassService.updateClass id data db with
  | inl error =>
      (capacityFits data = false /\ error = valueOutOfRange) \/
      (capacityFits data = true /\ mClass_findUnique id db = None /\
       error = Error "Class not found")
  | inr (updated, db') =>
      capacityFits data = true /\
      exists c,
        mClass_findUnique id db = Some c /\
        updated = applyUpdate data c /\
        MClass.id updated = id /\ MClass.hostId updated = MClass.hostId c /\
        mClass_findUnique id db' = Some updated /\
        (forall other, other <> id ->
           mClass_findUnique other db' = mClass_findUnique other db) /\
        applications db' = applications db /\ users db' = users db /\
        (class_keys_unique db -> class_keys_unique db') /\
        (capacity_ok db -> occupancy id db <= MClass.maxParticipants updated ->
         capacity_ok db')
  end.
Proof.
  intros _. unfold MClassService.updateClass, mClass_update.
  destruct (capacityFits data); cbn [negb]; [|cbn; auto].
  destruct (mClass_findUnique id db) as [c|] eqn:Hfind; [|cbn; auto].
  cbn. split; [reflexivity|].
  exists c. destruct (findUnique_id _ _ _ Hfind) as [Hin Hid].
  split; [reflexivity|]. split; [reflexivity|]. split; [exact Hid|]. split; [reflexivity|].
  split; [|split; [|split; [reflexivity|split; [reflexivity|split]]]].
  - unfold mClass_findUnique in *. cbn [mclasses]. rewrite find_update_first.
    rewrite String.eqb_refl, Hfind. reflexivity.
  - intros other Hne. unfold mClass_findUnique. cbn [mclasses].
    rewrite find_update_first. apply String.eqb_neq in Hne. now rewrite Hne.
  - unfold class_keys_unique. cbn [mclasses]. now rewrite update_first_ids.
  - intros Hcap Hocc c' Hc'. cbn [mclasses] in Hc'.
    change (occupancy (MClass.id c') (mkDB _ _ (applications db) _))
      with (occupancy (MClass.id c') db).
    apply update_first_In in Hc' as [Hold|(x & Hx & ->)].
    + exact (Hcap c' Hold).
    + unfold mClass_findUnique in Hfind. rewrite Hfind in Hx. injection Hx as <-.
      change (MClass.id (applyUpdate data c)) with (MClass.id c). now rewrite Hid.
Qed.

Lemma updateClass_rewrites_one_class_witness :
  plain {| set_title := Some "Evening class"; set_description := None;
           set_maxParticipants := Some 5; set_startAt := None; set_endAt := None |} = true /\
  match MClassService.updateClass Sample.classId
          {| set_title := Some "Evening class"; set_description := None;
             set_maxParticipants := Some 5; set_startAt := None; set_endAt := None |}
          Sample.dbFull2 with
  | inr (updated, db') => MClass.maxParticipants updated = 5 /\ capacity_ok db'
  | inl _ => False
  end.
Proof.
  split; [reflexivity|].
  pose proof (updateClass_rewrites_one_class Sample.classId
                {| set_title := Some "Evening class"; set_description := None;
                   set_maxParticipants := Some 5; set_startAt := None; set_endAt := None |}
                Sample.dbFull2 eq_refl)
    as (_ & c & _ & _ & _ & _ & _ & _ & _ & _ & _ & Hcap).
  split; [reflexivity|].
  apply Hcap; [|vm_compute; discriminate].
  intros c' [<-|[]]. vm_compute. discriminate.
Defined.

(** A capacity of [2^31] is refused by the column, also for a class that is
    not there. *)
Example updateClass_out_of_range :
  MClassService.updateClass Sample.newClassId
    {| set_title := None; set_description := None; set_maxParticipants := Some 2147483648;
       set_startAt := None; set_endAt := None |} Sample.dbFull2
  = inl valueOutOfRange.
Proof. reflexivity. Qed.

(** Lowering the capacity of a full class below its occupancy is accepted
    and leaves the class over capacity. *)
Example updateClass_can_overbook :
  match MClassService.updateClass Sample.classId
          {| set_title := None; set_description := None; set_maxParticipants := Some 1;
             set_startAt := None; set_endAt := None |} Sample.dbFull2 with
  | inr (updated, db') =>
      MClass.maxParticipants updated = 1 /\ occupancy Sample.classId db' = 2
  | inl _ => False
  end.
Proof. vm_compute. split; reflexivity. Qed.

(** X13.  [deleteUser] fails with the store's P2025 exactly when the user is
    not stored.  Otherwise the user is gone together with every application
    of theirs, every class they host and every application to such a class,
    and nothing else goes: the other users stay, and so does every
    application of another user to a class of another host. *)
Theorem deleteUser_cascades userId db :
  user_keys_unique db ->
  match UserService.deleteUser userId db with
  | inl error => user_exists userId db = false /\ error = P2025
  | inr (_, db') =>
      user_exists userId db = true /\
      user_exists userId db' = false /\
      (forall other, other <> userId -> user_exists other db' = user_exists other db) /\
      (forall a, In a (applications db') ->
         In a (applications db) /\ Application.userId a <> userId) /\
      (forall c, In c (mclasses db') <-> In c (mclasses db) /\ MClass.hostId c <> userId) /\
      (forall a, In a (applications db) -> Application.userId a <> userId ->
         (forall c, In c (mclasses db) -> MClass.id c = Application.classId a ->
                    MClass.hostId c <> userId) ->
         In a (applications db'))
  end.
Proof.
  intros Hk. pose proof (deleteUser_inv userId db) as Hinv.
  unfold UserService.deleteUser in *. unfold user_delete in *.
  destruct (user_findUnique userId db) as [u|] eqn:Hfind; cbn in *; [|auto].
  destruct Hinv as [Hex _]. split; [exact Hex|].
  split; [|split; [|split; [|split]]].
  - unfold user_exists. cbn [users]. rewrite find_existsb.
    rewrite (find_remove_first_same User.id); auto.
    intros x y Hx Hy. apply String.eqb_eq in Hx, Hy. congruence.
  - intros other Hne. unfold user_exists. cbn [users]. rewrite !find_existsb.
    rewrite find_remove_first_other; auto.
    intros x Hx. apply String.eqb_eq in Hx. apply String.eqb_neq. congruence.
  - intros a Ha. apply filter_In in Ha as [Hin Hc]. split; auto.
    apply andb_prop in Hc as [Hc _]. apply negb_true_iff in Hc.
    unfold ofUser in Hc. now apply String.eqb_neq.
  - intros c. rewrite filter_In. unfold hostedBy. rewrite negb_true_iff, String.eqb_neq.
    reflexivity.
  - intros a Hin Hu Hhost. apply filter_In. split; auto.
    apply andb_true_intro. split; apply negb_true_iff.
    + unfold ofUser. now apply String.eqb_neq.
    + destruct (existsb _ _) eqn:E; auto.
      apply existsb_exists in E as (c & Hc & Hid). apply filter_In in Hc as [Hc Hh].
      unfold hasId in Hid. apply String.eqb_eq in Hid.
      unfold hostedBy in Hh. apply String.eqb_eq in Hh.
      exfalso. exact (Hhost c Hc Hid Hh).
Qed.

Lemma deleteUser_cascades_witness :
  match UserService.deleteUser (User.id Sample.user1) Sample.dbTwoClasses with
  | inl error => user_exists (User.id Sample.user1) Sample.dbTwoClasses = false /\ error = P2025
  | inr (_, db') =>
      user_exists (User.id Sample.user1) Sample.dbTwoClasses = true /\
      user_exists (User.id Sample.user1) db' = false /\
      (forall other, other <> User.id Sample.user1 ->
         user_exists other db' = user_exists other Sample.dbTwoClasses) /\
      (forall a, In a (applications db') ->
         In a (applications Sample.dbTwoClasses) /\
         Application.userId a <> User.id Sample.user1) /\
      (forall c, In c (mclasses db') <->
                 In c (mclasses Sample.dbTwoClasses) /\ MClass.hostId c <> User.id Sample.user1) /\
      (forall a, In a (applications Sample.dbTwoClasses) ->
         Application.userId a <> User.id Sample.user1 ->
         (forall c, In c (mclasses Sample.dbTwoClasses) ->
                    MClass.id c = Application.classId a ->
                    MClass.hostId c <> User.id Sample.user1) ->
         In a (applications db'))
  end.
Proof.
  apply (deleteUser_cascades (User.id Sample.user1) Sample.dbTwoClasses).
  unfold user_keys_unique. cbn. repeat constructor; cbn; intuition discriminate.
Defined.

(** Deleting the host of the two sample classes empties the ledger. *)
Example deleting_a_host_removes_the_classes :
  match UserService.deleteUser (User.id Sample.admin) Sample.dbTwoClasses with
  | inr (_, db') => mclasses db' = [] /\ applications db' = []
  | inl _ => False
  end.
Proof. vm_compute. split; reflexivity. Qed.

(** ** Messages, identifiers and tokens *)

(** X14.  [getUserFriendlyMessage] never passes a technical message on:
    whatever the input, the result is one of its nine fixed messages. *)
Theorem friendly_message_is_one_of_nine message :
  In (ErrorMessages.getUserFriendlyMessage message)
     [ErrorMessages.EMAIL_ALREADY_EXISTS; ErrorMessages.RESOURCE_NOT_FOUND;
      ErrorMessages.AUTHENTICATION_REQUIRED; ErrorMessages.ACCESS_DENIED;
      ErrorMessages.VALIDATION_FAILED; ErrorMessages.TOO_MANY_REQUESTS;
      ErrorMessages.CAPACITY_EXCEEDED; ErrorMessages.ALREADY_APPLIED;
      ErrorMessages.INTERNAL_ERROR].
Proof.
  unfold ErrorMessages.getUserFriendlyMessage.
  repeat match goal with |- context [if ?b then _ else _] => destruct b end;
    cbn [In]; auto 12.
Qed.

(** What it makes of the messages the admission path throws. *)
Example friendly_messages_of_the_admission_errors :
  map ErrorMessages.getUserFriendlyMessage
    ["Class is fully booked"; "User has already applied to this class";
     "Class not found"; "Application not found"; "Invalid user ID or class ID"]
  = [ErrorMessages.CAPACITY_EXCEEDED; ErrorMessages.ALREADY_APPLIED;
     ErrorMessages.RESOURCE_NOT_FOUND; ErrorMessages.RESOURCE_NOT_FOUND;
     ErrorMessages.INTERNAL_ERROR].
Proof. vm_compute. reflexivity. Qed.

Lemma test_spec re s :
  ValidationUtil.test re s = true ->
  String.length s = List.length re /\
  forall i a, String.get i s = Some a ->
              exists c, nth_error re i = Some c /\ ValidationUtil.inClass c a = true.
Proof.
  revert s. induction re as [|c re IH]; intros s; destruct s as [|b s]; cbn [ValidationUtil.test];
    try discriminate.
  - intros _. split; auto. intros i a H. destruct i; discriminate H.
  - intros H. apply andb_prop in H as [Hc Hrest]. destruct (IH s Hrest) as [Hlen Hget].
    split; [cbn; now rewrite Hlen|].
    intros [|i] a Ha; cbn in Ha.
    + injection Ha as <-. exists c. auto.
    + exact (Hget i a Ha).
Qed.

Lemma class_is_hex c a :
  c <> ValidationUtil.Dash -> ValidationUtil.inClass c a = true -> ValidationUtil.isHex a = true.
Proof.
  unfold ValidationUtil.inClass, ValidationUtil.isHex, ValidationUtil.isDigit.
  destruct c; try congruence; intros _ H; auto.
  - apply andb_prop in H as [H1 H2]. apply Nat.leb_le in H1, H2.
    replace (48 <=? nat_of_ascii a)%nat with true by (symmetry; apply Nat.leb_le; lia).
    replace (nat_of_ascii a <=? 57)%nat with true by (symmetry; apply Nat.leb_le; lia).
    reflexivity.
  - repeat (apply orb_prop in H as [H|H]); apply Nat.eqb_eq in H; rewrite H; reflexivity.
Qed.

(** X15.  An identifier that [validateUUID] accepts has exactly 36
    characters, a dash at positions 8, 13, 18 and 23 and a hexadecimal digit
    everywhere else; the empty string is refused with 'UUID is required' and
    any other refused string with 'Invalid UUID format'. *)
Theorem valid_uuid_shape uuid :
  (ValidationUtil.isValid (ValidationUtil.validateUUID uuid) = true ->
   String.length uuid = 36%nat /\
   forall i a, String.get i uuid = Some a ->
     if existsb (Nat.eqb i) [8; 13; 18; 23]%nat then a = "-"%char
     else ValidationUtil.isHex a = true) /\
  (ValidationUtil.isValid (ValidationUtil.validateUUID uuid) = false ->
   ValidationUtil.errors (ValidationUtil.validateUUID uuid)
   = if String.eqb uuid "" then ["UUID is required"] else ["Invalid UUID format"]).
Proof.
  unfold ValidationUtil.validateUUID. destruct uuid as [|b s]; [split; [discriminate|reflexivity]|].
  destruct (ValidationUtil.test ValidationUtil.uuidRegex (String b s)) eqn:E;
    cbn [ValidationUtil.isValid ValidationUtil.errors]; (split; [|try discriminate; reflexivity]);
    [|discriminate].
  intros _. destruct (test_spec _ _ E) as [Hlen Hget]. split; [exact Hlen|].
  intros i a Ha. destruct (Hget i a Ha) as (c & Hc & Hin).
  assert (Hi : (i < List.length ValidationUtil.uuidRegex)%nat)
    by (apply nth_error_Some; rewrite Hc; discriminate).
  change (List.length ValidationUtil.uuidRegex) with 36%nat in Hi.
  destruct (existsb (Nat.eqb i) [8; 13; 18; 23]%nat) eqn:Ed.
  - assert (c = ValidationUtil.Dash).
    { cbn in Ed. repeat (apply orb_prop in Ed as [Ed|Ed]); try discriminate;
        apply Nat.eqb_eq in Ed; subst i; cbn in Hc; congruence. }
    subst c. cbn in Hin. apply Nat.eqb_eq in Hin.
    rewrite <- (ascii_nat_embedding a), Hin. reflexivity.
  - apply (class_is_hex c); auto. intros ->.
    do 36 (destruct i as [|i]; [cbn in Hc, Ed; congruence|]). lia.
Qed.

Lemma valid_uuid_shape_witness :
  String.length Sample.classId = 36%nat.
Proof.
  exact (proj1 (proj1 (valid_uuid_shape Sample.classId) eq_refl)).
Defined.

(** ** [sanitizeString] *)

Section SanitizeFacts.
Import ValidationUtil.

Lemma hasTag_no_gt s : existsChar isGt s = false -> hasTag s = false.
Proof.
  induction s as [|a s IH]; cbn [existsChar hasTag]; auto.
  intros H. apply orb_false_iff in H as [_ H]. rewrite H, (IH H).
  now rewrite andb_false_r.
Qed.

Lemma removeTags_no_tag b s : hasTag (removeTags b s) = false.
Proof.
  revert b. induction s as [|a s IH]; intros b; cbn [removeTags]; [now destruct b|].
  destruct b.
  - destruct (isGt a); apply IH.
  - destruct (isLt a) eqn:El.
    + destruct (existsChar isGt s) eqn:Eg; [apply IH|].
      cbn [hasTag]. rewrite Eg, andb_false_r. now apply hasTag_no_gt.
    + cbn [hasTag]. rewrite El. apply IH.
Qed.

Lemma removeTags_identity s : hasTag s = false -> removeTags false s = s.
Proof.
  induction s as [|a s IH]; cbn [removeTags hasTag]; auto.
  intros H. apply orb_false_iff in H as [H1 H2].
  destruct (isLt a); cbn [andb] in H1.
  - now rewrite H1.
  - now rewrite (IH H2).
Qed.

Lemma removeTags_length b s : (String.length (removeTags b s) <= String.length s)%nat.
Proof.
  revert b. induction s as [|a s IH]; intros b; cbn [removeTags]; [now destruct b|].
  destruct b.
  - destruct (isGt a); cbn [String.length]; [specialize (IH false) | specialize (IH true)]; lia.
  - destruct (isLt a).
    + destruct (existsChar isGt s); cbn [String.length]; [specialize (IH true)|]; lia.
    + cbn [String.length]. specialize (IH false). lia.
Qed.

(** A string obtained by dropping characters has no tag and no character
    of a kind that the original did not have. *)
Inductive Dropped : string -> string -> Prop :=
| dropped_nil : Dropped EmptyString EmptyString
| dropped_keep a s t : Dropped s t -> Dropped (String a s) (String a t)
| dropped_skip a s t : Dropped s t -> Dropped s (String a t).

Lemma Dropped_refl s : Dropped s s.
Proof. induction s; constructor; auto. Qed.

Lemma Dropped_trans s t u : Dropped s t -> Dropped t u -> Dropped s u.
Proof.
  intros H1 H2. revert s H1. induction H2 as [|a t u H IH|a t u H IH]; intros s H1.
  - exact H1.
  - inversion H1; subst; constructor; auto.
  - constructor. auto.
Qed.

Lemma Dropped_existsChar p s t :
  Dropped s t -> existsChar p t = false -> existsChar p s = false.
Proof.
  induction 1 as [|a s t H IH|a s t H IH]; cbn [existsChar]; auto; intros Hf;
    apply orb_false_iff in Hf as [Ha Ht]; auto.
  now rewrite Ha, IH.
Qed.

Lemma Dropped_hasTag s t : Dropped s t -> hasTag t = false -> hasTag s = false.
Proof.
  induction 1 as [|a s t H IH|a s t H IH]; cbn [hasTag]; auto; intros Hf;
    apply orb_false_iff in Hf as [Ha Ht]; auto.
  rewrite (IH Ht), orb_false_r.
  apply andb_false_iff in Ha as [Ha|Ha]; [now rewrite Ha|].
  now rewrite (Dropped_existsChar _ _ _ H Ha), andb_false_r.
Qed.

Lemma Dropped_length s t : Dropped s t -> (String.length s <= String.length t)%nat.
Proof. induction 1; cbn [String.length]; lia. Qed.

Lemma trimStart_Dropped s : Dropped (trimStart s) s.
Proof.
  induction s as [|a s IH]; cbn [trimStart]; [constructor|].
  destruct (isSpace a); [now constructor | apply Dropped_refl].
Qed.

Lemma trimEnd_Dropped s : Dropped (trimEnd s) s.
Proof.
  induction s as [|a s IH]; cbn [trimEnd]; [constructor|].
  destruct (trimEnd s) as [|b k].
  - destruct (isSpace a).
    + inversion IH; subst; constructor; auto; constructor.
    + now constructor.
  - now constructor.
Qed.

Lemma removeNul_Dropped s : Dropped (removeNul s) s.
Proof.
  induction s as [|a s IH]; cbn [removeNul]; [constructor|].
  destruct (isNul a); now constructor.
Qed.

Lemma removeNul_clean s : existsChar isNul (removeNul s) = false.
Proof.
  induction s as [|a s IH]; cbn [removeNul]; auto.
  destruct (isNul a) eqn:E; auto. cbn [existsChar]. now rewrite E.
Qed.

Lemma removeNul_identity s : existsChar isNul s = false -> removeNul s = s.
Proof.
  induction s as [|a s IH]; cbn [removeNul existsChar]; auto.
  intros H. apply orb_false_iff in H as [Ha Hs]. now rewrite Ha, (IH Hs).
Qed.

(** X16.  Whatever the input, the output of [sanitizeString] holds no
    complete tag (no [<] with a [>] after it) and no NUL character, and is
    never longer than the input; an input without a tag and without NUL comes
    out trimmed and otherwise unchanged. *)
Theorem sanitizeString_output input :
  hasTag (sanitizeString input) = false /\
  existsChar isNul (sanitizeString input) = false /\
  (String.length (sanitizeString input) <= String.length input)%nat /\
  (hasTag input = false -> existsChar isNul input = false ->
   sanitizeString input = trim input).
Proof.
  unfold sanitizeString, trim.
  assert (Hd : Dropped (removeNul (trimEnd (trimStart (removeTags false input))))
                 (removeTags false input)).
  { eapply Dropped_trans; [apply removeNul_Dropped|].
    eapply Dropped_trans; [apply trimEnd_Dropped | apply trimStart_Dropped]. }
  split; [|split; [|split]].
  - exact (Dropped_hasTag _ _ Hd (removeTags_no_tag false input)).
  - apply removeNul_clean.
  - pose proof (Dropped_length _ _ Hd). pose proof (removeTags_length false input). lia.
  - intros Ht Hn. rewrite (removeTags_identity _ Ht). apply removeNul_identity.
    eapply Dropped_existsChar; [|exact Hn].
    eapply Dropped_trans; [apply trimEnd_Dropped | apply trimStart_Dropped].
Qed.

End SanitizeFacts.

Lemma sanitizeString_output_witness :
  ValidationUtil.sanitizeString "  Ada Lovelace  " = ValidationUtil.trim "  Ada Lovelace  ".
Proof.
  apply (proj2 (proj2 (proj2 (sanitizeString_output "  Ada Lovelace  ")))); reflexivity.
Defined.

(** The inputs of the repository's unit test, and one input whose output is
    not trimmed: the NUL is removed after trimming. *)
Example sanitizeString_examples :
  map ValidationUtil.sanitizeString
    ["<div>Hello World</div><br/>"; "  Hello World  "; "<<b>>"; "a < b";
     String (ascii_of_nat 0) " a"]
  = ["Hello World"; "Hello World"; ">"; "a < b"; " a"].
Proof. vm_compute. reflexivity. Qed.

(** ** [validatePassword] *)

Lemma pushIf_nil cond msg errors :
  ValidationUtil.pushIf cond msg errors = [] <-> cond = false /\ errors = [].
Proof.
  unfold ValidationUtil.pushIf. destruct cond; split.
  - intros H. apply app_eq_nil in H as [_ H]. discriminate.
  - intros [H _]. discriminate.
  - auto.
  - tauto.
Qed.

Lemma nil_test {A} (l : list A) :
  (match l with [] => true | _ :: _ => false end) = true <-> l = [].
Proof. destruct l; split; auto; discriminate. Qed.

(** X17.  [validatePassword] accepts a password exactly when it has 8 to
    128 characters, at least one lowercase letter, one uppercase letter, one
    digit and one of [@$!%*?&], no character three times in a row and none of
    the common patterns; it accepts exactly when it reports no error. *)
Theorem validatePassword_accepts_iff password :
  (ValidationUtil.isValid (ValidationUtil.validatePassword password) = true <->
   (8 <= String.length password <= 128)%nat /\
   ValidationUtil.existsChar ValidationUtil.isLower password = true /\
   ValidationUtil.existsChar ValidationUtil.isUpper password = true /\
   ValidationUtil.existsChar ValidationUtil.isDigit password = true /\
   ValidationUtil.existsChar ValidationUtil.isSpecial password = true /\
   ValidationUtil.hasTripleRepeat password = false /\
   ValidationUtil.hasCommonPattern password = false) /\
  (ValidationUtil.isValid (ValidationUtil.validatePassword password) = true <->
   ValidationUtil.errors (ValidationUtil.validatePassword password) = []).
Proof.
  unfold ValidationUtil.validatePassword.
  destruct password as [|a s].
  - cbn. split; split; try discriminate. intros [[H _] _]. lia.
  - set (p := String a s). cbv zeta.
    cbn [ValidationUtil.isValid ValidationUtil.errors].
    split; [|apply nil_test]. rewrite nil_test.
    rewrite !pushIf_nil, !negb_false_iff, !Nat.ltb_ge.
    intuition lia.
Qed.

Lemma validatePassword_accepts_iff_witness :
  ValidationUtil.isValid (ValidationUtil.validatePassword "Tr0ub4dor&Zx") = true.
Proof.
  apply (proj2 (proj1 (validatePassword_accepts_iff "Tr0ub4dor&Zx"))).
  repeat split; try reflexivity; cbn; lia.
Defined.

(** The passwords of the repository's unit test. *)
Example validatePassword_examples :
  map (fun p => ValidationUtil.isValid (ValidationUtil.validatePassword p))
    ["StrongPass123!"; "MySecure@Pass1"; "ValidPass9$"; "Short1!"; "UPPERCASE123!";
     "NoSpecialChars123"; "TestPassword111!"; "MyQwerty123!"; "AdminPassword1!"]
  = [true; true; true; false; false; false; false; false; false].
Proof. vm_compute. reflexivity. Qed.

(** ** The bearer token *)

Section SplitFacts.
Import ValidationUtil.
Variable sep : ascii.

Let isSep (a : ascii) : bool := Ascii.eqb a sep.

Lemma split_not_nil s : JwtUtil.split sep s <> [].
Proof.
  destruct s as [|a s]; cbn [JwtUtil.split]; [discriminate|].
  destruct (Ascii.eqb a sep); [discriminate|].
  destruct (JwtUtil.split sep s); discriminate.
Qed.

Lemma split_single s part :
  JwtUtil.split sep s = [part] -> s = part /\ existsChar isSep part = false.
Proof.
  revert part. induction s as [|a s IH]; intros part; cbn [JwtUtil.split].
  - intros [= <-]. auto.
  - destruct (Ascii.eqb a sep) eqn:E.
    + intros [= _ H]. now apply split_not_nil in H.
    + destruct (JwtUtil.split sep s) as [|h t] eqn:Es; [now apply split_not_nil in Es|].
      intros [= <- ->]. destruct (IH h eq_refl) as [-> Hh].
      split; auto. cbn [existsChar]. unfold isSep at 1. now rewrite E.
Qed.

Lemma split_pair s first second :
  JwtUtil.split sep s = [first; second] ->
  s = (first ++ String sep second)%string /\
  existsChar isSep first = false /\ existsChar isSep second = false.
Proof.
  revert first. induction s as [|a s IH]; intros first; cbn [JwtUtil.split];
    [discriminate|].
  destruct (Ascii.eqb a sep) eqn:E.
  - intros [= <- H]. apply split_single in H as [-> Hs].
    apply Ascii.eqb_eq in E. subst a. auto.
  - destruct (JwtUtil.split sep s) as [|h t] eqn:Es; [discriminate|].
    intros [= <- ->]. destruct (IH h eq_refl) as (-> & Hh & Hs).
    repeat split; auto. cbn [existsChar]. unfold isSep at 1. now rewrite E.
Qed.

Lemma split_no_sep s : existsChar isSep s = false -> JwtUtil.split sep s = [s].
Proof.
  induction s as [|a s IH]; cbn [existsChar JwtUtil.split]; auto.
  intros H. apply orb_false_iff in H as [Ha Hs]. unfold isSep in Ha.
  now rewrite Ha, (IH Hs).
Qed.

Lemma split_join first second :
  existsChar isSep first = false -> existsChar isSep second = false ->
  JwtUtil.split sep (first ++ String sep second) = [first; second].
Proof.
  intros Hf Hs. induction first as [|a first IH]; cbn [String.append JwtUtil.split].
  - rewrite Ascii.eqb_refl. now rewrite split_no_sep.
  - cbn [existsChar] in Hf. apply orb_false_iff in Hf as [Ha Hf]. unfold isSep in Ha.
    now rewrite Ha, (IH Hf).
Qed.

End SplitFacts.

(** X18.  [extractTokenFromHeader] returns a token exactly for a header of
    the form [Bearer <token>] with one space and a non-empty token without
    spaces, and then returns that token; any other header, and no header,
    gives nothing. *)
Theorem bearer_token_round_trip authHeader token :
  JwtUtil.extractTokenFromHeader authHeader = Some token <->
  authHeader = Some ("Bearer " ++ token)%string /\ token <> EmptyString /\
  ValidationUtil.existsChar (fun a => Ascii.eqb a " ") token = false.
Proof.
  unfold JwtUtil.extractTokenFromHeader. split.
  - destruct authHeader as [header|]; [|discriminate].
    destruct header as [|a h]; [discriminate|].
    destruct (JwtUtil.split " " (String a h)) as [|scheme [|tok [|x rest]]] eqn:Es;
      try discriminate.
    destruct (String.eqb_spec scheme "Bearer") as [->|]; [|discriminate]. cbn [negb].
    destruct (String.eqb_spec tok ""); [discriminate|].
    intros [= <-]. apply split_pair in Es as (-> & _ & Ht). auto.
  - intros (-> & Hne & Hsp).
    change ("Bearer " ++ token)%string with ("Bearer" ++ String " " token)%string.
    cbn [String.append].
    change (String "B" (String "e" (String "a" (String "r" (String "e"
              (String "r" (String " " token)))))))
      with ("Bearer" ++ String " " token)%string.
    rewrite split_join; auto. cbn [negb String.eqb].
    destruct (String.eqb_spec token ""); [contradiction|]. reflexivity.
Qed.

Lemma bearer_token_round_trip_witness :
  JwtUtil.extractTokenFromHeader (Some "Bearer header.payload.signature")
  = Some "header.payload.signature".
Proof.
  apply (proj2 (bearer_token_round_trip (Some "Bearer header.payload.signature")
                  "header.payload.signature")).
  split; [reflexivity | split; [discriminate | reflexivity]].
Defined.

(** ** Authentication in front of the handlers *)

Section RouteFacts.
Variable jwt_verify : string -> AuthMiddleware.JwtFailure + JwtUtil.JwtPayload.
Variable secretConfigured : bool.

(** The request carries a bearer token that verifies and names a stored
    user [u]. *)
Definition signedInAs (authorization : option string) (db : DB) (u : User.t) : Prop :=
  exists token payload,
    JwtUtil.extractTokenFromHeader authorization = Some token /\
    secretConfigured = true /\
    jwt_verify token = inr payload /\
    user_findUnique (JwtUtil.userId payload) db = Some u.

Definition asUser (u : User.t) : JwtUtil.JwtPayload :=
  {| JwtUtil.userId := User.id u; JwtUtil.email := User.email u;
     JwtUtil.isAdmin := User.isAdmin u |}.

Lemma authenticate_inv {A} authorization db :
  match @AuthMiddleware.authenticate jwt_verify secretConfigured A authorization db with
  | inl response =>
      exists msg, response = Failure 401 "UNAUTHORIZED" msg [] /\
                  In msg ["Access token is required"; "JWT_SECRET is not configured";
                          "Token has expired"; "Invalid token"; "Token verification failed";
                          "User not found"]
  | inr user => exists u, signedInAs authorization db u /\ user = asUser u
  end.
Proof.
  unfold AuthMiddleware.authenticate, AuthMiddleware.verifyToken, signedInAs.
  destruct (JwtUtil.extractTokenFromHeader authorization) as [token|];
    [|eexists; split; [reflexivity|cbn; auto]].
  destruct secretConfigured; cbn [negb];
    [|eexists; split; [reflexivity|cbn; auto]].
  destruct (jwt_verify token) as [[]|payload] eqn:Ev;
    try (eexists; split; [reflexivity|cbn; auto 10]).
  cbn [ret].
  destruct (user_findUnique (JwtUtil.userId payload) db) as [u|] eqn:Eu;
    [|eexists; split; [reflexivity|cbn; auto 10]].
  exists u. split; [|reflexivity]. exists token, payload. auto.
Qed.

Lemma authenticated_inv {A} authorization db
  (handler : JwtUtil.JwtPayload -> Response A * DB) :
  (exists msg, mclassRouter.authenticated jwt_verify secretConfigured authorization db handler
               = (Failure 401 "UNAUTHORIZED" msg [], db)) \/
  (exists u, signedInAs authorization db u /\
             mclassRouter.authenticated jwt_verify secretConfigured authorization db handler
             = handler (asUser u)).
Proof.
  unfold mclassRouter.authenticated.
  pose proof (@authenticate_inv A authorization db) as H.
  destruct (AuthMiddleware.authenticate _ _ authorization db) as [r|user].
  - destruct H as (msg & -> & _). left. eauto.
  - destruct H as (u & Hs & ->). right. eauto.
Qed.

Lemma adminOnly_inv {A} authorization db
  (handler : JwtUtil.JwtPayload -> Response A * DB) :
  (exists st code msg,
     mclassRouter.adminOnly jwt_verify secretConfigured authorization db handler
     = (Failure st code msg [], db) /\
     ((st = 401 /\ code = "UNAUTHORIZED") \/ (st = 403 /\ code = "FORBIDDEN"))) \/
  (exists u, signedInAs authorization db u /\ User.isAdmin u = true /\
             mclassRouter.adminOnly jwt_verify secretConfigured authorization db handler
             = handler (asUser u)).
Proof.
  unfold mclassRouter.adminOnly.
  destruct (authenticated_inv authorization db (fun _ =>
              mclassRouter.authenticated jwt_verify secretConfigured authorization db
                (fun user => match AuthMiddleware.requireAdmin (Some user) with
                             | Some response => (response, db)
                             | None => handler user
                             end))) as [(msg & ->)|(u1 & _ & ->)];
    [left; do 3 eexists; split; [reflexivity|auto]|].
  destruct (authenticated_inv authorization db
              (fun user => match AuthMiddleware.requireAdmin (Some user) with
                           | Some response => (response, db)
                           | None => handler user
                           end)) as [(msg & ->)|(u & Hs & ->)];
    [left; do 3 eexists; split; [reflexivity|auto]|].
  unfold AuthMiddleware.requireAdmin.
  change (JwtUtil.isAdmin (asUser u)) with (User.isAdmin u).
  destruct (User.isAdmin u) eqn:Ea; cbn [negb].
  - right. exists u. auto.
  - left. do 3 eexists. split; [reflexivity|auto].
Qed.

(** X19.  Creating and deleting a class pass the admin gate on the stored
    flag only: if either route changes the store or answers with success,
    the request carried a bearer token that verifies and names a stored user
    whose [isAdmin] is true in the store, whatever the token itself claims;
    every other request is answered 401 or 403 and changes nothing.  A class
    that is created is hosted by that stored user. *)
Theorem admin_routes_need_a_stored_admin now newId authorization body classId db :
  (let (r, db') := mclassRouter.post_mclass jwt_verify secretConfigured now newId
                     authorization body db in
   (isSuccess r = true \/ db' <> db ->
    exists u, signedInAs authorization db u /\ User.isAdmin u = true /\
              forall c, In c (mclasses db') -> ~ In c (mclasses db) ->
                        MClass.hostId c = User.id u) /\
   ((forall u, signedInAs authorization db u -> User.isAdmin u = false) ->
    db' = db /\ (errorCode r = Some "UNAUTHORIZED" \/ errorCode r = Some "FORBIDDEN"))) /\
  (let (r, db') := mclassRouter.delete_mclass jwt_verify secretConfigured
                     authorization classId db in
   (isSuccess r = true \/ db' <> db ->
    exists u, signedInAs authorization db u /\ User.isAdmin u = true) /\
   ((forall u, signedInAs authorization db u -> User.isAdmin u = false) ->
    db' = db /\ (errorCode r = Some "UNAUTHORIZED" \/ errorCode r = Some "FORBIDDEN"))).
Proof.
  split.
  - unfold mclassRouter.post_mclass.
    destruct (adminOnly_inv authorization db (fun user =>
                MClassController.createClass now newId (JwtUtil.userId user) body db))
      as [(st & code & msg & -> & Hst)|(u & Hs & Ha & ->)].
    + split; [intros [H|H]; [discriminate | congruence]|].
      intros _. split; auto. cbn [errorCode].
      destruct Hst as [[_ ->]|[_ ->]]; auto.
    + cbn [asUser JwtUtil.userId].
      destruct (MClassController.createClass now newId (User.id u) body db) as [r db'] eqn:E.
      split.
      * intros _. exists u. split; [exact Hs|]. split; [exact Ha|].
        apply createClass_inv in E as [[_ ->] | (maxP & sd & ed & H)].
        -- intros c Hin Hnot. contradiction.
        -- destruct H as (_ & _ & _ & _ & _ & _ & _ & _ & _ & _ & _ & ->).
           intros c Hin Hnot. cbn [mclasses] in Hin.
           apply in_app_or in Hin as [Hin|[<-|[]]]; [contradiction | reflexivity].
      * intros Hno. rewrite (Hno u Hs) in Ha. discriminate.
  - unfold mclassRouter.delete_mclass.
    destruct (adminOnly_inv authorization db (fun _ =>
                MClassController.deleteClass classId db))
      as [(st & code & msg & -> & Hst)|(u & Hs & Ha & ->)].
    + split; [intros [H|H]; [discriminate | congruence]|].
      intros _. split; auto. cbn [errorCode].
      destruct Hst as [[_ ->]|[_ ->]]; auto.
    + destruct (MClassController.deleteClass classId db) as [r db'] eqn:E.
      split.
      * intros _. exists u. auto.
      * intros Hno. rewrite (Hno u Hs) in Ha. discriminate.
Qed.

End RouteFacts.

Lemma admin_routes_need_a_stored_admin_witness :
  exists u,
    signedInAs Sample.jwt_verify true (Sample.bearer Sample.admin) (Sample.db0 5) u /\
    User.isAdmin u = true /\
    forall c,
      In c (mclasses (snd (mclassRouter.post_mclass Sample.jwt_verify true Sample.t0
                             Sample.newClassId (Sample.bearer Sample.admin)
                             Sample.oneMinuteClass (Sample.db0 5)))) ->
      ~ In c (mclasses (Sample.db0 5)) -> MClass.hostId c = User.id u.
Proof.
  exact (proj1 (proj1 (admin_routes_need_a_stored_admin Sample.jwt_verify true Sample.t0
                         Sample.newClassId (Sample.bearer Sample.admin)
                         Sample.oneMinuteClass Sample.classId (Sample.db0 5)))
           (or_introl eq_refl)).
Defined.


Section ApplyRouteFacts.
Variable jwt_verify : string -> AuthMiddleware.JwtFailure + JwtUtil.JwtPayload.
Variable secretConfigured : bool.



End ApplyRouteFacts.


(** ** More on bursts of applications *)

(** X21.  On a class with [m] of its [N] seats taken, a burst of [K]
    first-time applications from distinct registered users admits exactly
    [min K (N - m)] of them, answers CapacityExceeded to all the others and
    leaves the occupancy at [m + min K (N - m)]. *)
Theorem burst_admits_min_of_requests_and_free_seats classId c calls db rs db' :
  ValidationUtil.isValid (ValidationUtil.validateUUID classId) = true ->
  mClass_findUnique classId db = Some c ->
  occupancy classId db <= MClass.maxParticipants c ->
  Forall (fun call => snd call < MClass.startAt c) calls ->
  NoDup (map fst calls) ->
  Forall (fun call => user_exists (fst call) db = true) calls ->
  Forall (fun call => application_findUnique (fst call) classId db = None) calls ->
  applyAll classId calls db = (rs, db') ->
  let K := Z.of_nat (List.length calls) in
  let free := MClass.maxParticipants c - occupancy classId db in
  count isSuccess rs = Z.min K free /\
  count (failsWith (@CapacityExceeded unit)) rs = K - Z.min K free /\
  occupancy classId db' = occupancy classId db + Z.min K free /\
  occupancy classId db' <= MClass.maxParticipants c.
Proof.
  intros Hvalid Hfind Hle Hopen Hnd Hreg Hnew Hrun K free.
  destruct (applyAll_counts classId c Hvalid calls db rs db'
              Hfind Hopen Hnd Hreg Hnew Hrun) as (Hs & Hf & Ho).
  replace (Z.max 0 (MClass.maxParticipants c - occupancy classId db)) with free in *
    by (unfold free; lia).
  fold K in Hs, Hf, Ho. repeat split; auto. unfold free in *. lia.
Qed.

Lemma burst_admits_min_of_requests_and_free_seats_witness :
  count isSuccess
    (fst (applyAll Sample.otherClassId
            [(User.id Sample.user2, Sample.t0 + 5); (User.id Sample.user3, Sample.t0 + 6);
             (User.id Sample.admin, Sample.t0 + 7)] Sample.dbTwoClasses))
  = Z.min 3 (3 - 1).
Proof.
  refine (proj1 (burst_admits_min_of_requests_and_free_seats Sample.otherClassId
                   Sample.otherClass
                   [(User.id Sample.user2, Sample.t0 + 5); (User.id Sample.user3, Sample.t0 + 6);
                    (User.id Sample.admin, Sample.t0 + 7)] Sample.dbTwoClasses _ _
                   _ _ _ _ _ _ _ (surjective_pairing _))).
  - reflexivity.
  - reflexivity.
  - vm_compute. discriminate.
  - repeat constructor; vm_compute; reflexivity.
  - repeat constructor; cbn; intuition discriminate.
  - repeat constructor.
  - repeat constructor.
Defined.





(** ** Refusals, the creation schema and the figures of a class *)

(** X23.  A request that is refused changes nothing: whenever Apply (also
    when its transaction is aborted from outside), Cancel, class deletion or
    class creation answers with an error, the store it returns is the store
    it was given. *)
Theorem refused_requests_change_nothing db :
  (forall fault now classId userId,
      isSuccess (fst (ApplicationController.applyToClass fault now classId userId db)) = false ->
      snd (ApplicationController.applyToClass fault now classId userId db) = db) /\
  (forall now classId userId,
      isSuccess (fst (ApplicationController.cancelApplication now classId userId db)) = false ->
      snd (ApplicationController.cancelApplication now classId userId db) = db) /\
  (forall classId,
      isSuccess (fst (MClassController.deleteClass classId db)) = false ->
      snd (MClassController.deleteClass classId db) = db) /\
  (forall now newId userId body,
      isSuccess (fst (MClassController.createClass now newId userId body db)) = false ->
      snd (MClassController.createClass now newId userId body db) = db).
Proof.
  repeat split.
  - intros fault now classId userId.
    destruct (ApplicationController.applyToClass fault now classId userId db)
      as [r db'] eqn:E. cbn [fst snd].
    apply applyToClass_inv in E as [[_ ->] | (Hs & _)]; congruence.
  - intros now classId userId.
    destruct (ApplicationController.cancelApplication now classId userId db)
      as [r db'] eqn:E. cbn [fst snd].
    apply cancelApplication_inv in E as [[_ ->] | (Hs & _)]; congruence.
  - intros classId.
    destruct (MClassController.deleteClass classId db) as [r db'] eqn:E. cbn [fst snd].
    apply deleteClass_inv in E as [[_ ->] | (Hs & _)]; congruence.
  - intros now newId userId body.
    destruct (MClassController.createClass now newId userId body db) as [r db'] eqn:E.
    cbn [fst snd].
    apply createClass_inv in E as [[_ ->] | (maxP & sd & ed & H)]; [reflexivity|].
    destruct H as (_ & _ & _ & _ & _ & _ & _ & _ & _ & _ & -> & _). discriminate.
Qed.

Lemma refused_requests_change_nothing_witness :
  snd (ApplicationController.applyToClass None Sample.t0 Sample.classId
         (User.id Sample.user3) Sample.dbFull2)
  = Sample.dbFull2.
Proof.
  apply (proj1 (refused_requests_change_nothing Sample.dbFull2)).
  vm_compute. reflexivity.
Defined.

(** X24.  The creation schema [mclassValidation.create] lets a pair of
    dates through exactly when the class starts in the future, ends after it
    starts and lasts between 30 minutes and 8 hours; its separate test that
    the end lies in the future never decides anything. *)
Theorem schema_accepts_dates_iff now startAt endAt :
  (mclassValidation.create_accepts_dates now startAt endAt = true <->
   now < startAt /\ startAt < endAt /\
   30 * 60 * 1000 <= endAt - startAt <= 8 * 60 * 60 * 1000) /\
  (mclassValidation.startAt_custom now startAt endAt = None ->
   mclassValidation.endAt_custom now startAt endAt <> Some "End date must be in the future").
Proof.
  unfold mclassValidation.create_accepts_dates, mclassValidation.startAt_custom,
    mclassValidation.endAt_custom, mclassValidation.minDuration, mclassValidation.maxDuration.
  destruct (Z.leb_spec startAt now); [split; [split; [discriminate|lia]|discriminate]|].
  destruct (Z.leb_spec endAt startAt); [split; [split; [discriminate|lia]|discriminate]|].
  destruct (Z.leb_spec endAt now); [lia|].
  destruct (Z.ltb_spec (endAt - startAt) (30 * 60 * 1000));
    [split; [split; [discriminate|lia]|discriminate]|].
  destruct (Z.ltb_spec (8 * 60 * 60 * 1000) (endAt - startAt));
    [split; [split; [discriminate|lia]|discriminate]|].
  split; [split; [lia|reflexivity]|discriminate].
Qed.

Lemma schema_accepts_dates_iff_witness :
  mclassValidation.endAt_custom Sample.t0 (Sample.t0 + 86400000)
    (Sample.t0 + 86400000 + 3600000)
  <> Some "End date must be in the future".
Proof.
  apply (proj2 (schema_accepts_dates_iff Sample.t0 (Sample.t0 + 86400000)
                  (Sample.t0 + 86400000 + 3600000))).
  reflexivity.
Defined.

Lemma keeps_bind P {A B} (t : Async.Task A) (k : A -> Async.Task B) :
  Keeps P t -> (forall a, Keeps P (k a)) -> Keeps P (Async.bind t k).
Proof.
  intros Ht Hk. induction Ht as [a|query Hdb _ IH]; cbn [Async.bind]; [apply Hk|].
  constructor; intros db Hp.
  - specialize (Hdb db Hp). destruct (query db) as [t' db']. exact Hdb.
  - specialize (IH db Hp). destruct (query db) as [t' db']. exact IH.
Qed.

Lemma keeps_step P {A} (t : Async.Task A) db :
  Keeps P t -> P db -> Keeps P (fst (Async.step t db)) /\ P (snd (Async.step t db)).
Proof.
  intros Ht Hp. destruct Ht as [a|query Hdb Hnext]; cbn [Async.step fst snd].
  - split; [constructor | exact Hp].
  - split; [now apply Hnext | now apply Hdb].
Qed.

Lemma keeps_stepAt P {A} i (pool : list (Async.Task A)) db :
  Forall (Keeps P) pool -> P db ->
  Forall (Keeps P) (fst (Async.stepAt i pool db)) /\ P (snd (Async.stepAt i pool db)).
Proof.
  revert i db. induction pool as [|t rest IH]; intros i db Hall Hp.
  { destruct i; cbn; split; [constructor | exact Hp | constructor | exact Hp]. }
  apply Forall_cons_iff in Hall as [Ht Hrest].
  destruct i as [|i]; cbn [Async.stepAt].
  - destruct (keeps_step P t db Ht Hp) as [Ht' Hp'].
    destruct (Async.step t db) as [t' db']. cbn [fst snd] in *. auto.
  - destruct (IH i db Hrest Hp) as [Hrest' Hp'].
    destruct (Async.stepAt i rest db) as [rest' db']. cbn [fst snd] in *. auto.
Qed.

Lemma keeps_interleave P {A} schedule (pool : list (Async.Task A)) db :
  Forall (Keeps P) pool -> P db -> P (snd (Async.interleave schedule pool db)).
Proof.
  revert pool db. induction schedule as [|i schedule IH]; intros pool db Hall Hp;
    cbn [Async.interleave]; [exact Hp|].
  destruct (keeps_stepAt P i pool db Hall Hp) as [Hall' Hp'].
  destruct (Async.stepAt i pool db) as [pool' db']. now apply IH.
Qed.

(** Every query of the three ledger handlers keeps the pairs distinct: the
    reads change nothing, the deletes only remove rows, and the insert takes
    a row only for a pair that has none. *)
Lemma call_keeps_pairs op : Keeps pairs_unique (Async.call op).
Proof.
  destruct op as [fault now classId userId | now classId userId | classId];
    cbn [Async.call]; apply keeps_bind; try (intros r; constructor).
  - unfold Async.applyToClass.
    destruct (String.eqb classId ""); [constructor|].
    destruct (negb _); [constructor|].
    constructor; intros db Hp;
      destruct (MClassService.getClassById classId db) as [mclass|];
      cbn [fst snd]; try exact Hp; try constructor;
      destruct (MClass.startAt (MClassService.mclass mclass) <=? now);
      cbn [fst snd]; try exact Hp; try constructor.
    apply keeps_bind; [|intros [error|a]; constructor].
    unfold Async.createApplication.
    cbn [ApplicationService.userId ApplicationService.classId].
    destruct fault as [e|].
    { constructor; intros prisma Hprisma; cbn [fst snd]; [exact Hprisma | constructor]. }
    constructor; intros prisma Hprisma;
      destruct (mClass_findUnique classId prisma) as [classWithCount|];
      cbn [fst snd]; try exact Hprisma; try constructor;
      destruct (MClass.maxParticipants classWithCount
                <=? application_count (ofClass classId) prisma);
      cbn [fst snd]; try exact Hprisma; try constructor.
    { intros prisma2 H2. destruct (application_findUnique userId classId prisma2);
        cbn [fst snd]; exact H2. }
    intros prisma2 H2. destruct (application_findUnique userId classId prisma2);
      cbn [fst snd]; [constructor|].
    constructor; intros prisma3 H3;
      pose proof (unique_index_backstop now userId classId prisma3 H3) as Hidx;
      destruct (application_create now userId classId prisma3) as [error|[a prisma4]];
      cbn [fst snd]; try exact H3; try constructor.
    apply Hidx.
  - unfold Async.cancelApplication.
    destruct (String.eqb classId ""); [constructor|].
    destruct (negb _); [constructor|].
    constructor; intros db Hp;
      destruct (MClassService.getClassById classId db) as [mclass|];
      cbn [fst snd]; try exact Hp; try constructor;
      destruct (MClass.startAt (MClassService.mclass mclass) <=? now);
      cbn [fst snd]; try exact Hp; try constructor.
    + intros db2 H2. unfold ApplicationService.cancelApplication, application_delete.
      destruct (application_findUnique userId classId db2); cbn; [|exact H2].
      unfold pairs_unique in *. cbn [applications]. now apply NoDup_map_remove_first.
    + intros db2 H2.
      destruct (ApplicationService.cancelApplication userId classId db2) as [error|[[] db3]];
        cbn [fst]; [|constructor].
      destruct (includes (message error) "not found"); constructor.
  - unfold Async.deleteClass.
    destruct (String.eqb classId ""); [constructor|].
    destruct (negb _); [constructor|].
    constructor; intros db Hp;
      destruct (MClassService.getClassById classId db) as [existingClass|];
      cbn [fst snd]; try exact Hp; try constructor.
    + intros db2 H2. unfold MClassService.deleteClass, mClass_delete.
      destruct (mClass_findUnique classId db2); cbn; [|exact H2].
      unfold pairs_unique in *. cbn [applications]. now apply NoDup_map_filter.
    + intros db2 H2.
      destruct (MClassService.deleteClass classId db2) as [error|[[] db3]];
        cbn [fst]; [|constructor].
      destruct (includes (message error) "not found"); constructor.
Qed.

(** X25.  The unique index does hold for calls in flight together.
    Whatever ledger calls are in flight and in whatever order the store
    serves their queries, no (user, class) pair ever has two applications.
    In particular, when one user applies twice to an open class with a free
    seat and the queries of the two calls are served in turn, both calls pass
    the capacity check and the duplicate check of the transaction; the first
    insert is stored, the second runs into the index, and the [catch] block of
    [createApplication] turns its P2002 into 'already applied': the second
    call is answered 409 CONFLICT and the ledger has grown by one row. *)
Theorem unique_index_holds_in_flight ops schedule db :
  pairs_unique db ->
  pairs_unique (snd (Async.interleave schedule (map Async.call ops) db)) /\
  (forall now1 now2 classId userId c,
     ValidationUtil.isValid (ValidationUtil.validateUUID classId) = true ->
     mClass_findUnique classId db = Some c ->
     now1 < MClass.startAt c -> now2 < MClass.startAt c ->
     occupancy classId db < MClass.maxParticipants c ->
     user_exists userId db = true ->
     application_findUnique userId classId db = None ->
     let (pool, db') :=
       Async.interleave (Async.inTurn 4 2)
         [Async.applyToClass None now1 classId userId;
          Async.applyToClass None now2 classId userId] db in
     map Async.answer pool
     = [Some (Success 201
                (Application.mk (nextId db) userId classId now1,
                 {| MClassService.mclass := c;
                    MClassService.currentParticipants := occupancy classId db |})
                "Application submitted successfully");
        Some AlreadyApplied] /\
     applications db'
     = (applications db ++ [Application.mk (nextId db) userId classId now1])%list).
Proof.
  intros Hp. split.
  - apply keeps_interleave; [|exact Hp].
    apply Forall_forall. intros t Hin. apply in_map_iff in Hin as (op & <- & _).
    apply call_keeps_pairs.
  - intros now1 now2 classId userId c Hvalid Hfind Hopen1 Hopen2 Hroom Hu Hnew.
    pose proof (reads_in_flight classId c [(userId, now1); (userId, now2)] db Hvalid Hfind)
      as Hreads.
    cbn [map fst snd List.length] in Hreads. rewrite Hreads; clear Hreads.
    + cbn [Async.round map fst snd].
      unfold Async.createApplication_insert, application_create.
      cbn [Async.bind Async.step].
      assert (Hclass : existsb (hasId classId) (mclasses db) = true).
      { unfold mClass_findUnique in Hfind. rewrite find_existsb, Hfind. reflexivity. }
      assert (Hnone : existsb (isFor userId classId) (applications db) = false).
      { unfold application_findUnique in Hnew. rewrite find_existsb, Hnew. reflexivity. }
      rewrite Hnone, Hu, Hclass. cbn [negb Js.ret Async.bind Async.step applications].
      rewrite existsb_app. cbn [existsb]. unfold isFor at 2.
      cbn [Application.userId Application.classId].
      rewrite !String.eqb_refl, orb_true_r.
      cbn [Js.throw Async.createApplication_throws Async.applyToClass_respond
           Async.answer map applications].
      split; reflexivity.
    + repeat constructor; assumption.
    + repeat constructor; assumption.
    + exact Hroom.
Qed.

Lemma unique_index_holds_in_flight_witness :
  pairs_unique (Sample.db0 1) /\
  pairs_unique
    (snd (Async.interleave [0; 1; 2; 0; 1; 2; 2; 0; 1; 0; 1; 2]%nat
            (map Async.call
               [Apply None Sample.t0 Sample.classId (User.id Sample.user1);
                Apply None (Sample.t0 + 1) Sample.classId (User.id Sample.user1);
                Cancel (Sample.t0 + 2) Sample.classId (User.id Sample.user1)])
            (Sample.db0 1))).
Proof.
  assert (Hp : pairs_unique (Sample.db0 1)) by constructor.
  split; [exact Hp|].
  exact (proj1 (unique_index_holds_in_flight _ _ _ Hp)).
Defined.

(** X26.  In a store where no class is over capacity, the details of a
    class add up: [availableSpots + currentParticipants = maxParticipants],
    [isFullyBooked] is set exactly when no spot is available, and the two
    statistics reads give the same three numbers. *)
Theorem class_figures_add_up classId db :
  capacity_ok db ->
  match MClassController.getClassById classId db with
  | Success status (m, s) _ =>
      status = 200 /\
      MClassController.availableSpots s + MClassService.currentParticipants m
        = MClass.maxParticipants (MClassService.mclass m) /\
      (MClassController.isFullyBooked s = true <-> MClassController.availableSpots s = 0) /\
      ApplicationService.getApplicationStats classId db
        = Some {| ApplicationService.currentApplications := MClassService.currentParticipants m;
                  ApplicationService.maxParticipants :=
                    MClass.maxParticipants (MClassService.mclass m);
                  ApplicationService.availableSpots := MClassController.availableSpots s;
                  ApplicationService.isFullyBooked := MClassController.isFullyBooked s |} /\
      MClassService.getClassStats classId db
        = Some {| MClassService.stats_currentParticipants := MClassService.currentParticipants m;
                  MClassService.maxParticipants :=
                    MClass.maxParticipants (MClassService.mclass m);
                  MClassService.availableSpots := MClassController.availableSpots s;
                  MClassService.isFullyBooked := MClassController.isFullyBooked s |}
  | Failure status _ _ _ =>
      (status = 400 \/ status = 404) /\
      (ValidationUtil.isValid (ValidationUtil.validateUUID classId) = true ->
       ApplicationService.getApplicationStats classId db = None)
  end.
Proof.
  intros Hcap. unfold MClassController.getClassById.
  destruct (String.eqb classId "") eqn:Ee.
  { cbn. split; auto. apply String.eqb_eq in Ee. subst. discriminate. }
  destruct (ValidationUtil.isValid (ValidationUtil.validateUUID classId)); cbn [negb];
    [|cbn; split; [auto|discriminate]].
  unfold MClassService.getClassById, ApplicationService.getApplicationStats,
    MClassService.getClassStats.
  destruct (mClass_findUnique classId db) as [c|] eqn:Hfind; [|cbn; auto].
  destruct (findUnique_id _ _ _ Hfind) as [Hin Hid].
  pose proof (Hcap c Hin) as Hle. rewrite Hid in Hle. unfold occupancy in Hle.
  cbn [MClassController.summary MClassController.availableSpots
       MClassController.isFullyBooked MClassService.mclass MClassService.currentParticipants].
  set (n := application_count (ofClass classId) db) in *.
  split; [reflexivity|]. split; [lia|]. split; [rewrite Z.leb_le; lia|].
  split; do 2 f_equal.
  - destruct (Z.leb_spec (MClass.maxParticipants c) n);
      destruct (Z.leb_spec (MClass.maxParticipants c - n) 0); auto; lia.
  - destruct (Z.leb_spec (MClass.maxParticipants c) n);
      destruct (Z.leb_spec (MClass.maxParticipants c - n) 0); auto; lia.
Qed.

Lemma class_figures_add_up_witness :
  match MClassController.getClassById Sample.otherClassId Sample.dbTwoClasses with
  | Success status (m, s) _ =>
      MClassController.availableSpots s + MClassService.currentParticipants m
      = MClass.maxParticipants (MClassService.mclass m)
  | Failure _ _ _ _ => False
  end.
Proof.
  assert (Hcap : capacity_ok Sample.dbTwoClasses).
  { intros c [<-|[<-|[]]]; vm_compute; discriminate. }
  pose proof (class_figures_add_up Sample.otherClassId Sample.dbTwoClasses Hcap) as H.
  destruct (MClassController.getClassById Sample.otherClassId Sample.dbTwoClasses)
    as [status [m s] msg|] eqn:E; [apply H|].
  vm_compute in E. discriminate E.
Defined.

(** X27.  Cancelling does not bar a user from the class: after their own
    Cancel the same user is admitted again (also to a class that was full),
    the occupancy is what it was, and their new application is the newest row
    of the ledger, stamped with the time of the second Apply. *)
Theorem cancel_then_reapply now1 now2 classId userId c a db :
  pairs_unique db ->
  ValidationUtil.isValid (ValidationUtil.validateUUID classId) = true ->
  mClass_findUnique classId db = Some c ->
  now1 < MClass.startAt c -> now2 < MClass.startAt c ->
  occupancy classId db <= MClass.maxParticipants c ->
  application_findUnique userId classId db = Some a ->
  user_exists userId db = true ->
  let (r1, db1) := ApplicationController.cancelApplication now1 classId userId db in
  let (r2, db2) := ApplicationController.applyToClass None now2 classId userId db1 in
  isSuccess r1 = true /\ isSuccess r2 = true /\
  occupancy classId db2 = occupancy classId db /\
  applications db2
  = (remove_first (isFor userId classId) (applications db)
     ++ [Application.mk (nextId db) userId classId now2])%list.
Proof.
  intros Hp Hvalid Hfind Ho1 Ho2 Hle Ha Hu.
  rewrite (cancel_deletes now1 classId userId db Hvalid c Hfind Ho1 a Ha).
  set (db1 := mkDB _ _ _ _).
  assert (Hocc1 : occupancy classId db1 = occupancy classId db - 1).
  { unfold occupancy, application_count, db1. cbn [applications].
    pose proof (count_remove_first_sub (ofClass classId) (isFor userId classId)
                  (applications db)) as Hc.
    unfold count in Hc. apply Hc.
    - intros x Hx. unfold isFor in Hx. apply andb_prop in Hx. apply Hx.
    - rewrite find_existsb. unfold application_findUnique in Ha. now rewrite Ha. }
  assert (Hnew1 : application_findUnique userId classId db1 = None).
  { unfold application_findUnique, db1. cbn [applications].
    apply (find_remove_first_same pair); auto.
    intros x y Hx Hy. unfold isFor, pair in *.
    apply andb_prop in Hx as [Hx1 Hx2]. apply andb_prop in Hy as [Hy1 Hy2].
    apply String.eqb_eq in Hx1, Hx2, Hy1, Hy2. congruence. }
  assert (Hroom : occupancy classId db1 < MClass.maxParticipants c) by lia.
  rewrite (apply_admits now2 classId userId db1 c Hvalid Hfind Ho2 Hroom Hnew1 Hu).
  split; [reflexivity|]. split; [reflexivity|]. split; [|reflexivity].
  unfold occupancy, application_count in *. cbn [applications].
  pose proof (count_app (ofClass classId) (applications db1)
                (Application.mk (nextId db1) userId classId now2)) as Hc.
  unfold count in Hc. rewrite Hc. unfold ofClass at 2. cbn [Application.classId].
  rewrite String.eqb_refl. lia.
Qed.

Lemma cancel_then_reapply_witness :
  let (r1, db1) := ApplicationController.cancelApplication (Sample.t0 + 5) Sample.classId
                     (User.id Sample.user1) Sample.dbFull2 in
  let (r2, db2) := ApplicationController.applyToClass None (Sample.t0 + 6) Sample.classId
                     (User.id Sample.user1) db1 in
  isSuccess r1 = true /\ isSuccess r2 = true /\
  occupancy Sample.classId db2 = occupancy Sample.classId Sample.dbFull2 /\
  applications db2
  = (remove_first (isFor (User.id Sample.user1) Sample.classId) (applications Sample.dbFull2)
     ++ [Application.mk (nextId Sample.dbFull2) (User.id Sample.user1) Sample.classId
           (Sample.t0 + 6)])%list.
Proof.
  apply (cancel_then_reapply (Sample.t0 + 5) (Sample.t0 + 6) Sample.classId
           (User.id Sample.user1) (Sample.testClass 2)
           (Sample.app 0 Sample.user1 Sample.t0) Sample.dbFull2).
  - unfold pairs_unique. cbn. repeat constructor; cbn; intuition discriminate.
  - reflexivity.
  - reflexivity.
  - vm_compute. reflexivity.
  - vm_compute. reflexivity.
  - vm_compute. discriminate.
  - reflexivity.
  - reflexivity.
Defined.

(* ================================================================== *)
(** * The admin routes and the caller's own rows *)

Lemma find_update_first_users id other isAdmin l :
  find (fun u => String.eqb (User.id u) other)
       (update_first (fun u => String.eqb (User.id u) id) (setAdmin isAdmin) l)
  = if String.eqb other id
    then option_map (setAdmin isAdmin) (find (fun u => String.eqb (User.id u) id) l)
    else find (fun u => String.eqb (User.id u) other) l.
Proof.
  induction l as [|u l IH]; cbn [update_first find option_map].
  - now destruct (String.eqb other id).
  - destruct (String.eqb (User.id u) id) eqn:Eu; cbn [find setAdmin User.id].
    + apply String.eqb_eq in Eu. rewrite Eu.
      rewrite (String.eqb_sym id other).
      destruct (String.eqb other id) eqn:Eo; [reflexivity|].
      reflexivity.
    + destruct (String.eqb (User.id u) other) eqn:Eo.
      * apply String.eqb_eq in Eo. subst other. rewrite Eu. reflexivity.
      * exact IH.
Qed.

Lemma update_first_users_columns id isAdmin l :
  map User.id (update_first (fun u => String.eqb (User.id u) id) (setAdmin isAdmin) l)
  = map User.id l /\
  map User.email (update_first (fun u => String.eqb (User.id u) id) (setAdmin isAdmin) l)
  = map User.email l.
Proof.
  induction l as [|u l [IH1 IH2]]; cbn [update_first map]; [auto|].
  destruct (String.eqb (User.id u) id); cbn [map setAdmin User.id User.email];
    [auto | rewrite IH1, IH2; auto].
Qed.

Lemma promote_keeps_admins id l :
  existsb User.isAdmin l = true ->
  existsb User.isAdmin
    (update_first (fun u => String.eqb (User.id u) id) (setAdmin (Some true)) l) = true.
Proof.
  induction l as [|u l IH]; cbn [update_first existsb]; [auto|].
  destruct (String.eqb (User.id u) id); cbn [existsb setAdmin orKeep User.isAdmin];
    [reflexivity|].
  destruct (User.isAdmin u); cbn [orb]; auto.
Qed.

Lemma update_first_keeps {A} (p : A -> bool) f l x :
  In x l -> p x = false -> In x (update_first p f l).
Proof.
  induction l as [|y l IH]; cbn [update_first In]; [auto|].
  intros [->|Hin] Hp.
  - rewrite Hp. now left.
  - destruct (p y); [now right | right; auto].
Qed.

Section AdminRouteFacts.
Variable jwt_verify : string -> AuthMiddleware.JwtFailure + JwtUtil.JwtPayload.
Variable secretConfigured : bool.
Variable recordNotFound : JsError.

Lemma admin_gate_inv {A} authorization db
  (handler : JwtUtil.JwtPayload -> Response A * DB) :
  (exists st code msg,
     adminRouter.adminOnly jwt_verify secretConfigured authorization db handler
     = (Failure st code msg [], db) /\
     ((st = 401 /\ code = "UNAUTHORIZED") \/ (st = 403 /\ code = "FORBIDDEN"))) \/
  (exists u, signedInAs jwt_verify secretConfigured authorization db u /\
             User.isAdmin u = true /\
             adminRouter.adminOnly jwt_verify secretConfigured authorization db handler
             = handler (asUser u)).
Proof.
  unfold adminRouter.adminOnly.
  pose proof (@authenticate_inv jwt_verify secretConfigured A authorization db) as H.
  destruct (AuthMiddleware.authenticate _ _ authorization db) as [r|user].
  - destruct H as (msg & -> & _). left. do 3 eexists. split; [reflexivity|auto].
  - destruct H as (u & Hs & ->). unfold AuthMiddleware.requireAdmin.
    change (JwtUtil.isAdmin (asUser u)) with (User.isAdmin u).
    destruct (User.isAdmin u) eqn:Ea; cbn [negb].
    + right. exists u. auto.
    + left. do 3 eexists. split; [reflexivity|auto].
Qed.

Lemma promoteToAdmin_inv userId db r db' :
  AdminController.promoteToAdmin recordNotFound userId db = (r, db') ->
  (isSuccess r = false /\ db' = db) \/
  (exists target,
     user_findUnique userId db = Some target /\
     r = Success 200 (setAdmin (Some true) target) "User promoted to admin successfully" /\
     db' = mkDB (update_first (fun u => String.eqb (User.id u) userId)
                   (setAdmin (Some true)) (users db))
                (mclasses db) (applications db) (nextId db)).
Proof.
  unfold AdminController.promoteToAdmin, UserService.updateUser, user_update.
  destruct (String.eqb userId ""); [intros [= <- <-]; auto|].
  destruct (negb (ValidationUtil.isValid (ValidationUtil.validateUUID userId)));
    [intros [= <- <-]; auto|].
  cbn [UserService.isAdmin].
  destruct (user_findUnique userId db) as [target|]; cbn [throw ret].
  - intros [= <- <-]. right. eauto.
  - destruct (Js.includes _ _); intros [= <- <-]; auto.
Qed.

Lemma demoteAdmin_inv user userId db r db' :
  AdminController.demoteAdmin recordNotFound (Some user) userId db = (r, db') ->
  (isSuccess r = false /\ db' = db) \/
  (exists target,
     JwtUtil.userId user <> userId /\
     user_findUnique userId db = Some target /\
     r = Success 200 (setAdmin (Some false) target) "Admin privileges removed successfully" /\
     db' = mkDB (update_first (fun u => String.eqb (User.id u) userId)
                   (setAdmin (Some false)) (users db))
                (mclasses db) (applications db) (nextId db)).
Proof.
  unfold AdminController.demoteAdmin, UserService.updateUser, user_update.
  destruct (String.eqb userId ""); [intros [= <- <-]; auto|].
  destruct (negb (ValidationUtil.isValid (ValidationUtil.validateUUID userId)));
    [intros [= <- <-]; auto|].
  destruct (String.eqb userId (JwtUtil.userId user)) eqn:Eself; [intros [= <- <-]; auto|].
  apply String.eqb_neq in Eself.
  cbn [UserService.isAdmin].
  destruct (user_findUnique userId db) as [target|]; cbn [throw ret].
  - intros [= <- <-]. right. exists target. repeat split; auto.
  - destruct (Js.includes _ _); intros [= <- <-]; auto.
Qed.

Lemma serve_step request db :
  let db' := snd (adminRouter.serve jwt_verify secretConfigured recordNotFound request db) in
  (hasAdmin db = true -> hasAdmin db' = true) /\
  map User.id (users db') = map User.id (users db) /\
  map User.email (users db') = map User.email (users db) /\
  mclasses db' = mclasses db /\ applications db' = applications db /\
  nextId db' = nextId db.
Proof.
  destruct request as [authorization userId | authorization userId];
    cbn [adminRouter.serve]; unfold adminRouter.put_promote, adminRouter.put_demote.
  - destruct (admin_gate_inv authorization db (fun _ =>
                AdminController.promoteToAdmin recordNotFound userId db))
      as [(st & code & msg & -> & _)|(u & Hs & Ha & ->)]; [cbn [snd]; tauto|].
    destruct (AdminController.promoteToAdmin recordNotFound userId db) as [r db'] eqn:E.
    apply promoteToAdmin_inv in E as [[_ ->]|(target & _ & _ & ->)]; cbn [snd];
      [tauto|].
    cbn [users mclasses applications nextId].
    destruct (update_first_users_columns userId (Some true) (users db)) as [Hi He].
    repeat split; auto.
    unfold hasAdmin. cbn [users]. apply promote_keeps_admins.
  - destruct (admin_gate_inv authorization db (fun user =>
                AdminController.demoteAdmin recordNotFound (Some user) userId db))
      as [(st & code & msg & -> & _)|(u & Hs & Ha & ->)]; [cbn [snd]; tauto|].
    destruct (AdminController.demoteAdmin recordNotFound (Some (asUser u)) userId db)
      as [r db'] eqn:E.
    apply demoteAdmin_inv in E as [[_ ->]|(target & Hne & _ & _ & ->)]; cbn [snd];
      [tauto|].
    cbn [users mclasses applications nextId].
    destruct (update_first_users_columns userId (Some false) (users db)) as [Hi He].
    repeat split; auto.
    intros _. unfold hasAdmin. cbn [users].
    destruct Hs as (token & payload & _ & _ & _ & Hf).
    unfold user_findUnique in Hf. apply find_some in Hf as [Hin _].
    apply (existsb_In _ _ u); [|exact Ha].
    apply update_first_keeps; [exact Hin|].
    apply String.eqb_neq. exact Hne.
Qed.

(** Under a unique [id], an update by id leaves the rows of the other ids
    and puts the rewritten row in the place of the one it found. *)
Lemma update_first_unique_in id isAdmin l u :
  NoDup (map User.id l) ->
  In u (update_first (fun u => String.eqb (User.id u) id) (setAdmin isAdmin) l) ->
  (In u l /\ User.id u <> id) \/
  (exists x, find (fun u => String.eqb (User.id u) id) l = Some x /\ u = setAdmin isAdmin x).
Proof.
  induction l as [|y l IH]; cbn [update_first In map find]; [tauto|].
  intros Hnd Hin. apply NoDup_cons_iff in Hnd as [Hy Hnd].
  destruct (String.eqb (User.id y) id) eqn:Ey.
  - apply String.eqb_eq in Ey. destruct Hin as [<-|Hin]; [right; eauto|].
    left. split; [now right|]. intros Heq. apply Hy. rewrite Ey, <- Heq.
    now apply in_map.
  - apply String.eqb_neq in Ey. destruct Hin as [<-|Hin]; [left; split; auto|].
    destruct (IH Hnd Hin) as [[Hl Hne]|Hx]; [left; split; auto | right; exact Hx].
Qed.

(** A demotion whose caller passed the admin gate: what is left of it is
    the one update. *)
Lemma put_demote_after_the_gate authorization db caller userId :
  signedInAs jwt_verify secretConfigured authorization db caller ->
  User.isAdmin caller = true ->
  ValidationUtil.isValid (ValidationUtil.validateUUID userId) = true ->
  userId <> User.id caller ->
  Async.step (Async.put_demote jwt_verify secretConfigured recordNotFound authorization userId) db
  = (Async.demoteAdmin recordNotFound (Some (asUser caller)) userId, db) /\
  exists update,
    Async.demoteAdmin recordNotFound (Some (asUser caller)) userId = Async.Await update /\
    forall db1 target,
      user_findUnique userId db1 = Some target ->
      update db1
      = (Async.Return (Success 200 (setAdmin (Some false) target)
                         "Admin privileges removed successfully"),
         mkDB (update_first (fun u => String.eqb (User.id u) userId) (setAdmin (Some false))
                 (users db1))
              (mclasses db1) (applications db1) (nextId db1)).
Proof.
  intros (token & payload & Et & Hsec & Hj & Hf) Hadmin Hvalid Hne.
  split.
  - unfold Async.put_demote, Async.adminOnly, AuthMiddleware.verifyToken.
    rewrite Et, Hsec, Hj. cbn [negb ret Async.step]. rewrite Hf.
    unfold AuthMiddleware.requireAdmin. cbn [JwtUtil.isAdmin]. rewrite Hadmin.
    reflexivity.
  - unfold Async.demoteAdmin.
    destruct (String.eqb userId "") eqn:Ee.
    { apply String.eqb_eq in Ee. subst userId. vm_compute in Hvalid. discriminate. }
    rewrite Hvalid. cbn [negb asUser JwtUtil.userId].
    apply String.eqb_neq in Hne. rewrite Hne.
    eexists. split; [reflexivity|].
    intros db1 target Ht. unfold UserService.updateUser, user_update.
    cbn [UserService.isAdmin]. rewrite Ht. reflexivity.
Qed.

(** X28.  The promotion and demotion routes and the last administrator.
    Served one after the other, each to its end, requests to the two routes
    never leave the system without an administrator, and they change nothing
    but [isAdmin] flags: ids, emails, classes and applications are what they
    were.  In flight together they can: [adminOnly] reads the caller's row in
    one query and [updateUser] writes in a later one, so when two admins,
    the only ones, each ask for the demotion of the other and both pass the
    gate before either update runs, both are answered 200 and no admin is
    left. *)
Theorem last_admin_is_kept_in_sequence_only requests db :
  hasAdmin db = true ->
  (let db' := adminRouter.serveAll jwt_verify secretConfigured recordNotFound requests db in
   hasAdmin db' = true /\
   map User.id (users db') = map User.id (users db) /\
   map User.email (users db') = map User.email (users db) /\
   mclasses db' = mclasses db /\ applications db' = applications db) /\
  (forall authorizationA authorizationB a b,
     user_keys_unique db ->
     signedInAs jwt_verify secretConfigured authorizationA db a ->
     signedInAs jwt_verify secretConfigured authorizationB db b ->
     User.isAdmin a = true -> User.isAdmin b = true ->
     User.id a <> User.id b ->
     ValidationUtil.isValid (ValidationUtil.validateUUID (User.id a)) = true ->
     ValidationUtil.isValid (ValidationUtil.validateUUID (User.id b)) = true ->
     (forall u, In u (users db) -> User.isAdmin u = true -> u = a \/ u = b) ->
     let (pool, db') :=
       Async.interleave [0; 1; 0; 1]%nat
         [Async.put_demote jwt_verify secretConfigured recordNotFound authorizationA (User.id b);
          Async.put_demote jwt_verify secretConfigured recordNotFound authorizationB (User.id a)]
         db in
     map Async.answer pool
     = [Some (Success 200 (setAdmin (Some false) b) "Admin privileges removed successfully");
        Some (Success 200 (setAdmin (Some false) a) "Admin privileges removed successfully")] /\
     hasAdmin db' = false /\
     map User.id (users db') = map User.id (users db)).
Proof.
  intros Hadmin. split.
  { revert db Hadmin.
    induction requests as [|request rest IH]; intros db Hadmin;
      cbn [adminRouter.serveAll]; [auto|].
    destruct (serve_step request db) as (Ha & Hi & He & Hm & Hp & _).
    specialize (IH _ (Ha Hadmin)). cbn zeta in IH.
    destruct IH as (Ha' & Hi' & He' & Hm' & Hp').
    cbn zeta. repeat split; congruence. }
  intros authorizationA authorizationB a b Hkeys HsA HsB HaA HaB Hne HvA HvB Honly.
  assert (HfA : user_findUnique (User.id a) db = Some a).
  { destruct HsA as (? & payload & _ & _ & _ & Hf). pose proof Hf as Hf'.
    unfold user_findUnique in Hf'. apply find_some in Hf' as [_ Hid].
    apply String.eqb_eq in Hid. now rewrite Hid. }
  assert (HfB : user_findUnique (User.id b) db = Some b).
  { destruct HsB as (? & payload & _ & _ & _ & Hf). pose proof Hf as Hf'.
    unfold user_findUnique in Hf'. apply find_some in Hf' as [_ Hid].
    apply String.eqb_eq in Hid. now rewrite Hid. }
  destruct (put_demote_after_the_gate authorizationA db a (User.id b) HsA HaA HvB
              (fun H => Hne (eq_sym H))) as (HgateA & updateA & HdA & HupA).
  destruct (put_demote_after_the_gate authorizationB db b (User.id a) HsB HaB HvA Hne)
    as (HgateB & updateB & HdB & HupB).
  cbn [Async.interleave Async.stepAt].
  rewrite HgateA. cbn [Async.stepAt]. rewrite HgateB.
  rewrite HdA, HdB. cbn [Async.step].
  rewrite (HupA db b HfB).
  set (db1 := mkDB _ _ _ _).
  assert (HfA1 : user_findUnique (User.id a) db1 = Some a).
  { unfold user_findUnique, db1. cbn [users]. rewrite find_update_first_users.
    apply String.eqb_neq in Hne. rewrite Hne. exact HfA. }
  cbn [Async.step]. rewrite (HupB db1 a HfA1). cbn [map Async.answer].
  split; [reflexivity|].
  destruct (update_first_users_columns (User.id b) (Some false) (users db)) as [Hids1 _].
  destruct (update_first_users_columns (User.id a) (Some false) (users db1)) as [Hids2 _].
  split.
  - unfold hasAdmin. cbn [users]. apply Bool.not_true_is_false. intros Hex.
    apply existsb_exists in Hex as (u & Hin & Hu).
    apply update_first_unique_in in Hin.
    2:{ unfold db1. cbn [users]. rewrite Hids1. exact Hkeys. }
    destruct Hin as [[Hin HneA]|(x & _ & ->)]; [|discriminate Hu].
    unfold db1 in Hin. cbn [users] in Hin.
    apply update_first_unique_in in Hin; [|exact Hkeys].
    destruct Hin as [[Hin HneB]|(x & _ & ->)]; [|discriminate Hu].
    destruct (Honly u Hin Hu) as [->| ->]; congruence.
  - cbn [users]. rewrite Hids2. unfold db1. cbn [users]. exact Hids1.
Qed.

Lemma admin_gate_cases {A} authorization db
  (handler : JwtUtil.JwtPayload -> Response A * DB) :
  (exists msg,
     adminRouter.adminOnly jwt_verify secretConfigured authorization db handler
     = (Failure 401 "UNAUTHORIZED" msg [], db) /\
     forall u, ~ signedInAs jwt_verify secretConfigured authorization db u) \/
  (exists u,
     signedInAs jwt_verify secretConfigured authorization db u /\
     (forall u', signedInAs jwt_verify secretConfigured authorization db u' -> u' = u) /\
     adminRouter.adminOnly jwt_verify secretConfigured authorization db handler
     = if User.isAdmin u then handler (asUser u)
       else (Failure 403 "FORBIDDEN" "Admin privileges required" [], db)).
Proof.
  unfold adminRouter.adminOnly, AuthMiddleware.authenticate, AuthMiddleware.verifyToken,
    signedInAs.
  destruct (JwtUtil.extractTokenFromHeader authorization) as [token|].
  2:{ left. eexists. split; [reflexivity|]. intros u (t & p & [=] & _). }
  destruct secretConfigured; cbn [negb].
  2:{ left. eexists. split; [reflexivity|]. intros u (t & p & _ & [=] & _). }
  destruct (jwt_verify token) as [failure|payload] eqn:Ev.
  { left. destruct failure; (eexists; split; [reflexivity|]);
      intros u (t & p & [= <-] & _ & Hv & _); congruence. }
  cbn [ret].
  destruct (user_findUnique (JwtUtil.userId payload) db) as [u|] eqn:Eu.
  2:{ left. eexists. split; [reflexivity|].
      intros u (t & p & [= <-] & _ & Hv & Hf). congruence. }
  right. exists u. split; [exists token, payload; auto|].
  split; [intros u' (t & p & [= <-] & _ & Hv & Hf); congruence|].
  unfold AuthMiddleware.requireAdmin, asUser. cbn [JwtUtil.isAdmin].
  destruct (User.isAdmin u); reflexivity.
Qed.

(** X29.  What the two routes do to a user.  If the demotion route answers
    with success or changes the store, the caller is a stored admin other
    than the user demoted; afterwards that user is found with [isAdmin]
    false, the caller is found as before, still an admin, and every other
    lookup is unchanged.  A caller who names their own id is always refused
    (400 or 403) and nothing changes.  If the promotion route answers with
    success, the user promoted is found with [isAdmin] true afterwards and
    every other lookup is unchanged.  A refusal of either route leaves the
    store as it was. *)
Theorem demotion_spares_the_caller authorization userId db :
  (let (r, db') := adminRouter.put_demote jwt_verify secretConfigured recordNotFound
                     authorization userId db in
   (isSuccess r = true \/ db' <> db ->
    exists caller target,
      signedInAs jwt_verify secretConfigured authorization db caller /\
      User.isAdmin caller = true /\ User.id caller <> userId /\
      user_findUnique userId db = Some target /\
      r = Success 200 (setAdmin (Some false) target) "Admin privileges removed successfully" /\
      user_findUnique userId db' = Some (setAdmin (Some false) target) /\
      user_findUnique (User.id caller) db' = user_findUnique (User.id caller) db /\
      (forall other, other <> userId ->
         user_findUnique other db' = user_findUnique other db)) /\
   (forall caller,
      signedInAs jwt_verify secretConfigured authorization db caller ->
      User.id caller = userId ->
      db' = db /\
      exists msg details,
        r = Failure 400 "VALIDATION_ERROR" msg details \/
        r = Failure 403 "FORBIDDEN" msg details) /\
   (isSuccess r = false -> db' = db)) /\
  (let (r, db') := adminRouter.put_promote jwt_verify secretConfigured recordNotFound
                     authorization userId db in
   (isSuccess r = true ->
    exists caller target,
      signedInAs jwt_verify secretConfigured authorization db caller /\
      User.isAdmin caller = true /\
      user_findUnique userId db = Some target /\
      r = Success 200 (setAdmin (Some true) target) "User promoted to admin successfully" /\
      user_findUnique userId db' = Some (setAdmin (Some true) target) /\
      (forall other, other <> userId ->
         user_findUnique other db' = user_findUnique other db)) /\
   (isSuccess r = false -> db' = db)).
Proof.
  assert (Hlookup : forall isAdmin other,
             user_findUnique other
               (mkDB (update_first (fun u => String.eqb (User.id u) userId)
                        (setAdmin isAdmin) (users db))
                     (mclasses db) (applications db) (nextId db))
             = if String.eqb other userId
               then option_map (setAdmin isAdmin) (user_findUnique userId db)
               else user_findUnique other db).
  { intros. unfold user_findUnique. cbn [users]. apply find_update_first_users. }
  split.
  - unfold adminRouter.put_demote.
    destruct (admin_gate_cases authorization db (fun user =>
                AdminController.demoteAdmin recordNotFound (Some user) userId db))
      as [(msg & -> & Hnone)|(u & Hs & Huniq & ->)].
    { split; [intros [H|H]; [discriminate | congruence]|].
      split; [|reflexivity]. intros caller Hc _. destruct (Hnone _ Hc). }
    destruct (User.isAdmin u) eqn:Ea.
    2:{ split; [intros [H|H]; [discriminate | congruence]|].
        split; [|reflexivity]. intros caller _ _. split; [reflexivity|]. eauto. }
    destruct (AdminController.demoteAdmin recordNotFound (Some (asUser u)) userId db)
      as [r db'] eqn:E.
    pose proof E as Einv.
    apply demoteAdmin_inv in Einv as [[Hf ->]|(target & Hne & Ht & -> & ->)].
    + split; [intros [H|H]; congruence|]. split; [|reflexivity].
      intros caller Hc Hid. split; [reflexivity|].
      apply Huniq in Hc. subst caller.
      revert E. unfold AdminController.demoteAdmin.
      destruct (String.eqb userId "");
        [intros [= <-]; unfold createValidationError; eauto|].
      destruct (negb (ValidationUtil.isValid (ValidationUtil.validateUUID userId)));
        [intros [= <-]; unfold createValidationError; eauto|].
      cbn [asUser JwtUtil.userId]. rewrite Hid, String.eqb_refl. intros [= <-]. eauto.
    + cbn [asUser JwtUtil.userId] in Hne.
      split.
      * intros _. exists u, target. repeat split; auto.
        -- rewrite Hlookup, String.eqb_refl, Ht. reflexivity.
        -- rewrite Hlookup. apply String.eqb_neq in Hne. now rewrite Hne.
        -- intros other Ho. rewrite Hlookup. apply String.eqb_neq in Ho. now rewrite Ho.
      * split; [|discriminate].
        intros caller Hc Hid. apply Huniq in Hc. subst caller. contradiction.
  - unfold adminRouter.put_promote.
    destruct (admin_gate_cases authorization db (fun _ =>
                AdminController.promoteToAdmin recordNotFound userId db))
      as [(msg & -> & Hnone)|(u & Hs & Huniq & ->)].
    { split; [discriminate | reflexivity]. }
    destruct (User.isAdmin u) eqn:Ea; [|split; [discriminate | reflexivity]].
    destruct (AdminController.promoteToAdmin recordNotFound userId db) as [r db'] eqn:E.
    apply promoteToAdmin_inv in E as [[Hf ->]|(target & Ht & -> & ->)].
    + split; [congruence | reflexivity].
    + split; [|discriminate].
      intros _. exists u, target. repeat split; auto.
      * rewrite Hlookup, String.eqb_refl, Ht. reflexivity.
      * intros other Ho. rewrite Hlookup. apply String.eqb_neq in Ho. now rewrite Ho.
Qed.

(** X30.  Behind [authenticate], the cancel route touches nothing but the
    caller's own application: a refusal leaves the store as it was, and a
    success means that the request carried a bearer token that verifies and
    names a stored user, that this user had an application to the class, and
    that exactly this row is gone, every other row still there in the same
    order, whoever else applied to the class. *)
Theorem cancel_route_removes_only_the_callers_row now authorization classId db :
  let (r, db') := mclassRouter.delete_apply jwt_verify secretConfigured now
                    authorization classId db in
  (isSuccess r = false -> db' = db) /\
  (isSuccess r = true ->
   exists u a before after,
     signedInAs jwt_verify secretConfigured authorization db u /\
     Application.userId a = User.id u /\ Application.classId a = classId /\
     applications db = (before ++ a :: after)%list /\
     applications db' = (before ++ after)%list /\
     users db' = users db /\ mclasses db' = mclasses db /\
     forall b, In b (applications db) -> Application.userId b <> User.id u ->
               In b (applications db')).
Proof.
  unfold mclassRouter.delete_apply.
  destruct (authenticated_inv jwt_verify secretConfigured authorization db (fun user =>
              ApplicationController.cancelApplication now classId (JwtUtil.userId user) db))
    as [(msg & ->)|(u & Hs & ->)]; [split; [reflexivity | discriminate]|].
  cbn [asUser JwtUtil.userId].
  destruct (ApplicationController.cancelApplication now classId (User.id u) db)
    as [r db'] eqn:E.
  apply cancelApplication_inv in E as [[Hf ->]|(Hok & Hex & ->)];
    [split; [reflexivity | congruence]|].
  split; [congruence|]. intros _.
  destruct (find (isFor (User.id u) classId) (applications db)) as [a|] eqn:Ef.
  2:{ rewrite find_existsb, Ef in Hex. discriminate. }
  destruct (remove_first_split _ _ _ Ef) as (before & after & Hsplit & Hrem & Hp & _).
  unfold isFor in Hp. apply andb_prop in Hp as [Hu Hc].
  apply String.eqb_eq in Hu, Hc.
  exists u, a, before, after. cbn [users mclasses applications].
  repeat split; auto.
  intros b Hin Hb. apply remove_first_keeps; [exact Hin|].
  unfold isFor. apply andb_false_iff. left. now apply String.eqb_neq.
Qed.

End AdminRouteFacts.

Lemma last_admin_is_kept_in_sequence_only_witness :
  hasAdmin Sample.dbTwoAdmins = true /\
  (let db' := adminRouter.serveAll Sample.jwt_verify true Sample.recordNotFound
                [adminRouter.Demote (Sample.bearer Sample.admin) (User.id Sample.user1);
                 adminRouter.Demote (Sample.bearer Sample.user1) (User.id Sample.admin);
                 adminRouter.Promote (Sample.bearer Sample.admin) (User.id Sample.user2)]
                Sample.dbTwoAdmins in
   hasAdmin db' = true /\
   map User.id (users db') = map User.id (users Sample.dbTwoAdmins) /\
   map User.email (users db') = map User.email (users Sample.dbTwoAdmins) /\
   mclasses db' = mclasses Sample.dbTwoAdmins /\
   applications db' = applications Sample.dbTwoAdmins) /\
  (let (pool, db') :=
     Async.interleave [0; 1; 0; 1]%nat
       [Async.put_demote Sample.jwt_verify true Sample.recordNotFound
          (Sample.bearer Sample.admin) (User.id Sample.user1);
        Async.put_demote Sample.jwt_verify true Sample.recordNotFound
          (Sample.bearer Sample.user1) (User.id Sample.admin)]
       Sample.dbTwoAdmins in
   map Async.answer pool
   = [Some (Success 200 (setAdmin (Some false) (setAdmin (Some true) Sample.user1))
              "Admin privileges removed successfully");
      Some (Success 200 (setAdmin (Some false) Sample.admin)
              "Admin privileges removed successfully")] /\
   hasAdmin db' = false /\
   map User.id (users db') = map User.id (users Sample.dbTwoAdmins)).
Proof.
  assert (Hadmin : hasAdmin Sample.dbTwoAdmins = true) by reflexivity.
  pose proof (last_admin_is_kept_in_sequence_only Sample.jwt_verify true Sample.recordNotFound
                [adminRouter.Demote (Sample.bearer Sample.admin) (User.id Sample.user1);
                 adminRouter.Demote (Sample.bearer Sample.user1) (User.id Sample.admin);
                 adminRouter.Promote (Sample.bearer Sample.admin) (User.id Sample.user2)]
                Sample.dbTwoAdmins Hadmin) as [Hseq Hrace].
  split; [exact Hadmin|]. split; [exact Hseq|].
  apply (Hrace (Sample.bearer Sample.admin) (Sample.bearer Sample.user1)
           Sample.admin (setAdmin (Some true) Sample.user1)).
  - unfold user_keys_unique. cbn. repeat (constructor; [cbn; intuition discriminate|]).
    constructor.
  - exists (User.id Sample.admin),
      {| JwtUtil.userId := User.id Sample.admin; JwtUtil.email := "";
         JwtUtil.isAdmin := false |}.
    repeat split.
  - exists (User.id Sample.user1),
      {| JwtUtil.userId := User.id Sample.user1; JwtUtil.email := "";
         JwtUtil.isAdmin := false |}.
    repeat split.
  - reflexivity.
  - reflexivity.
  - cbn. discriminate.
  - vm_compute. reflexivity.
  - vm_compute. reflexivity.
  - intros u Hin Hu. cbn in Hin.
    destruct Hin as [<-|[<-|[<-|[<-|[]]]]]; try discriminate Hu; auto.
Defined.

(** Five requests served in sequence on the sample store end with [user1]
    as the only admin: the first admin promoted them and was then demoted by
    them, after which the former admin is refused and the new one cannot
    demote themselves. *)
Example admins_after_the_sample_requests :
  map User.isAdmin
    (users (adminRouter.serveAll Sample.jwt_verify true Sample.recordNotFound
              [adminRouter.Demote (Sample.bearer Sample.admin) (User.id Sample.user1);
               adminRouter.Promote (Sample.bearer Sample.admin) (User.id Sample.user1);
               adminRouter.Demote (Sample.bearer Sample.user1) (User.id Sample.admin);
               adminRouter.Demote (Sample.bearer Sample.admin) (User.id Sample.admin);
               adminRouter.Demote (Sample.bearer Sample.user1) (User.id Sample.user1)]
              (Sample.db0 5)))
  = [false; true; false; false].
Proof. vm_compute. reflexivity. Qed.

Lemma demotion_spares_the_caller_witness :
  exists msg details,
    fst (adminRouter.put_demote Sample.jwt_verify true Sample.recordNotFound
           (Sample.bearer Sample.admin) (User.id Sample.admin) (Sample.db0 5))
    = Failure 400 "VALIDATION_ERROR" msg details \/
    fst (adminRouter.put_demote Sample.jwt_verify true Sample.recordNotFound
           (Sample.bearer Sample.admin) (User.id Sample.admin) (Sample.db0 5))
    = Failure 403 "FORBIDDEN" msg details.
Proof.
  pose proof (proj1 (demotion_spares_the_caller Sample.jwt_verify true Sample.recordNotFound
                       (Sample.bearer Sample.admin) (User.id Sample.admin) (Sample.db0 5)))
    as (_ & Hself & _).
  destruct (Hself Sample.admin) as [_ Hr]; [|reflexivity|exact Hr].
  exists (User.id Sample.admin),
    {| JwtUtil.userId := User.id Sample.admin; JwtUtil.email := ""; JwtUtil.isAdmin := false |}.
  repeat split.
Defined.

Lemma cancel_route_removes_only_the_callers_row_witness :
  exists u a before after,
    signedInAs Sample.jwt_verify true (Sample.bearer Sample.user1) Sample.dbFull2 u /\
    Application.userId a = User.id u /\ Application.classId a = Sample.classId /\
    applications Sample.dbFull2 = (before ++ a :: after)%list /\
    applications (snd (mclassRouter.delete_apply Sample.jwt_verify true (Sample.t0 + 5)
                         (Sample.bearer Sample.user1) Sample.classId Sample.dbFull2))
    = (before ++ after)%list.
Proof.
  destruct (proj2 (cancel_route_removes_only_the_callers_row Sample.jwt_verify true
                     (Sample.t0 + 5) (Sample.bearer Sample.user1) Sample.classId
                     Sample.dbFull2) eq_refl)
    as (u & a & before & after & Hs & Hu & Hc & Hsplit & Hrest & _).
  exists u, a, before, after. auto.
Defined.
